(** * oseama: a shallow embedding of [src/oseama.c]

    The tool reads, builds and extracts entities of Seama "sealed
    containers".  This development embeds the three operations
    ([oseama_info], [oseama_entity], [oseama_extract]) together with their
    helpers, and states properties of the container codec against them.

    Modelling conventions.
    - C integers are [Z]; the conversions the code performs between
      [size_t] and [ssize_t] are written out, and the 16- and 32-bit
      header fields are their big-endian wire bytes.
    - A [FILE *] is a record: contents, position, and whether the
      descriptor supports [fseek].  Reads past the end are short.
    - [stdout] is a list of printed lines, [stderr] a list of diagnostics.
    - A loop of the C code is a [Fixpoint] on a fuel counter; the caller
      computes the fuel from the bytes left in the stream the loop
      consumes, and running out of fuel is the distinguished result
      [Fuel].  Every theorem below establishes an [Ok] (or [Undef]) result.
    - A path names one file, and standard input is none of them.
      [fopen (p, "w")] empties the file [p]: a stream already open on it
      finds nothing to read, and a later [fopen (p, "r")] reads the empty
      file (what the run has written to [p] since then is still in the
      buffer of its stream).
    - Whether [malloc] grants a request is for the machine to say, except
      that the 1 to 3 bytes of an alignment are taken to be granted.
    - Writes to the destination are assumed to succeed in full; a source
      that fails to open and a stream that ends early are modelled.
    - The MD5 primitives come from [md5.h], which is not part of the
      translation unit; they are the interface [MD5]. *)

From Stdlib.Strings Require Import String Byte.
From Stdlib Require Import ZArith List Lia Bool.
Import ListNotations.
Local Open Scope Z_scope.

Set Implicit Arguments.

(* ================================================================== *)
(** * Machine integers *)

Definition size_t (z : Z) : Z := z mod 2 ^ 64.
Definition ssize_t (z : Z) : Z := (z + 2 ^ 63) mod 2 ^ 64 - 2 ^ 63.
Definition INT_MAX : Z := 2 ^ 31 - 1.

Definition EIO : Z := 5.
Definition ENOMEM : Z := 12.
Definition EACCES : Z := 13.
Definition EINVAL : Z := 22.

Definition SEAMA_MAGIC : Z := 0x5ea3a417.

Definition oseama_min (x y : Z) : Z := if x <? y then x else y.

(* ================================================================== *)
(** * Bytes and the big-endian wire encoding *)

Definition NUL : byte := x00.

Definition byte_Z (b : byte) : Z := Z.of_N (Byte.to_N b).

Definition Z_byte (z : Z) : byte :=
  match Byte.of_N (Z.to_N (z mod 256)) with
  | Some b => b
  | None => x00
  end.

Definition len {A} (l : list A) : Z := Z.of_nat (length l).

(** [be_decode] reads a big-endian field; [be_encode n] writes the low
    [n] bytes of a value, most significant first. *)
Definition be_decode (bs : list byte) : Z :=
  fold_left (fun acc b => Z.lor (Z.shiftl acc 8) (byte_Z b)) bs 0.

Fixpoint be_encode (n : nat) (z : Z) : list byte :=
  match n with
  | O => []
  | S k => Z_byte (Z.shiftr z (8 * Z.of_nat k)) :: be_encode k z
  end.

(** The four conversion macros.  A header field is kept as its wire
    bytes, so the macros are the same on either host byte order. *)
Definition be32_to_cpu (field : list byte) : Z := be_decode field.
Definition be16_to_cpu (field : list byte) : Z := be_decode field.
Definition cpu_to_be32 (x : Z) : list byte := be_encode 4 x.
Definition cpu_to_be16 (x : Z) : list byte := be_encode 2 x.

(* ================================================================== *)
(** * The two packed headers *)

Record seama_seal_header := {
  seal_magic : list byte;       (* uint32_t *)
  seal_reserved : list byte;    (* uint16_t *)
  seal_metasize : list byte;    (* uint16_t *)
  seal_imagesize : list byte    (* uint32_t *)
}.

Record seama_entity_header := {
  magic : list byte;            (* uint32_t *)
  reserved : list byte;         (* uint16_t *)
  metasize : list byte;         (* uint16_t *)
  imagesize : list byte;        (* uint32_t *)
  md5 : list byte               (* uint8_t [16] *)
}.

(** [sizeof] of the two packed structs: 4 + 2 + 2 + 4, and 16 more for
    the digest. *)
Definition sizeof_seal_hdr : Z := 12.
Definition sizeof_hdr : Z := 28.

Definition slice (off n : nat) (raw : list byte) : list byte :=
  firstn n (skipn off raw).

(** What [fread (&hdr, 1, sizeof (hdr), fp)] leaves in the struct. *)
Definition seal_header_of_bytes (raw : list byte) : seama_seal_header :=
  {| seal_magic := slice 0 4 raw;
     seal_reserved := slice 4 2 raw;
     seal_metasize := slice 6 2 raw;
     seal_imagesize := slice 8 4 raw |}.

Definition entity_header_of_bytes (raw : list byte) : seama_entity_header :=
  {| magic := slice 0 4 raw;
     reserved := slice 4 2 raw;
     metasize := slice 6 2 raw;
     imagesize := slice 8 4 raw;
     md5 := slice 12 16 raw |}.

(** What [fwrite (&hdr, 1, sizeof (hdr), fp)] sends out. *)
Definition seal_header_bytes (h : seama_seal_header) : list byte :=
  seal_magic h ++ seal_reserved h ++ seal_metasize h ++ seal_imagesize h.

Definition entity_header_bytes (h : seama_entity_header) : list byte :=
  magic h ++ reserved h ++ metasize h ++ imagesize h ++ md5 h.

(* ================================================================== *)
(** * Results *)

(** Behaviour the C standard leaves undefined. *)
Inductive undefined :=
| StoreOutOfBounds (index : Z)   (* store outside [buf[0..1023]] *)
| ReadOutOfBounds                (* [strlen] ran off the end of [buf] *)
| ReadUninitialised              (* [strlen] read a byte never written *)
| SignedOverflow.                (* [i++] on [INT_MAX] *)

Inductive res (A : Type) :=
| Ok (a : A)
| Undef (u : undefined)
| Fuel.

Arguments Ok {A} a.
Arguments Undef {A} u.
Arguments Fuel {A}.

Definition bind {A B} (c : res A) (k : A -> res B) : res B :=
  match c with
  | Ok a => k a
  | Undef u => Undef u
  | Fuel => Fuel
  end.

Notation "x <- c ;; k" := (bind c (fun x => k))
  (at level 61, c at next level, right associativity).
Notation "' p <- c ;; k" := (bind c (fun x => let 'p := x in k))
  (at level 61, p pattern, c at next level, right associativity).

Definition res_map {A B} (f : A -> B) (c : res A) : res B :=
  match c with
  | Ok a => Ok (f a)
  | Undef u => Undef u
  | Fuel => Fuel
  end.

Notation "f <$> c" := (res_map f c) (at level 65, right associativity).

(** Lines of [stdout]. *)
Inductive out_line :=
| OutBlank
| OutEntityOffset (v : Z)
| OutEntitySize (v : Z)
| OutMetaSize (v : Z)
| OutImageSize (v : Z)
| OutMetaEntry (s : list byte).

(** Diagnostics of [stderr], one constructor per [fprintf]. *)
Inductive diag :=
| ErrTTY                                (* Reading from TTY stdin is unsupported *)
| ErrNoFile                             (* No Seama file passed *)
| ErrNoEntity                           (* No entity specified *)
| ErrOpen (path : string)               (* Couldn't open %s *)
| ErrReadHeader (path : string)         (* Couldn't read %s header *)
| ErrMagic (v : Z)                      (* Invalid Seama magic: 0x%08x *)
| ErrBufTooSmall (cap need : Z)         (* Too small buffer ... *)
| ErrImageSize (v : Z)                  (* Invalid Seama image size ... *)
| ErrReadMeta (need : Z)                (* Couldn't read %zd B of meta *)
| ErrWrite (n : Z)                      (* Couldn't write %zu B to %s *)
| ErrWriteMeta (s : list byte)          (* Failed to write meta %s *)
| ErrAppendZeros                        (* Failed to append zeros *)
| ErrAppendFile (path : string)         (* Failed to append file %s *)
| ErrPad (curr target : Z)              (* ... can't pad it with zeros to 0x%lx *)
| ErrWriteHdr                           (* Couldn't write Seama entity header *)
| ErrExtract (idx left : Z).            (* Couldn't extract whole entity ... *)

(* ================================================================== *)
(** * Streams *)

Record FILE := mkFILE {
  f_data : list byte;
  f_pos : nat;
  f_seekable : bool
}.

Definition remaining (fp : FILE) : nat := length (f_data fp) - f_pos fp.

(** [fread (buf, 1, n, fp)]: the bytes delivered and the stream after. *)
Definition fread (n : Z) (fp : FILE) : list byte * FILE :=
  let bs := firstn (Z.to_nat n) (skipn (f_pos fp) (f_data fp)) in
  (bs, mkFILE (f_data fp) (f_pos fp + length bs) (f_seekable fp)).

(** [fseek (fp, off, SEEK_CUR)] and [fseek (fp, off, SEEK_SET)]: the
    return value and the stream after.  Seeking past the end is allowed. *)
Definition fseek_cur (off : Z) (fp : FILE) : Z * FILE :=
  if f_seekable fp && (0 <=? Z.of_nat (f_pos fp) + off) then
    (0, mkFILE (f_data fp) (Z.to_nat (Z.of_nat (f_pos fp) + off)) (f_seekable fp))
  else (-1, fp).

Definition fseek_set (off : Z) (fp : FILE) : Z * FILE :=
  if f_seekable fp && (0 <=? off) then
    (0, mkFILE (f_data fp) (Z.to_nat off) (f_seekable fp))
  else (-1, fp).

(** [fwrite (bs, 1, n, fp)]: the count written and the stream after.
    Writing behind a gap left by [fseek] fills the gap with zero bytes;
    writing nothing changes nothing. *)
Definition fwrite (bs : list byte) (fp : FILE) : Z * FILE :=
  match bs with
  | [] => (0, fp)
  | _ =>
    let d := f_data fp in
    let p := f_pos fp in
    (len bs,
     mkFILE (firstn p d ++ repeat NUL (p - length d) ++ bs
               ++ skipn (p + length bs) d)
            (p + length bs) (f_seekable fp))
  end.

(** The files of the machine, its standard input, and its allocator. *)
Record world := {
  w_files : string -> option (list byte);   (* what [fopen (p, "r")] reads *)
  w_creatable : string -> bool;             (* whether [fopen (p, "w")] succeeds *)
  w_stdin : list byte;
  w_stdin_tty : bool;
  w_stdin_seekable : bool;
  w_malloc : Z -> bool                      (* whether [malloc (n)] is granted *)
}.

Definition fopen_r (w : world) (pathname : string) : option FILE :=
  match w_files w pathname with
  | Some d => Some (mkFILE d 0 true)
  | None => None
  end.

(** The machine after [fopen (pathname, "w")] has emptied [pathname]. *)
Definition emptied (w : world) (pathname : string) : world :=
  {| w_files := fun p => if String.eqb p pathname then Some [] else w_files w p;
     w_creatable := w_creatable w;
     w_stdin := w_stdin w;
     w_stdin_tty := w_stdin_tty w;
     w_stdin_seekable := w_stdin_seekable w;
     w_malloc := w_malloc w |}.

(** [fopen (pathname, "w")] and [fopen (pathname, "w+")]: the new stream
    and the machine afterwards, in which [pathname] is an empty file. *)
Definition fopen_w (w : world) (pathname : string) : option (FILE * world) :=
  if w_creatable w pathname then
    Some (mkFILE [] 0 true, emptied w pathname)
  else None.

(** A stream that [oseama_open] gave for [opened], from which nothing
    has been read yet, after [fopen (pathname, "w")]: when [pathname] is
    the file it reads, the file is empty now. *)
Definition after_fopen_w (pathname opened : string) (fp : FILE) : FILE :=
  if String.eqb pathname opened && negb (String.eqb opened "-") then
    mkFILE [] (f_pos fp) (f_seekable fp)
  else fp.

(** Whether [malloc (n)] returns a buffer.  The machine decides; a
    request of 1 to 3 bytes, as [oseama_entity_align] makes it, is taken
    to be granted. *)
Definition malloc (w : world) (n : Z) : bool :=
  ((1 <=? n) && (n <=? 3)) || w_malloc w n.

Definition stdin (w : world) : FILE :=
  mkFILE (w_stdin w) 0 (w_stdin_seekable w).

(* ================================================================== *)
(** * Helpers *)

Definition oseama_open (w : world) (pathname : string)
  : option FILE * list diag :=
  if negb (String.eqb pathname "-") then (fopen_r w pathname, [])
  else if w_stdin_tty w then (None, [ErrTTY])
  else (Some (stdin w), []).

(** The read-and-discard loop of [oseama_skip]; its body runs before the
    test [while (length)]. *)
Fixpoint oseama_skip_loop (fuel : nat) (fp : FILE) (length : Z)
  : res (Z * FILE) :=
  match fuel with
  | O => Fuel
  | S fuel' =>
    let '(got, fp1) := fread (oseama_min 1024 length) fp in
    let bytes := len got in
    if bytes <=? 0 then Ok (- EIO, fp1)
    else
      let length := size_t (length - bytes) in
      if negb (length =? 0) then oseama_skip_loop fuel' fp1 length
      else Ok (0, fp1)
  end.

Definition oseama_skip (fp : FILE) (length : Z) : res (Z * FILE) :=
  let '(rc, fp1) := fseek_cur (ssize_t length) fp in
  if negb (rc =? 0) then oseama_skip_loop (S (remaining fp1)) fp1 length
  else Ok (0, fp1).

(* ================================================================== *)
(** * Info *)

(** [uint8_t buf[1024]]: a cell is [None] until something is stored in
    it.  Pointers into the array are indices. *)
Definition BUFSZ : Z := 1024.                 (* sizeof (buf) *)
Definition buffer := list (option byte).
Definition buf_uninit : buffer := repeat None (Z.to_nat BUFSZ).

(** What [fread (buf, 1, n, fp)] leaves in the array. *)
Definition buf_fill (got : list byte) (buf : buffer) : buffer :=
  map Some got ++ skipn (length got) buf.

(** [buf[index] = b]. *)
Definition buf_store (index : Z) (b : byte) (buf : buffer) : res buffer :=
  if (0 <=? index) && (index <? BUFSZ) then
    Ok (firstn (Z.to_nat index) buf ++ Some b
          :: skipn (S (Z.to_nat index)) buf)
  else Undef (StoreOutOfBounds index).

(** The NUL-terminated string that starts at the head of [cells]. *)
Fixpoint c_string (cells : list (option byte)) : res (list byte) :=
  match cells with
  | [] => Undef ReadOutOfBounds
  | None :: _ => Undef ReadUninitialised
  | Some b :: rest =>
    if Byte.eqb b NUL then Ok []
    else s <- c_string rest ;; Ok (b :: s)
  end.

Definition string_at (buf : buffer) (tmp : Z) : res (list byte) :=
  c_string (skipn (Z.to_nat tmp) buf).

(** [for (tmp = buf; tmp < end && strlen (tmp); tmp += strlen (tmp) + 1)
      printf ("Meta entry:\t%s\n", tmp);] *)
Fixpoint meta_entries_loop (fuel : nat) (buf : buffer) (tmp end_ : Z)
  : res (list out_line) :=
  match fuel with
  | O => Fuel
  | S fuel' =>
    if tmp <? end_ then
      s <- string_at buf tmp ;;
      if negb (len s =? 0) then
        rest <- meta_entries_loop fuel' buf (tmp + len s + 1) end_ ;;
        Ok (OutMetaEntry s :: rest)
      else Ok []
    else Ok []
  end.

(** The metadata decode shared by [oseama_info] and
    [oseama_info_entities]:
      [end = (char * )&buf[metasize - 1]; *end = '\0'; for (...) ...]
    With [metasize = 0] the index expression designates the byte before
    the array, whichever integer type [metasize] has. *)
Definition meta_entries (buf : buffer) (metasize : Z)
  : res (buffer * list out_line) :=
  let end_ := metasize - 1 in
  buf <- buf_store end_ NUL buf ;;
  out <- meta_entries_loop (Z.to_nat BUFSZ) buf 0 end_ ;;
  Ok (buf, out).

(** [i++] on an [int]. *)
Definition int_incr (i : Z) : res Z :=
  if i <? INT_MAX then Ok (i + 1) else Undef SignedOverflow.

(** What [oseama_info_entities] hands back: its return value, the final
    [*pos], and what it printed. *)
Record entities_result := {
  ie_err : Z;
  ie_pos : Z;
  ie_stdout : list out_line;
  ie_stderr : list diag
}.

Fixpoint oseama_info_entities_loop (fuel : nat) (entity_idx : Z)
    (seama : FILE) (pos : Z) (i : Z) (buf : buffer) (out : list out_line)
  : res entities_result :=
  match fuel with
  | O => Fuel
  | S fuel' =>
    let '(raw, seama) := fread sizeof_hdr seama in
    let bytes := len raw in
    if negb (bytes =? sizeof_hdr) then
      Ok {| ie_err := 0; ie_pos := pos; ie_stdout := out; ie_stderr := [] |}
    else
      let hdr := entity_header_of_bytes raw in
      let pos := size_t (pos + bytes) in
      if negb (be32_to_cpu (magic hdr) =? SEAMA_MAGIC) then
        Ok {| ie_err := - EINVAL; ie_pos := pos; ie_stdout := out;
              ie_stderr := [ErrMagic (be32_to_cpu (magic hdr))] |}
      else
        let metasize := be16_to_cpu (metasize hdr) in
        let imagesize := be32_to_cpu (imagesize hdr) in
        if (0 <=? entity_idx) && negb (i =? entity_idx) then
          ' (_, seama) <- oseama_skip seama (size_t (metasize + imagesize)) ;;
          let pos := size_t (pos + size_t (metasize + imagesize)) in
          i <- int_incr i ;;
          oseama_info_entities_loop fuel' entity_idx seama pos i buf out
        else if BUFSZ <=? metasize then
          Ok {| ie_err := - EINVAL; ie_pos := pos; ie_stdout := out;
                ie_stderr := [ErrBufTooSmall BUFSZ metasize] |}
        else
          let out :=
            out ++ (if entity_idx <? 0 then [OutBlank] else [])
                ++ [OutEntityOffset (ssize_t (size_t (pos - sizeof_hdr)));
                    OutEntitySize (size_t (sizeof_hdr + metasize + imagesize));
                    OutMetaSize metasize;
                    OutImageSize imagesize] in
          let '(got, seama) := fread metasize seama in
          let buf := buf_fill got buf in
          let bytes := len got in
          if negb (bytes =? metasize) then
            Ok {| ie_err := - EIO; ie_pos := pos; ie_stdout := out;
                  ie_stderr := [ErrReadMeta metasize] |}
          else
            let pos := size_t (pos + bytes) in
            ' (buf, entries) <- meta_entries buf metasize ;;
            let out := out ++ entries in
            ' (_, seama) <- oseama_skip seama imagesize ;;
            let pos := size_t (pos + imagesize) in
            i <- int_incr i ;;
            oseama_info_entities_loop fuel' entity_idx seama pos i buf out
  end.

Definition oseama_info_entities (entity_idx : Z) (seama : FILE) (pos : Z)
  : res entities_result :=
  oseama_info_entities_loop (S (remaining seama)) entity_idx seama pos 0
    buf_uninit [].

(** What a run of the tool leaves behind: the value [main] returns and
    the two text streams. *)
Record run := {
  status : Z;
  stdout : list out_line;
  stderr : list diag
}.

(** [oseama info <file> [-e idx]].  [seama_path] is [None] when
    [argc < 3]; [entity_idx] is the global after option parsing ([-1]
    when no [-e] was given). *)
Definition oseama_info (w : world) (seama_path : option string)
    (entity_idx : Z) : res run :=
  match seama_path with
  | None => Ok {| status := - EINVAL; stdout := []; stderr := [ErrNoFile] |}
  | Some seama_path =>
    match oseama_open w seama_path with
    | (None, e) =>
      Ok {| status := - EACCES; stdout := [];
            stderr := e ++ [ErrOpen seama_path] |}
    | (Some seama, _) =>
      let '(raw, seama) := fread sizeof_seal_hdr seama in
      let bytes := len raw in
      if negb (bytes =? sizeof_seal_hdr) then
        Ok {| status := - EIO; stdout := [];
              stderr := [ErrReadHeader seama_path] |}
      else
        let hdr := seal_header_of_bytes raw in
        let pos := size_t (0 + bytes) in
        let metasize := be16_to_cpu (seal_metasize hdr) in
        let imagesize := be32_to_cpu (seal_imagesize hdr) in
        if negb (be32_to_cpu (seal_magic hdr) =? SEAMA_MAGIC) then
          Ok {| status := - EINVAL; stdout := [];
                stderr := [ErrMagic (be32_to_cpu (seal_magic hdr))] |}
        else if BUFSZ <=? metasize then
          Ok {| status := - EINVAL; stdout := [];
                stderr := [ErrBufTooSmall BUFSZ metasize] |}
        else if negb (imagesize =? 0) then
          Ok {| status := - EINVAL; stdout := [];
                stderr := [ErrImageSize imagesize] |}
        else
          let '(got, seama) := fread metasize seama in
          let buf := buf_fill got buf_uninit in
          let bytes := len got in
          if negb (bytes =? metasize) then
            Ok {| status := - EIO; stdout := [];
                  stderr := [ErrReadMeta metasize] |}
          else
            let pos := size_t (pos + bytes) in
            out <-
              (if entity_idx <? 0 then
                 ' (_, entries) <- meta_entries buf metasize ;;
                 Ok ([OutMetaSize metasize; OutImageSize imagesize]
                       ++ entries)
               else Ok []) ;;
            r <- oseama_info_entities entity_idx seama pos ;;
            (* the value of [oseama_info_entities] is dropped; [err] is
               still 0 *)
            Ok {| status := 0; stdout := out ++ ie_stdout r;
                  stderr := ie_stderr r |}
    end
  end.

(* ================================================================== *)
(** * Create *)

(** The digest primitives of [md5.h].  [MD5_Final] fills the sixteen
    bytes of [hdr.md5]. *)
Class MD5 := {
  MD5_CTX : Type;
  MD5_Init : MD5_CTX;
  MD5_Update : MD5_CTX -> list byte -> MD5_CTX;
  MD5_Final : MD5_CTX -> list byte;
  MD5_Final_length : forall ctx, length (MD5_Final ctx) = 16%nat
}.

(** The options of [oseama entity], in command-line order.  [-m] and
    [-f] carry [optarg]; [-b] carries [strtol (optarg, NULL, 0)]. *)
Inductive entity_opt :=
| OptM (optarg : list byte)
| OptF (optarg : string)
| OptB (target : Z).

(** [strlen] of an argument string: the bytes before the first NUL. *)
Fixpoint strlen (s : list byte) : Z :=
  match s with
  | [] => 0
  | b :: rest => if Byte.eqb b NUL then 0 else 1 + strlen rest
  end.

Fixpoint oseama_entity_append_file_loop (fuel : nat) (in_ seama : FILE)
    (length : Z) : res (Z * FILE * list diag) :=
  match fuel with
  | O => Fuel
  | S fuel' =>
    let '(got, in_) := fread 128 in_ in
    let bytes := len got in
    if 0 <? bytes then
      let '(n, seama) := fwrite got seama in
      if negb (n =? bytes) then Ok (- EIO, seama, [ErrWrite bytes])
      else
        oseama_entity_append_file_loop fuel' in_ seama
          (ssize_t (length + bytes))
    else Ok (length, seama, [])
  end.

Definition oseama_entity_append_file (w : world) (seama : FILE)
    (in_path : string) : res (Z * FILE * list diag) :=
  match fopen_r w in_path with
  | None => Ok (- EACCES, seama, [ErrOpen in_path])
  | Some in_ =>
    oseama_entity_append_file_loop (S (remaining in_)) in_ seama 0
  end.

Definition oseama_entity_append_zeros (w : world) (seama : FILE)
    (length : Z) : Z * FILE * list diag :=
  if negb (malloc w length) then (- ENOMEM, seama, [])
  else
    let buf := repeat NUL (Z.to_nat length) in
    let '(n, seama) := fwrite buf seama in
    if negb (n =? length) then (- EIO, seama, [ErrWrite length])
    else (ssize_t length, seama, []).

(** The only call passes [alignment = 4]; a zero [alignment] (division
    by zero in C) is outside the model. *)
Definition oseama_entity_align (w : world) (seama : FILE)
    (curr_offset alignment : Z) : Z * FILE * list diag :=
  if negb (Z.land curr_offset (size_t (alignment - 1)) =? 0) then
    let length := size_t (alignment - curr_offset mod alignment) in
    oseama_entity_append_zeros w seama length
  else (0, seama, []).

Section Create.
Context {md5_impl : MD5}.

(** [while ((bytes = fread (buf, 1, oseama_min (sizeof (buf), length),
    seama)) > 0) { MD5_Update (&ctx, buf, bytes); length -= bytes; }] *)
Fixpoint write_hdr_digest_loop (fuel : nat) (seama : FILE) (length : Z)
    (ctx : MD5_CTX) : res (FILE * Z * MD5_CTX) :=
  match fuel with
  | O => Fuel
  | S fuel' =>
    let '(got, seama1) := fread (oseama_min 128 length) seama in
    let bytes := len got in
    if 0 <? bytes then
      write_hdr_digest_loop fuel' seama1 (size_t (length - bytes))
        (MD5_Update ctx got)
    else Ok (seama1, length, ctx)
  end.

Definition oseama_entity_write_hdr (seama : FILE) (metasize imagesize : Z)
  : res (Z * FILE * list diag) :=
  let length := imagesize in
  let '(_, seama) :=
    fseek_set (ssize_t (size_t (sizeof_hdr + metasize))) seama in
  ' (seama, _, ctx) <-
    write_hdr_digest_loop (S (remaining seama)) seama length MD5_Init ;;
  let hdr :=
    {| magic := cpu_to_be32 SEAMA_MAGIC;
       reserved := [NUL; NUL];
       metasize := cpu_to_be16 metasize;
       imagesize := cpu_to_be32 imagesize;
       md5 := MD5_Final ctx |} in
  let '(_, seama) := fseek_set 0 seama in
  let '(bytes, seama) := fwrite (entity_header_bytes hdr) seama in
  if negb (bytes =? sizeof_hdr) then Ok (- EIO, seama, [ErrWriteHdr])
  else Ok (0, seama, []).

(** The locals of [oseama_entity] that its two option loops update. *)
Record entity_state := {
  es_seama : FILE;
  es_curr_offset : Z;
  es_metasize : Z;
  es_imagesize : Z;
  es_err : Z;
  es_stderr : list diag
}.

(** One turn of the first [getopt] loop. *)
Definition entity_meta_opt (w : world) (st : entity_state) (c : entity_opt)
  : entity_state :=
  match c with
  | OptM optarg =>
    let '(n, seama) :=
      fwrite (firstn (Z.to_nat (strlen optarg + 1)) (optarg ++ [NUL]))
        (es_seama st) in
    let sbytes := ssize_t n in
    let '(curr_offset, metasize, errs) :=
      if sbytes <? 0 then
        (es_curr_offset st, es_metasize st, [ErrWriteMeta optarg])
      else
        (size_t (es_curr_offset st + sbytes),
         size_t (es_metasize st + sbytes), []) in
    let '(sbytes, seama, errs1) :=
      oseama_entity_align w seama curr_offset 4 in
    let '(curr_offset, metasize, errs2) :=
      if sbytes <? 0 then (curr_offset, metasize, [ErrAppendZeros])
      else
        (size_t (curr_offset + sbytes), size_t (metasize + sbytes), []) in
    {| es_seama := seama; es_curr_offset := curr_offset;
       es_metasize := metasize; es_imagesize := es_imagesize st;
       es_err := es_err st;
       es_stderr := es_stderr st ++ errs ++ errs1 ++ errs2 |}
  | OptF _ => st
  | OptB _ => st
  end.

(** One turn of the second [getopt] loop, up to its [if (err) break]. *)
Definition entity_image_opt (w : world) (st : entity_state)
    (c : entity_opt) : res entity_state :=
  match c with
  | OptM _ => Ok st
  | OptF optarg =>
    ' (sbytes, seama, errs) <-
      oseama_entity_append_file w (es_seama st) optarg ;;
    if sbytes <? 0 then
      Ok {| es_seama := seama; es_curr_offset := es_curr_offset st;
            es_metasize := es_metasize st;
            es_imagesize := es_imagesize st; es_err := es_err st;
            es_stderr := es_stderr st ++ errs ++ [ErrAppendFile optarg] |}
    else
      Ok {| es_seama := seama;
            es_curr_offset := size_t (es_curr_offset st + sbytes);
            es_metasize := es_metasize st;
            es_imagesize := size_t (es_imagesize st + sbytes);
            es_err := es_err st;
            es_stderr := es_stderr st ++ errs |}
  | OptB target =>
    let sbytes := ssize_t (size_t target - es_curr_offset st) in
    if sbytes <? 0 then
      Ok {| es_seama := es_seama st;
            es_curr_offset := es_curr_offset st;
            es_metasize := es_metasize st;
            es_imagesize := es_imagesize st; es_err := es_err st;
            es_stderr :=
              es_stderr st ++ [ErrPad (es_curr_offset st) target] |}
    else
      let '(sbytes, seama, errs) :=
        oseama_entity_append_zeros w (es_seama st) sbytes in
      if sbytes <? 0 then
        Ok {| es_seama := seama; es_curr_offset := es_curr_offset st;
              es_metasize := es_metasize st;
              es_imagesize := es_imagesize st; es_err := es_err st;
              es_stderr := es_stderr st ++ errs ++ [ErrAppendZeros] |}
      else
        Ok {| es_seama := seama;
              es_curr_offset := size_t (es_curr_offset st + sbytes);
              es_metasize := es_metasize st;
              es_imagesize := size_t (es_imagesize st + sbytes);
              es_err := es_err st;
              es_stderr := es_stderr st ++ errs |}
  end.

(** The locals before the first loop: [seama] was just opened, and
    [fseek (seama, curr_offset, SEEK_SET)] leaves room for the header. *)
Definition entity_start (seama : FILE) : entity_state :=
  let curr_offset := sizeof_hdr in
  let '(_, seama) := fseek_set (ssize_t curr_offset) seama in
  {| es_seama := seama; es_curr_offset := curr_offset;
     es_metasize := 0; es_imagesize := 0; es_err := 0;
     es_stderr := [] |}.

Definition entity_meta_loop (w : world) (opts : list entity_opt)
    (st : entity_state) : entity_state :=
  fold_left (entity_meta_opt w) opts st.

Fixpoint entity_image_loop (w : world) (opts : list entity_opt)
    (st : entity_state) : res entity_state :=
  match opts with
  | [] => Ok st
  | c :: rest =>
    st <- entity_image_opt w st c ;;
    if negb (es_err st =? 0) then Ok st
    else entity_image_loop w rest st
  end.

(** [oseama entity <file> [-m meta] [-f file] [-b offset] ...]: the run,
    and the contents of [<file>] afterwards when it was opened. *)
Definition oseama_entity (w : world) (seama_path : option string)
    (opts : list entity_opt) : res (run * option (list byte)) :=
  match seama_path with
  | None =>
    Ok ({| status := - EINVAL; stdout := []; stderr := [ErrNoFile] |},
        None)
  | Some seama_path =>
    match fopen_w w seama_path with
    | None =>
      Ok ({| status := - EACCES; stdout := [];
             stderr := [ErrOpen seama_path] |}, None)
    | Some (seama, w) =>
      let st := entity_start seama in
      let st := entity_meta_loop w opts st in
      st <- entity_image_loop w opts st ;;
      ' (_, seama, errs) <-
        oseama_entity_write_hdr (es_seama st) (es_metasize st)
          (es_imagesize st) ;;
      Ok ({| status := es_err st; stdout := [];
             stderr := es_stderr st ++ errs |},
          Some (f_data seama))
    end
  end.
End Create.

(* ================================================================== *)
(** * Extract *)

(** The copy loop of [oseama_extract_entity]:
    [while ((bytes = fread (buf, 1, oseama_min (sizeof (buf), length),
     seama)) > 0) { if (fwrite (...) != bytes) {...; break;}
     length -= bytes; }].
    It yields [err], both streams, what is left of [length], and the
    diagnostics. *)
Fixpoint extract_copy_loop (fuel : nat) (seama out : FILE) (length : Z)
  : res (Z * FILE * FILE * Z * list diag) :=
  match fuel with
  | O => Fuel
  | S fuel' =>
    let '(got, seama) := fread (oseama_min 1024 length) seama in
    let bytes := len got in
    if 0 <? bytes then
      let '(n, out) := fwrite got out in
      if negb (n =? bytes) then
        Ok (- EIO, seama, out, length, [ErrWrite bytes])
      else extract_copy_loop fuel' seama out (size_t (length - bytes))
    else Ok (0, seama, out, length, [])
  end.

(** What [oseama_extract_entity] hands back: its return value, the
    destination stream, and the diagnostics. *)
Fixpoint oseama_extract_entity_loop (fuel : nat) (entity_idx : Z)
    (seama out : FILE) (i : Z) : res (Z * FILE * list diag) :=
  match fuel with
  | O => Fuel
  | S fuel' =>
    let '(raw, seama) := fread sizeof_hdr seama in
    let bytes := len raw in
    if negb (bytes =? sizeof_hdr) then Ok (0, out, [])
    else
      let hdr := entity_header_of_bytes raw in
      if negb (be32_to_cpu (magic hdr) =? SEAMA_MAGIC) then
        Ok (- EINVAL, out, [ErrMagic (be32_to_cpu (magic hdr))])
      else
        let metasize := be16_to_cpu (metasize hdr) in
        let imagesize := be32_to_cpu (imagesize hdr) in
        if negb (i =? entity_idx) then
          ' (_, seama) <- oseama_skip seama (size_t (metasize + imagesize)) ;;
          i <- int_incr i ;;
          oseama_extract_entity_loop fuel' entity_idx seama out i
        else
          let '(n, out) := fwrite (entity_header_bytes hdr) out in
          if negb (n =? sizeof_hdr) then
            Ok (- EIO, out, [ErrWrite sizeof_hdr])
          else
            let length := size_t (metasize + imagesize) in
            ' (err, seama, out, length, errs) <-
              extract_copy_loop (S (remaining seama)) seama out length ;;
            if negb (length =? 0) then
              Ok (- EIO, out, errs ++ [ErrExtract entity_idx length])
            else Ok (err, out, errs)
  end.

Definition oseama_extract_entity (entity_idx : Z) (seama out : FILE)
  : res (Z * FILE * list diag) :=
  oseama_extract_entity_loop (S (remaining seama)) entity_idx seama out 0.

(** [oseama extract <file> -e idx [-o out]]: the run, and the bytes that
    reached the destination ([out_path], or standard output when
    [out_path] is [None]). *)
Definition oseama_extract (w : world) (seama_path : option string)
    (entity_idx : Z) (out_path : option string)
  : res (run * list byte) :=
  match seama_path with
  | None =>
    Ok ({| status := - EINVAL; stdout := []; stderr := [ErrNoFile] |}, [])
  | Some seama_path =>
    if entity_idx <? 0 then
      Ok ({| status := - EINVAL; stdout := []; stderr := [ErrNoEntity] |},
          [])
    else
      match oseama_open w seama_path with
      | (None, e) =>
        Ok ({| status := - EACCES; stdout := [];
               stderr := e ++ [ErrOpen seama_path] |}, [])
      | (Some seama, _) =>
        let opened :=
          match out_path with
          | Some p =>
            match fopen_w w p with
            | Some (out, _) => inl (out, after_fopen_w p seama_path seama)
            | None => inr p
            end
          | None => inl (mkFILE [] 0 false, seama)
          end in
        match opened with
        | inr p =>
          Ok ({| status := - EACCES; stdout := []; stderr := [ErrOpen p] |},
              [])
        | inl (out, seama) =>
          let '(raw, seama) := fread sizeof_seal_hdr seama in
          let bytes := len raw in
          if negb (bytes =? sizeof_seal_hdr) then
            Ok ({| status := - EIO; stdout := [];
                   stderr := [ErrReadHeader seama_path] |}, f_data out)
          else
            let hdr := seal_header_of_bytes raw in
            let metasize := be16_to_cpu (seal_metasize hdr) in
            ' (_, seama) <- oseama_skip seama metasize ;;
            ' (_, out, errs) <- oseama_extract_entity entity_idx seama out ;;
            (* the value of [oseama_extract_entity] is dropped; [err] is
               still 0 *)
            Ok ({| status := 0; stdout := []; stderr := errs |}, f_data out)
        end
      end
  end.

(* ================================================================== *)
(** * Definitions used by the statements *)

(** The number of zero bytes that bring [offset] to the next multiple of
    [alignment]. *)
Definition align_pad (offset alignment : Z) : Z :=
  (alignment - offset mod alignment) mod alignment.

(** The entity header a loop iteration is about to read from [seama]. *)
Definition next_header (seama : FILE) : seama_entity_header :=
  entity_header_of_bytes (fst (fread sizeof_hdr seama)).

(** The seal header an operation is about to read from [seama]. *)
Definition next_seal_header (seama : FILE) : seama_seal_header :=
  seal_header_of_bytes (fst (fread sizeof_seal_hdr seama)).

(** A string of an argument vector: no NUL inside. *)
Definition nul_free (s : list byte) : Prop := Forall (fun b => b <> NUL) s.

(** Sample data for the concrete runs below. *)
Module Sample.

Definition bytes (s : string) : list byte := list_byte_of_string s.

(** A seal header with the sentinel magic, followed by its metadata. *)
Definition seal (meta : list byte) : list byte :=
  cpu_to_be32 SEAMA_MAGIC ++ [NUL; NUL] ++ cpu_to_be16 (len meta)
    ++ cpu_to_be32 0 ++ meta.

(** An entity: header with the given magic, metadata, image. *)
Definition entity (magic_value : Z) (meta image : list byte) : list byte :=
  cpu_to_be32 magic_value ++ [NUL; NUL] ++ cpu_to_be16 (len meta)
    ++ cpu_to_be32 (len image) ++ repeat xff 16 ++ meta ++ image.

(** A machine whose only file is [name], which is also what standard
    input delivers (as a pipe), and whose allocator grants requests
    below 4 GiB. *)
Definition machine (name : string) (contents : list byte) : world :=
  {| w_files := fun p => if String.eqb p name then Some contents else None;
     w_creatable := fun _ => true;
     w_stdin := contents;
     w_stdin_tty := false;
     w_stdin_seekable := false;
     w_malloc := fun n => n <? 2 ^ 32 |}.

(** A stand-in for the digest of [md5.h], to run the model on concrete
    inputs: the context collects what it is fed, and the digest is its
    first sixteen bytes, zero-padded. *)
Definition prefix_digest : MD5 := {|
  MD5_CTX := list byte;
  MD5_Init := [];
  MD5_Update := fun ctx chunk => ctx ++ chunk;
  MD5_Final := fun ctx => firstn 16 (ctx ++ repeat NUL 16);
  MD5_Final_length := fun ctx =>
    eq_trans (length_firstn 16 (ctx ++ repeat NUL 16))
      (Nat.min_l 16 (length (ctx ++ repeat NUL 16))
         (eq_ind_r (fun n => (16 <= n)%nat)
            (Nat.le_add_l 16 (length ctx))
            (eq_trans (length_app ctx (repeat NUL 16))
               (f_equal (Nat.add (length ctx)) (repeat_length NUL 16)))))
|}.

End Sample.

(** The fields of a header have the widths of the packed struct. *)
Definition header_packed (h : seama_entity_header) : Prop :=
  length (magic h) = 4%nat /\ length (reserved h) = 2%nat
  /\ length (metasize h) = 2%nat /\ length (imagesize h) = 4%nat
  /\ length (md5 h) = 16%nat.

(** An entity as it lies in a container: a header with the sentinel
    magic and the sizes of what follows it, then the metadata block and
    the image. *)
Record seama_entity := {
  ent_reserved : list byte;
  ent_md5 : list byte;
  ent_meta : list byte;
  ent_image : list byte
}.

Definition entity_header_of (e : seama_entity) : seama_entity_header :=
  {| magic := cpu_to_be32 SEAMA_MAGIC;
     reserved := ent_reserved e;
     metasize := cpu_to_be16 (len (ent_meta e));
     imagesize := cpu_to_be32 (len (ent_image e));
     md5 := ent_md5 e |}.

Definition entity_bytes (e : seama_entity) : list byte :=
  entity_header_bytes (entity_header_of e) ++ ent_meta e ++ ent_image e.

Definition entity_ok (e : seama_entity) : Prop :=
  length (ent_reserved e) = 2%nat /\ length (ent_md5 e) = 16%nat
  /\ len (ent_meta e) < 2 ^ 16 /\ len (ent_image e) < 2 ^ 32.

(** A container: seal header, seal metadata, then the entities. *)
Definition container_bytes (seal_reserved seal_meta : list byte)
    (es : list seama_entity) : list byte :=
  cpu_to_be32 SEAMA_MAGIC ++ seal_reserved ++ cpu_to_be16 (len seal_meta)
    ++ cpu_to_be32 0 ++ seal_meta ++ concat (map entity_bytes es).

(** What Build is to write for one [-m] argument: the string, its
    terminator, and zero bytes up to the next multiple of 4. *)
Definition meta_item (optarg : list byte) : list byte :=
  firstn (Z.to_nat (strlen optarg)) optarg ++ [NUL]
    ++ repeat NUL (Z.to_nat (align_pad (strlen optarg + 1) 4)).

(** The metadata block of an option list: its [-m] items in order. *)
Fixpoint meta_block (opts : list entity_opt) : list byte :=
  match opts with
  | [] => []
  | OptM optarg :: rest => meta_item optarg ++ meta_block rest
  | _ :: rest => meta_block rest
  end.

(** The image of an option list, written from stream offset [offset]
    on: a [-f] contributes the file (nothing when it cannot be opened), a
    [-b] the zero bytes up to its target (nothing when the target is
    behind, or when the buffer for them is not granted). *)
Fixpoint image_block (w : world) (offset : Z) (opts : list entity_opt)
  : list byte :=
  match opts with
  | [] => []
  | OptM _ :: rest => image_block w offset rest
  | OptF optarg :: rest =>
    let d := match w_files w optarg with Some d => d | None => [] end in
    d ++ image_block w (offset + len d) rest
  | OptB target :: rest =>
    let z := if malloc w (target - offset)
             then repeat NUL (Z.to_nat (target - offset)) else [] in
    z ++ image_block w (offset + len z) rest
  end.

(** The sizes of a Build run stay clear of the limits of [ssize_t], and
    every [-b] target is a [long] not below -2^62. *)
Definition build_fits (w : world) (opts : list entity_opt) : Prop :=
  sizeof_hdr + len (meta_block opts)
    + len (image_block w (sizeof_hdr + len (meta_block opts)) opts)
  < 2 ^ 62
  /\ Forall (fun c => match c with OptB target => - 2 ^ 62 <= target < 2 ^ 63
                               | _ => True end) opts.

(** No [-f] of an option list names the file [seama_path]. *)
Definition reads_elsewhere (seama_path : string) (opts : list entity_opt)
  : Prop :=
  Forall (fun c => match c with OptF optarg => optarg <> seama_path
                           | _ => True end) opts.

(** The destination of Build after [written] was written behind the
    room left for the header. *)
Definition dest (written : list byte) : FILE :=
  mkFILE (match written with [] => [] | _ => repeat NUL 28 ++ written end)
         (28 + length written) true.

(** The locals of [oseama_entity] account for [meta] and [image]. *)
Definition built (st : entity_state) (meta image : list byte) : Prop :=
  es_seama st = dest (meta ++ image)
  /\ es_curr_offset st = sizeof_hdr + len meta + len image
  /\ es_metasize st = len meta
  /\ es_imagesize st = len image
  /\ es_err st = 0.

(** A metadata string as the claim has it: not empty, no NUL inside. *)
Definition meta_string_ok (s : list byte) : Prop := s <> [] /\ nul_free s.

(** Each string followed by a single NUL. *)
Definition joined (ss : list (list byte)) : list byte :=
  concat (map (fun s => s ++ [NUL]) ss).

(** Every string but the last ends, with its terminator, on a multiple
    of 4, so that Build puts no zero bytes between two entries. *)
Fixpoint packed (ss : list (list byte)) : Prop :=
  match ss with
  | [] => True
  | [_] => True
  | s :: rest => (len s + 1) mod 4 = 0 /\ packed rest
  end.

(** The strings of a metadata region, read off its bytes: runs of
    non-NUL bytes, each closed by a NUL or by the end of [l]; the first
    empty run ends the list.  [cur] is the run being collected. *)
Fixpoint split_nul (cur l : list byte) : list (list byte) :=
  match l with
  | [] => match cur with [] => [] | _ => [cur] end
  | b :: rest =>
    if Byte.eqb b NUL then
      match cur with [] => [] | _ => cur :: split_nul [] rest end
    else split_nul (cur ++ [b]) rest
  end.

(** A seal header with the sentinel magic and image size 0, its metadata,
    and whatever follows. *)
Definition sealed (seal_reserved seal_meta body : list byte) : list byte :=
  cpu_to_be32 SEAMA_MAGIC ++ seal_reserved ++ cpu_to_be16 (len seal_meta)
    ++ cpu_to_be32 0 ++ seal_meta ++ body.

(** Whether the entity loop of Info passes over entity number [i]
    without printing it. *)
Definition passed_over (entity_idx i : Z) : bool :=
  (0 <=? entity_idx) && negb (i =? entity_idx).

(** The lines of Info for one entity that starts at [offset]. *)
Definition entity_lines (blank : bool) (offset : Z) (e : seama_entity)
  : list out_line :=
  (if blank then [OutBlank] else [])
    ++ [OutEntityOffset offset;
        OutEntitySize (sizeof_hdr + len (ent_meta e) + len (ent_image e));
        OutMetaSize (len (ent_meta e));
        OutImageSize (len (ent_image e))]
    ++ map OutMetaEntry (split_nul [] (removelast (ent_meta e))).

(** The lines of Info for the entities [es], the first of which has
    number [i] and starts at [offset]. *)
Fixpoint info_lines (entity_idx i offset : Z) (es : list seama_entity)
  : list out_line :=
  match es with
  | [] => []
  | e :: rest =>
    (if passed_over entity_idx i then []
     else entity_lines (entity_idx <? 0) offset e)
      ++ info_lines entity_idx (i + 1) (offset + len (entity_bytes e)) rest
  end.

(** Every entity that Info is to print has a metadata block that the
    decode can take: 1 to 1023 bytes. *)
Fixpoint info_ready (entity_idx i : Z) (es : list seama_entity) : Prop :=
  match es with
  | [] => True
  | e :: rest =>
    (passed_over entity_idx i = false -> 1 <= len (ent_meta e) < BUFSZ)
    /\ info_ready entity_idx (i + 1) rest
  end.

(** The lines of Info without [-e]: every entity, each after a blank
    line. *)
Fixpoint all_entity_lines (offset : Z) (es : list seama_entity)
  : list out_line :=
  match es with
  | [] => []
  | e :: rest =>
    entity_lines true offset e
      ++ all_entity_lines (offset + len (entity_bytes e)) rest
  end.

(** The [-m] arguments of an option list, in order. *)
Fixpoint meta_args (opts : list entity_opt) : list (list byte) :=
  match opts with
  | [] => []
  | OptM optarg :: rest => optarg :: meta_args rest
  | _ :: rest => meta_args rest
  end.

(** The entity a Build run is to produce, given the digest. *)
Definition built_entity (w : world) (opts : list entity_opt)
    (digest : list byte) : seama_entity :=
  {| ent_reserved := [NUL; NUL];
     ent_md5 := digest;
     ent_meta := meta_block opts;
     ent_image := image_block w (sizeof_hdr + len (meta_block opts)) opts |}.

Unset Implicit Arguments.

(* ================================================================== *)
(** * Arithmetic of the integer conversions *)

Lemma size_t_small z : 0 <= z < 2 ^ 64 -> size_t z = z.
Proof. intros; unfold size_t; apply Z.mod_small; assumption. Qed.

Lemma ssize_t_small z : - 2 ^ 63 <= z < 2 ^ 63 -> ssize_t z = z.
Proof. intros; unfold ssize_t; rewrite Z.mod_small; lia. Qed.

Lemma ssize_t_sub_neg a b :
  - 2 ^ 63 <= a - b < 0 -> ssize_t (size_t a - b) = a - b.
Proof.
  intros H. unfold ssize_t, size_t.
  replace (a mod 2 ^ 64 - b + 2 ^ 63) with (a mod 2 ^ 64 + (2 ^ 63 - b)) by lia.
  rewrite Zplus_mod_idemp_l.
  replace (a + (2 ^ 63 - b)) with (a - b + 2 ^ 63) by lia.
  rewrite Z.mod_small; lia.
Qed.

Lemma len_app {A} (l1 l2 : list A) : len (l1 ++ l2) = len l1 + len l2.
Proof. unfold len; rewrite length_app; lia. Qed.

Lemma len_nonneg {A} (l : list A) : 0 <= len l.
Proof. unfold len; lia. Qed.

Lemma len_repeat {A} (x : A) n : len (repeat x n) = Z.of_nat n.
Proof. unfold len; rewrite repeat_length; reflexivity. Qed.

(* ================================================================== *)
(** * Streams *)

Lemma fread_length n fp :
  length (fst (fread n fp)) = Nat.min (Z.to_nat n) (remaining fp).
Proof.
  unfold fread, remaining; cbn [fst].
  rewrite length_firstn, length_skipn. reflexivity.
Qed.

Lemma fread_short n fp :
  Z.of_nat (remaining fp) < n -> len (fst (fread n fp)) <> n.
Proof.
  intros H. unfold len. rewrite fread_length. lia.
Qed.

Lemma fwrite_count bs fp : fst (fwrite bs fp) = len bs.
Proof. destruct bs; reflexivity. Qed.

(** Writing at the end of a stream appends. *)
Lemma fwrite_at_end bs d s :
  fwrite bs (mkFILE d (length d) s)
  = (len bs, mkFILE (d ++ bs) (length d + length bs) s).
Proof.
  destruct bs as [|b bs].
  - cbn. rewrite app_nil_r, Nat.add_0_r. reflexivity.
  - unfold fwrite; cbn [f_data f_pos f_seekable].
    rewrite firstn_all, Nat.sub_diag, skipn_all2 by lia.
    cbn [repeat app]. rewrite app_nil_r. reflexivity.
Qed.

(* ================================================================== *)
(** * Alignment *)

Lemma align_pad_aligned offset alignment :
  0 < alignment -> (offset + align_pad offset alignment) mod alignment = 0.
Proof.
  intros H. unfold align_pad.
  rewrite Zplus_mod_idemp_r.
  replace (offset + (alignment - offset mod alignment))
    with (offset - offset mod alignment + 1 * alignment) by lia.
  rewrite Z.mod_add by lia.
  rewrite Zminus_mod_idemp_r, Z.sub_diag. apply Z.mod_0_l. lia.
Qed.

(** For an alignment that is a power of two the mask test of
    [oseama_entity_align] is the test [offset mod alignment <> 0]; up to
    an alignment of 4 the buffer for the zero bytes is granted. *)
Lemma oseama_entity_align_pow2 w seama curr_offset k :
  0 <= k <= 2 ->
  oseama_entity_align w seama curr_offset (2 ^ k)
  = (align_pad curr_offset (2 ^ k),
     snd (fwrite (repeat NUL (Z.to_nat (align_pad curr_offset (2 ^ k)))) seama),
     []).
Proof.
  intros Hk.
  assert (Hpow : 0 < 2 ^ k <= 4).
  { split; [apply Z.pow_pos_nonneg; lia|].
    change 4 with (2 ^ 2). apply Z.pow_le_mono_r; lia. }
  assert (Hm := Z.mod_pos_bound curr_offset (2 ^ k) ltac:(lia)).
  unfold oseama_entity_align, align_pad.
  rewrite (size_t_small (2 ^ k - 1)) by lia.
  replace (2 ^ k - 1) with (Z.ones k) by (rewrite Z.ones_equiv; lia).
  rewrite Z.land_ones by lia.
  destruct (Z.eqb_spec (curr_offset mod 2 ^ k) 0) as [E|E]; cbn [negb].
  - rewrite E, Z.sub_0_r, Z.mod_same by lia. reflexivity.
  - rewrite (Z.mod_small (2 ^ k - curr_offset mod 2 ^ k)) by lia.
    rewrite size_t_small by lia.
    unfold oseama_entity_append_zeros, malloc.
    set (n := 2 ^ k - curr_offset mod 2 ^ k) in *.
    destruct (Z.leb_spec 1 n); [|lia].
    destruct (Z.leb_spec n 3); [|lia]. cbn [andb orb negb].
    pose proof (fwrite_count (repeat NUL (Z.to_nat n)) seama) as Hc.
    destruct (fwrite (repeat NUL (Z.to_nat n)) seama) as [c seama'].
    cbn [fst snd] in *. subst c. rewrite len_repeat, Z2Nat.id by lia.
    rewrite Z.eqb_refl; cbn [negb].
    rewrite ssize_t_small by lia. reflexivity.
Qed.

(** ** C9 *)

(** C9.  For every running offset the alignment step of Build
    ([oseama_entity_align] with alignment 4) writes exactly
    [(4 - offset mod 4) mod 4] zero bytes and reports that count, which
    brings the offset to a multiple of 4; when the offset is already a
    multiple of 4 it writes nothing and leaves the stream as it was. *)
Theorem C9_align_pads_to_multiple_of_4 :
  forall (w : world) (seama : FILE) (curr_offset : Z),
    oseama_entity_align w seama curr_offset 4
    = (align_pad curr_offset 4,
       snd (fwrite (repeat NUL (Z.to_nat (align_pad curr_offset 4))) seama),
       [])
    /\ align_pad curr_offset 4 = (4 - curr_offset mod 4) mod 4
    /\ (curr_offset + align_pad curr_offset 4) mod 4 = 0
    /\ (forall q : Z, oseama_entity_align w seama (4 * q) 4 = (0, seama, [])).
Proof.
  intros w seama curr_offset. repeat split.
  - apply (oseama_entity_align_pow2 w seama curr_offset 2). lia.
  - apply align_pad_aligned. lia.
  - intros q.
    pose proof (oseama_entity_align_pow2 w seama (4 * q) 2) as H.
    change (2 ^ 2) with 4 in H. rewrite H by lia.
    unfold align_pad.
    rewrite (Z.mul_comm 4 q), Z.mod_mul by lia. reflexivity.
Qed.

(* ================================================================== *)
(** * Padding to an absolute offset *)

(** ** C8 *)

(** C8.  A [-b] whose target lies behind the running offset is
    reported, and that is all.
    - In any state of a Build run, with the target behind the running
      offset by no more than 2^63: the can't-pad diagnostic is printed
      and nothing is written - the stream, the running offset and both
      sizes are as they were.  So is [err]: the operation records no
      failure, and the test [if (err) break] behind the [switch] never
      leaves the loop.
    - [entity fw -f in -b 16 -f in], with a file [in] of one byte: the
      pad to 16, behind offset 29, is reported; the second [-f] is still
      appended, the header is written over an image of 2 bytes, and the
      run completes with status 0.
    - A target further behind than 2^63 is not refused at all:
      [-b -9223372036854775808] at offset 29 asks for a buffer of
      2^63 - 29 zero bytes, which this machine does not grant. *)
Theorem C8_pad_behind_offset_is_reported_but_does_not_fail :
  (forall (w : world) (st : entity_state) (target : Z),
     target < es_curr_offset st ->
     es_curr_offset st - target <= 2 ^ 63 ->
     entity_image_opt w st (OptB target)
     = Ok {| es_seama := es_seama st;
             es_curr_offset := es_curr_offset st;
             es_metasize := es_metasize st;
             es_imagesize := es_imagesize st;
             es_err := es_err st;
             es_stderr :=
               es_stderr st ++ [ErrPad (es_curr_offset st) target] |})
  /\ oseama_entity (md5_impl := Sample.prefix_digest)
       (Sample.machine "in" [x01]) (Some "fw"%string)
       [OptF "in"; OptB 16; OptF "in"]
     = Ok ({| status := 0; stdout := []; stderr := [ErrPad 29 16] |},
           Some (cpu_to_be32 SEAMA_MAGIC ++ [NUL; NUL] ++ cpu_to_be16 0
                   ++ cpu_to_be32 2 ++ ([x01; x01] ++ repeat NUL 14)
                   ++ [x01; x01]))
  /\ fst <$> oseama_entity (md5_impl := Sample.prefix_digest)
               (Sample.machine "in" [x01]) (Some "fw"%string)
               [OptF "in"; OptB (- 2 ^ 63)]
     = Ok {| status := 0; stdout := []; stderr := [ErrAppendZeros] |}.
Proof.
  split; [|vm_compute; split; reflexivity].
  intros w st target Hlt Hfit.
  unfold entity_image_opt.
  rewrite ssize_t_sub_neg by lia.
  destruct (Z.ltb_spec (target - es_curr_offset st) 0); [reflexivity | lia].
Qed.

Lemma C8_witness :
  let w := Sample.machine "in" [x01] in
  let st := {| es_seama := mkFILE (repeat NUL 40) 40 true;
               es_curr_offset := 40; es_metasize := 4; es_imagesize := 8;
               es_err := 0; es_stderr := [] |} in
  entity_image_opt w st (OptB 16)
  = Ok {| es_seama := es_seama st; es_curr_offset := 40; es_metasize := 4;
          es_imagesize := 8; es_err := 0; es_stderr := [ErrPad 40 16] |}.
Proof.
  intros w st.
  destruct C8_pad_behind_offset_is_reported_but_does_not_fail as [Hstep _].
  apply (Hstep w st 16).
  - simpl. lia.
  - simpl. lia.
Defined.

(* ================================================================== *)
(** * One step of the entity iteration *)

Lemma fread_hdr_short seama :
  (remaining seama < 28)%nat ->
  (len (fst (fread sizeof_hdr seama)) =? sizeof_hdr) = false.
Proof.
  intros H. apply Z.eqb_neq, fread_short. unfold sizeof_hdr. lia.
Qed.

Lemma fread_hdr_full seama :
  (28 <= remaining seama)%nat ->
  (len (fst (fread sizeof_hdr seama)) =? sizeof_hdr) = true.
Proof.
  intros H. apply Z.eqb_eq. unfold len. rewrite fread_length.
  unfold sizeof_hdr. lia.
Qed.

(** ** C7 *)

(** C7, as the code has it.  In every iteration of the entity loops of
    Info and of Extract, a header read that delivers fewer than the 28
    header bytes - none at all, or only some of them - ends the
    iteration normally: return value 0 and no diagnostic.  A full header
    whose magic is not the sentinel ends it with [-EINVAL] and the
    invalid-magic diagnostic. *)
Theorem C7_short_header_ends_iteration_bad_magic_fails :
  forall (fuel : nat) (entity_idx : Z) (seama out_fp : FILE) (pos i : Z)
         (buf : buffer) (out : list out_line),
    ((remaining seama < 28)%nat ->
       oseama_info_entities_loop (S fuel) entity_idx seama pos i buf out
       = Ok {| ie_err := 0; ie_pos := pos; ie_stdout := out;
               ie_stderr := [] |}
       /\ oseama_extract_entity_loop (S fuel) entity_idx seama out_fp i
          = Ok (0, out_fp, []))
    /\ ((28 <= remaining seama)%nat ->
        be32_to_cpu (magic (next_header seama)) <> SEAMA_MAGIC ->
        oseama_info_entities_loop (S fuel) entity_idx seama pos i buf out
        = Ok {| ie_err := - EINVAL; ie_pos := size_t (pos + 28);
                ie_stdout := out;
                ie_stderr :=
                  [ErrMagic (be32_to_cpu (magic (next_header seama)))] |}
        /\ oseama_extract_entity_loop (S fuel) entity_idx seama out_fp i
           = Ok (- EINVAL, out_fp,
                 [ErrMagic (be32_to_cpu (magic (next_header seama)))])).
Proof.
  intros fuel entity_idx seama out_fp pos i buf out. split.
  - intros Hshort. pose proof (fread_hdr_short seama Hshort) as E.
    cbn [oseama_info_entities_loop oseama_extract_entity_loop].
    destruct (fread sizeof_hdr seama) as [raw seama1]. cbn [fst] in E.
    rewrite E. split; reflexivity.
  - intros Hfull Hmagic. pose proof (fread_hdr_full seama Hfull) as E.
    apply Z.eqb_neq in Hmagic. unfold next_header in *.
    cbn [oseama_info_entities_loop oseama_extract_entity_loop].
    destruct (fread sizeof_hdr seama) as [raw seama1]. cbn [fst] in *.
    rewrite E, Hmagic. cbn [negb]. apply Z.eqb_eq in E. rewrite E.
    split; reflexivity.
Qed.

Lemma C7_witness :
  (oseama_info_entities_loop 1 (-1) (mkFILE [x01; x02; x03] 0 true) 12 0
     buf_uninit []
   = Ok {| ie_err := 0; ie_pos := 12; ie_stdout := []; ie_stderr := [] |}
   /\ oseama_extract_entity_loop 1 0 (mkFILE [x01; x02; x03] 0 true)
        (mkFILE [] 0 false) 0
      = Ok (0, mkFILE [] 0 false, []))
  /\ (oseama_info_entities_loop 1 (-1) (mkFILE (repeat x01 28) 0 true) 12 0
        buf_uninit []
      = Ok {| ie_err := - EINVAL; ie_pos := 40; ie_stdout := [];
              ie_stderr := [ErrMagic 0x01010101] |}
      /\ oseama_extract_entity_loop 1 0 (mkFILE (repeat x01 28) 0 true)
           (mkFILE [] 0 false) 0
         = Ok (- EINVAL, mkFILE [] 0 false, [ErrMagic 0x01010101])).
Proof.
  split.
  - apply (C7_short_header_ends_iteration_bad_magic_fails
             0 (-1) (mkFILE [x01; x02; x03] 0 true) (mkFILE [] 0 false)
             12 0 buf_uninit []).
    vm_compute. lia.
  - apply (C7_short_header_ends_iteration_bad_magic_fails
             0 (-1) (mkFILE (repeat x01 28) 0 true) (mkFILE [] 0 false)
             12 0 buf_uninit []).
    + vm_compute. lia.
    + vm_compute. discriminate.
Defined.

(** A header read that stops after five bytes ends [oseama_info_entities]
    and [oseama_extract_entity] with return value 0 and no diagnostic. *)
Lemma C7_partial_header_is_not_an_error :
  let seama := mkFILE [x5e; xa3; xa4; x17; x00] 0 true in
  len (fst (fread sizeof_hdr seama)) = 5
  /\ oseama_info_entities (-1) seama 12
     = Ok {| ie_err := 0; ie_pos := 12; ie_stdout := []; ie_stderr := [] |}
  /\ oseama_extract_entity 0 seama (mkFILE [] 0 false)
     = Ok (0, mkFILE [] 0 false, []).
Proof. vm_compute. repeat split. Qed.

(* ================================================================== *)
(** * The metadata scan *)

Lemma strlen_bounds l : 0 <= strlen l <= len l.
Proof.
  unfold len. induction l as [|b l IH]; cbn [strlen length]; [lia|].
  destruct (Byte.eqb b NUL); lia.
Qed.

Lemma strlen_nul_free s rest :
  nul_free s -> strlen (s ++ NUL :: rest) = len s.
Proof.
  unfold len. induction 1 as [|b s Hb _ IH]; cbn [strlen app length].
  - reflexivity.
  - destruct (Byte.eqb b NUL) eqn:E.
    + apply Byte.byte_dec_bl in E. contradiction.
    + rewrite IH. lia.
Qed.

(** A string is read up to its terminator when every cell up to there
    has been written. *)
Lemma c_string_terminated l rest :
  c_string (map Some l ++ Some NUL :: rest)
  = Ok (firstn (Z.to_nat (strlen l)) l).
Proof.
  induction l as [|b l IH]; cbn [map app c_string strlen].
  - reflexivity.
  - destruct (Byte.eqb b NUL); [reflexivity|].
    rewrite IH. cbn [bind].
    pose proof (strlen_bounds l).
    rewrite Z2Nat.inj_add by lia. reflexivity.
Qed.

Lemma c_string_nul_free s rest :
  nul_free s -> c_string (map Some (s ++ [NUL]) ++ rest) = Ok s.
Proof.
  induction 1 as [|b s Hb _ IH]; cbn [map app c_string].
  - reflexivity.
  - destruct (Byte.eqb b NUL) eqn:E.
    + apply Byte.byte_dec_bl in E. contradiction.
    + rewrite IH. reflexivity.
Qed.

Lemma len_firstn_strlen l : len (firstn (Z.to_nat (strlen l)) l) = strlen l.
Proof.
  pose proof (strlen_bounds l) as H. unfold len in *.
  rewrite length_firstn. lia.
Qed.

Lemma skipn_written (body : list byte) (rest : buffer) n :
  (n <= length body)%nat ->
  skipn n (map Some body ++ rest) = map Some (skipn n body) ++ rest.
Proof.
  intros H. rewrite skipn_app, length_map, skipn_map.
  replace (n - length body)%nat with 0%nat by lia. reflexivity.
Qed.

(** The scan loop ends, without reading outside what was written, once
    the cell at [end_] holds the terminator and everything before it has
    been written. *)
Lemma meta_entries_loop_total fuel :
  forall (body : list byte) (rest : buffer) (tmp : Z),
    0 <= tmp ->
    (0 < fuel)%nat ->
    len body - tmp < Z.of_nat fuel ->
    exists out,
      meta_entries_loop fuel (map Some body ++ Some NUL :: rest) tmp (len body)
      = Ok out.
Proof.
  induction fuel as [|fuel IH]; intros body rest tmp Htmp Hpos Hfuel; [lia|].
  cbn [meta_entries_loop].
  destruct (Z.ltb_spec tmp (len body)) as [Hlt|Hge]; [|eexists; reflexivity].
  unfold string_at. unfold len in Hlt.
  rewrite skipn_written by lia.
  rewrite c_string_terminated. cbn [bind].
  set (s := firstn _ _).
  destruct (Z.eqb_spec (len s) 0) as [E|E]; cbn [negb]; [eexists; reflexivity|].
  pose proof (len_nonneg s).
  destruct (IH body rest (tmp + len s + 1)) as [out Hout]; try lia.
  - unfold len in *. lia.
  - rewrite Hout. eexists. reflexivity.
Qed.

Lemma firstn_written (body : list byte) (rest : buffer) n :
  (n <= length body)%nat ->
  firstn n (map Some body ++ rest) = map Some (firstn n body).
Proof.
  intros H. rewrite firstn_app, length_map, firstn_map.
  replace (n - length body)%nat with 0%nat by lia.
  cbn [firstn]. apply app_nil_r.
Qed.

(** Storing the terminator over the last byte read. *)
Lemma buf_store_last (got : list byte) (buf : buffer) :
  1 <= len got < BUFSZ ->
  buf_store (len got - 1) NUL (buf_fill got buf)
  = Ok (map Some (removelast got) ++ Some NUL :: skipn (length got) buf).
Proof.
  intros H. unfold buf_store, buf_fill, len in *.
  destruct (Z.leb_spec 0 (Z.of_nat (length got) - 1)); [|lia].
  destruct (Z.ltb_spec (Z.of_nat (length got) - 1) BUFSZ); [|lia].
  cbn [andb]. f_equal.
  replace (S (Z.to_nat (Z.of_nat (length got) - 1))) with (length got) by lia.
  rewrite firstn_written by lia.
  rewrite skipn_app, length_map, Nat.sub_diag.
  rewrite (skipn_all2 (map Some got)) by (rewrite length_map; lia).
  cbn [skipn app].
  replace (Z.to_nat (Z.of_nat (length got) - 1)) with (pred (length got)) by lia.
  rewrite <- removelast_firstn_len. reflexivity.
Qed.

Lemma meta_entries_total (got : list byte) (buf : buffer) :
  1 <= len got < BUFSZ ->
  exists buf' out, meta_entries (buf_fill got buf) (len got) = Ok (buf', out).
Proof.
  intros H. unfold meta_entries.
  rewrite buf_store_last by assumption. cbn [bind].
  assert (Hlen : len got - 1 = len (removelast got)).
  { unfold len in *. rewrite removelast_firstn_len, length_firstn. lia. }
  rewrite Hlen.
  destruct (meta_entries_loop_total (Z.to_nat BUFSZ)
              (removelast got) (skipn (length got) buf) 0)
    as [out Hout]; unfold BUFSZ in *; try lia.
  rewrite Hout. cbn [bind]. eauto.
Qed.

(* ================================================================== *)
(** * The terminator store of the metadata decode *)

Lemma fread_zero fp : fread 0 fp = ([], fp).
Proof.
  unfold fread. cbn [Z.to_nat firstn length].
  rewrite Nat.add_0_r. destruct fp; reflexivity.
Qed.

(** ** C10 *)

(** C10.  The metadata decode of Info stores its terminator at index
    [metasize - 1] of the 1024-byte buffer.
    - A seal header that passes every check of [oseama_info] (full read,
      sentinel magic, size below the buffer size, image size 0) and
      declares [metasize = 0] makes the run store at index -1, outside
      the buffer, when the seal is printed ([entity_idx < 0]).
    - An entity header that passes every check of
      [oseama_info_entities] and declares [metasize = 0] does the same in
      the iteration that prints it.
    - For a metadata block of 1 to 1023 bytes the decode is defined: the
      store is inside the buffer and the scan ends with a result. *)
Theorem C10_decode_needs_metasize_at_least_1 :
  (forall (w : world) (seama_path : string) (entity_idx : Z) (seama : FILE)
          (e : list diag),
      oseama_open w seama_path = (Some seama, e) ->
      len (fst (fread sizeof_seal_hdr seama)) = sizeof_seal_hdr ->
      be32_to_cpu (seal_magic (next_seal_header seama)) = SEAMA_MAGIC ->
      be16_to_cpu (seal_metasize (next_seal_header seama)) = 0 ->
      be32_to_cpu (seal_imagesize (next_seal_header seama)) = 0 ->
      entity_idx < 0 ->
      oseama_info w (Some seama_path) entity_idx
      = Undef (StoreOutOfBounds (-1)))
  /\ (forall (fuel : nat) (entity_idx : Z) (seama : FILE) (pos i : Z)
             (buf : buffer) (out : list out_line),
         (28 <= remaining seama)%nat ->
         be32_to_cpu (magic (next_header seama)) = SEAMA_MAGIC ->
         be16_to_cpu (metasize (next_header seama)) = 0 ->
         entity_idx < 0 \/ i = entity_idx ->
         oseama_info_entities_loop (S fuel) entity_idx seama pos i buf out
         = Undef (StoreOutOfBounds (-1)))
  /\ (forall (got : list byte) (buf : buffer),
         1 <= len got < BUFSZ ->
         exists buf' out,
           meta_entries (buf_fill got buf) (len got) = Ok (buf', out)).
Proof.
  split; [|split].
  - intros w seama_path entity_idx seama e Hopen Hlen Hmagic Hmeta Himg Hidx.
    unfold oseama_info, next_seal_header in *. rewrite Hopen.
    destruct (fread sizeof_seal_hdr seama) as [raw seama1]. cbn [fst] in *.
    rewrite Hlen, Z.eqb_refl, Hmagic, Z.eqb_refl, Hmeta, Himg.
    cbn [negb]. change (BUFSZ <=? 0) with false. cbn [Z.eqb negb].
    rewrite fread_zero. change (len (@nil byte)) with 0. cbn [Z.eqb negb].
    destruct (Z.ltb_spec entity_idx 0); [|lia].
    reflexivity.
  - intros fuel entity_idx seama pos i buf out Hfull Hmagic Hmeta Hsel.
    pose proof (fread_hdr_full seama Hfull) as E.
    unfold next_header in *. cbn [oseama_info_entities_loop].
    destruct (fread sizeof_hdr seama) as [raw seama1]. cbn [fst] in *.
    rewrite E, Hmagic, Z.eqb_refl, Hmeta. cbn [negb].
    assert (Hskip : (0 <=? entity_idx) && negb (i =? entity_idx) = false).
    { destruct Hsel as [Hneg|Heq].
      - destruct (Z.leb_spec 0 entity_idx); [lia | reflexivity].
      - subst i. rewrite Z.eqb_refl. apply andb_false_r. }
    rewrite Hskip. change (BUFSZ <=? 0) with false. cbv iota.
    rewrite fread_zero. change (len (@nil byte)) with 0. cbn [Z.eqb negb].
    reflexivity.
  - apply meta_entries_total.
Qed.

Lemma C10_witness :
  oseama_info (Sample.machine "fw" (Sample.seal [])) (Some "fw"%string) (-1)
  = Undef (StoreOutOfBounds (-1))
  /\ oseama_info_entities_loop 1 (-1)
       (mkFILE (Sample.entity SEAMA_MAGIC [] [x01]) 0 true) 12 0
       buf_uninit []
     = Undef (StoreOutOfBounds (-1))
  /\ exists buf' out,
       meta_entries (buf_fill [x61; x00] buf_uninit) (len [x61; x00])
       = Ok (buf', out).
Proof.
  destruct C10_decode_needs_metasize_at_least_1 as [Hseal [Hentity Hok]].
  split; [|split].
  - apply (Hseal (Sample.machine "fw" (Sample.seal [])) "fw"%string (-1)
             (mkFILE (Sample.seal []) 0 true) []);
      try reflexivity.
  - apply (Hentity 0%nat (-1)
             (mkFILE (Sample.entity SEAMA_MAGIC [] [x01]) 0 true) 12 0
             buf_uninit []).
    + vm_compute. lia.
    + reflexivity.
    + reflexivity.
    + left. lia.
  - apply (Hok [x61; x00] buf_uninit). unfold BUFSZ, len. simpl. lia.
Defined.

(* ================================================================== *)
(** * Completion status *)

(** ** C1 *)

(** C1, at four inputs.  Each run detects an error and prints its
    diagnostic, and each completes with status 0:
    - Info on a container whose first entity header has a bad magic;
    - Extract of an entity whose payload is cut short;
    - Build with a [-b] target behind the running offset;
    - Build with a [-f] file that cannot be opened.
    The inner functions do compute [-EINVAL], [-EIO], [-EACCES]; the
    callers drop those values. *)
Theorem C1_detected_errors_complete_with_status_0 :
  oseama_info
    (Sample.machine "fw"
       (Sample.seal [x61; x00] ++ Sample.entity 0xdeadbeef [x62; x00] [x01]))
    (Some "fw"%string) (-1)
  = Ok {| status := 0;
          stdout := [OutMetaSize 2; OutImageSize 0; OutMetaEntry [x61]];
          stderr := [ErrMagic 0xdeadbeef] |}
  /\ oseama_extract
       (Sample.machine "fw"
          (Sample.seal [x61; x00]
             ++ firstn 31 (Sample.entity SEAMA_MAGIC [x62; x00] [x01; x02; x03])))
       (Some "fw"%string) 0 None
     = Ok ({| status := 0; stdout := []; stderr := [ErrExtract 0 2] |},
           firstn 31 (Sample.entity SEAMA_MAGIC [x62; x00] [x01; x02; x03]))
  /\ fst <$> oseama_entity (md5_impl := Sample.prefix_digest)
               (Sample.machine "in" [x01]) (Some "fw"%string) [OptF "in"; OptB 16]
     = Ok {| status := 0; stdout := []; stderr := [ErrPad 29 16] |}
  /\ fst <$> oseama_entity (md5_impl := Sample.prefix_digest)
               (Sample.machine "in" [x01]) (Some "fw"%string) [OptF "missing"]
     = Ok {| status := 0; stdout := [];
             stderr := [ErrOpen "missing"; ErrAppendFile "missing"] |}.
Proof. vm_compute. repeat split. Qed.

(* ================================================================== *)
(** * The magic of the seal header *)

(** ** C3 *)

(** C3, at one input.  The seal header of this container has magic 0.
    Info rejects it with [-EINVAL] and the invalid-magic diagnostic.
    Extract reads the same header, takes its [metasize], and goes on:
    entity 0 is copied out, nothing is reported, and the run completes
    with status 0. *)
Theorem C3_extract_does_not_check_the_seal_magic :
  let container :=
    cpu_to_be32 0 ++ [NUL; NUL] ++ cpu_to_be16 2 ++ cpu_to_be32 0
      ++ [x61; x00] ++ Sample.entity SEAMA_MAGIC [x62; x00] [x01; x02] in
  be32_to_cpu (seal_magic (next_seal_header (mkFILE container 0 true))) = 0
  /\ oseama_info (Sample.machine "fw" container) (Some "fw"%string) (-1)
     = Ok {| status := - EINVAL; stdout := []; stderr := [ErrMagic 0] |}
  /\ oseama_extract (Sample.machine "fw" container) (Some "fw"%string) 0 None
     = Ok ({| status := 0; stdout := []; stderr := [] |},
           Sample.entity SEAMA_MAGIC [x62; x00] [x01; x02]).
Proof. vm_compute. repeat split. Qed.

(* ================================================================== *)
(** * The digest loop on a short stream *)

(** ** C5 *)

(** C5, at one input.  [oseama_entity_write_hdr] is asked to seal an
    entity of 4 metadata bytes and 5 image bytes on a stream that holds
    only 2 bytes behind the metadata.  The digest loop stops at the end
    of the stream with 3 bytes of [length] outstanding, having fed 2
    bytes to [MD5_Update]; nothing is reported, the header is written
    with [imagesize = 5] and the digest of those 2 bytes, and the
    function returns 0.  (The copy loop of [oseama_extract_entity], of
    the same shape, is followed by the test [if (length)].) *)
Theorem C5_short_read_is_sealed_without_error :
  let seama := mkFILE (repeat NUL 28 ++ [x6d; x3d; x31; x00] ++ [xaa; xbb])
                 0 true in
  write_hdr_digest_loop (md5_impl := Sample.prefix_digest) 7
    (mkFILE (f_data seama) 32 true) 5 []
  = Ok (mkFILE (f_data seama) 34 true, 3, [xaa; xbb])
  /\ oseama_entity_write_hdr (md5_impl := Sample.prefix_digest) seama 4 5
     = Ok (0,
           mkFILE (cpu_to_be32 SEAMA_MAGIC ++ [NUL; NUL] ++ cpu_to_be16 4
                     ++ cpu_to_be32 5 ++ [xaa; xbb] ++ repeat NUL 14
                     ++ [x6d; x3d; x31; x00] ++ [xaa; xbb])
                  28 true,
           []).
Proof. vm_compute. repeat split. Qed.

(* ================================================================== *)
(** * The wire encoding of integers *)

Lemma byte_Z_range b : 0 <= byte_Z b < 256.
Proof.
  unfold byte_Z. pose proof (Byte.to_N_bounded b). lia.
Qed.

Lemma byte_Z_Z_byte z : byte_Z (Z_byte z) = z mod 256.
Proof.
  unfold byte_Z, Z_byte.
  pose proof (Z.mod_pos_bound z 256 ltac:(lia)) as Hb.
  destruct (Byte.of_N (Z.to_N (z mod 256))) as [b|] eqn:E.
  - apply Byte.to_of_N in E. rewrite E. lia.
  - apply Byte.of_N_None_iff in E. lia.
Qed.

Lemma lor_shiftl_byte acc b :
  0 <= acc -> Z.lor (Z.shiftl acc 8) (byte_Z b) = acc * 256 + byte_Z b.
Proof.
  intros Hacc. pose proof (byte_Z_range b) as Hb.
  rewrite Z.shiftl_mul_pow2 by lia. change (2 ^ 8) with 256.
  rewrite <- Z.lxor_lor, <- Z.add_nocarry_lxor; try reflexivity.
  all: apply Z.bits_inj'; intros n Hn;
    rewrite Z.land_spec, Z.bits_0;
    destruct (Z.ltb_spec n 8) as [Hlt|Hge];
    [ replace 256 with (2 ^ 8) by reflexivity;
      rewrite Z.mul_pow2_bits_low by lia; reflexivity
    | rewrite (Z.bits_above_log2 (byte_Z b) n), andb_false_r;
      [ reflexivity | lia
      | destruct (Z.eq_dec (byte_Z b) 0) as [E|E];
        [ rewrite E; cbn; lia
        | apply Z.log2_lt_pow2; [lia|];
          apply Z.lt_le_trans with (2 ^ 8); [cbn; lia|];
          apply Z.pow_le_mono_r; lia ] ] ].
Qed.

Lemma be_decode_from bs : forall acc,
  0 <= acc ->
  0 <= fold_left (fun acc b => Z.lor (Z.shiftl acc 8) (byte_Z b)) bs acc.
Proof.
  induction bs as [|b bs IH]; intros acc Hacc; cbn [fold_left]; [assumption|].
  apply IH. rewrite lor_shiftl_byte by assumption.
  pose proof (byte_Z_range b). lia.
Qed.

Lemma be_decode_encode_from n : forall z acc,
  0 <= acc ->
  fold_left (fun acc b => Z.lor (Z.shiftl acc 8) (byte_Z b)) (be_encode n z) acc
  = acc * 2 ^ (8 * Z.of_nat n) + z mod 2 ^ (8 * Z.of_nat n).
Proof.
  induction n as [|n IH]; intros z acc Hacc.
  - cbn [be_encode fold_left]. change (2 ^ (8 * Z.of_nat 0)) with 1.
    rewrite Z.mod_1_r. lia.
  - cbn [be_encode fold_left].
    rewrite lor_shiftl_byte by assumption.
    rewrite byte_Z_Z_byte.
    pose proof (Z.mod_pos_bound (Z.shiftr z (8 * Z.of_nat n)) 256 ltac:(lia)).
    rewrite IH by lia.
    rewrite Z.shiftr_div_pow2 by lia.
    replace (8 * Z.of_nat (S n)) with (8 * Z.of_nat n + 8) by lia.
    rewrite Z.pow_add_r by lia. change (2 ^ 8) with 256.
    assert (Hp : 0 < 2 ^ (8 * Z.of_nat n)) by (apply Z.pow_pos_nonneg; lia).
    rewrite (Z.rem_mul_r z (2 ^ (8 * Z.of_nat n)) 256) by lia.
    lia.
Qed.

Lemma be_decode_encode n z :
  be_decode (be_encode n z) = z mod 2 ^ (8 * Z.of_nat n).
Proof.
  unfold be_decode. rewrite be_decode_encode_from by lia. lia.
Qed.

Lemma be32_roundtrip z : 0 <= z < 2 ^ 32 -> be32_to_cpu (cpu_to_be32 z) = z.
Proof.
  intros H. unfold be32_to_cpu, cpu_to_be32. rewrite be_decode_encode.
  apply Z.mod_small. exact H.
Qed.

Lemma be16_roundtrip z : 0 <= z < 2 ^ 16 -> be16_to_cpu (cpu_to_be16 z) = z.
Proof.
  intros H. unfold be16_to_cpu, cpu_to_be16. rewrite be_decode_encode.
  apply Z.mod_small. exact H.
Qed.

Lemma be_encode_length n z : length (be_encode n z) = n.
Proof. induction n as [|n IH]; cbn [be_encode length]; congruence. Qed.

Lemma entity_header_bytes_length (h : seama_entity_header) :
  length (magic h) = 4%nat -> length (reserved h) = 2%nat ->
  length (metasize h) = 2%nat -> length (imagesize h) = 4%nat ->
  length (md5 h) = 16%nat ->
  length (entity_header_bytes h) = 28%nat.
Proof.
  intros. unfold entity_header_bytes. rewrite !length_app. lia.
Qed.

(** Reading back a header that was laid out field by field. *)
Lemma entity_header_of_fields (a b c d e rest : list byte) :
  length a = 4%nat -> length b = 2%nat -> length c = 2%nat ->
  length d = 4%nat -> length e = 16%nat ->
  entity_header_of_bytes (firstn 28 (a ++ b ++ c ++ d ++ e ++ rest))
  = {| magic := a; reserved := b; metasize := c; imagesize := d; md5 := e |}.
Proof.
  intros Ha Hb Hc Hd He.
  repeat (destruct a as [|? a]; try discriminate Ha).
  repeat (destruct b as [|? b]; try discriminate Hb).
  repeat (destruct c as [|? c]; try discriminate Hc).
  repeat (destruct d as [|? d]; try discriminate Hd).
  repeat (destruct e as [|? e]; try discriminate He).
  reflexivity.
Qed.

Lemma seal_header_of_fields (a b c d rest : list byte) :
  length a = 4%nat -> length b = 2%nat -> length c = 2%nat ->
  length d = 4%nat ->
  seal_header_of_bytes (firstn 12 (a ++ b ++ c ++ d ++ rest))
  = {| seal_magic := a; seal_reserved := b; seal_metasize := c;
       seal_imagesize := d |}.
Proof.
  intros Ha Hb Hc Hd.
  repeat (destruct a as [|? a]; try discriminate Ha).
  repeat (destruct b as [|? b]; try discriminate Hb).
  repeat (destruct c as [|? c]; try discriminate Hc).
  repeat (destruct d as [|? d]; try discriminate Hd).
  reflexivity.
Qed.

(* ================================================================== *)
(** * Skipping *)

Lemma remaining_skipn fp :
  remaining fp = length (skipn (f_pos fp) (f_data fp)).
Proof. unfold remaining. rewrite length_skipn. reflexivity. Qed.

Lemma oseama_skip_loop_within fuel : forall (fp : FILE) (n : Z),
  0 <= n <= Z.of_nat (remaining fp) ->
  n < 2 ^ 63 ->
  (Z.to_nat n < fuel)%nat ->
  exists rc,
    oseama_skip_loop fuel fp n
    = Ok (rc, mkFILE (f_data fp) (f_pos fp + Z.to_nat n) (f_seekable fp)).
Proof.
  induction fuel as [|fuel IH]; intros fp n Hn Hbig Hfuel; [lia|].
  cbn [oseama_skip_loop].
  assert (Hgot : length (fst (fread (oseama_min 1024 n) fp))
                 = Z.to_nat (oseama_min 1024 n)).
  { rewrite fread_length. unfold oseama_min.
    destruct (Z.ltb_spec 1024 n); lia. }
  destruct (fread (oseama_min 1024 n) fp) as [got fp1] eqn:Hrd.
  cbn [fst] in Hgot.
  assert (Hfp1 : fp1 = mkFILE (f_data fp) (f_pos fp + length got) (f_seekable fp)).
  { unfold fread in Hrd. injection Hrd as <- <-. reflexivity. }
  assert (Hmin : 0 <= oseama_min 1024 n <= n /\ (0 < n -> 0 < oseama_min 1024 n)).
  { unfold oseama_min. destruct (Z.ltb_spec 1024 n); lia. }
  unfold len. rewrite Hgot, Z2Nat.id by lia.
  destruct (Z.leb_spec (oseama_min 1024 n) 0) as [Hz|Hz].
  - exists (- EIO). subst fp1. rewrite Hgot.
    replace (oseama_min 1024 n) with 0 by lia.
    replace n with 0 by lia. reflexivity.
  - rewrite size_t_small by lia.
    destruct (Z.eqb_spec (n - oseama_min 1024 n) 0) as [E|E]; cbn [negb].
    + exists 0. subst fp1. rewrite Hgot. do 3 f_equal. lia.
    + destruct (IH fp1 (n - oseama_min 1024 n)) as [rc Hrc]; try lia.
      * subst fp1. unfold remaining in *. cbn [f_data f_pos]. lia.
      * exists rc. rewrite Hrc. subst fp1. cbn [f_data f_pos f_seekable].
        rewrite Hgot. do 3 f_equal. lia.
Qed.

(** Skipping [n] bytes that the stream still holds moves the position
    [n] bytes on, with or without [fseek]. *)
Lemma oseama_skip_within (fp : FILE) (n : Z) :
  0 <= n <= Z.of_nat (remaining fp) ->
  n < 2 ^ 63 ->
  exists rc,
    oseama_skip fp n
    = Ok (rc, mkFILE (f_data fp) (f_pos fp + Z.to_nat n) (f_seekable fp)).
Proof.
  intros Hn Hbig. unfold oseama_skip, fseek_cur.
  rewrite ssize_t_small by lia.
  destruct (f_seekable fp) eqn:Hs; cbn [andb].
  - destruct (Z.leb_spec 0 (Z.of_nat (f_pos fp) + n)); [|lia].
    cbn [Z.eqb negb]. exists 0. do 3 f_equal. lia.
  - cbn [Z.eqb negb].
    destruct (oseama_skip_loop_within (S (remaining fp)) fp n)
      as [rc Hrc]; try lia.
    exists rc. rewrite Hrc, Hs. reflexivity.
Qed.

(* ================================================================== *)
(** * Extract past the last entity *)

Lemma header_packed_length h :
  header_packed h -> length (entity_header_bytes h) = 28%nat.
Proof.
  intros (H1 & H2 & H3 & H4 & H5). apply entity_header_bytes_length; assumption.
Qed.

Lemma entity_header_of_bytes_bytes h :
  header_packed h -> entity_header_of_bytes (entity_header_bytes h) = h.
Proof.
  intros (H1 & H2 & H3 & H4 & H5). destruct h as [a b c d e].
  cbn [magic reserved metasize imagesize md5] in *.
  unfold entity_header_bytes. cbn [magic reserved metasize imagesize md5].
  pose proof (entity_header_of_fields a b c d e [] H1 H2 H3 H4 H5) as H.
  rewrite firstn_all2 in H by (rewrite !length_app; cbn [length]; lia).
  rewrite app_nil_r in H. exact H.
Qed.

Lemma fread_header (seama : FILE) (h : seama_entity_header) rest :
  header_packed h ->
  skipn (f_pos seama) (f_data seama) = entity_header_bytes h ++ rest ->
  fread sizeof_hdr seama
  = (entity_header_bytes h,
     mkFILE (f_data seama) (f_pos seama + 28) (f_seekable seama)).
Proof.
  intros Hp Hdata. pose proof (header_packed_length _ Hp) as Hl.
  unfold fread. rewrite Hdata.
  change (Z.to_nat sizeof_hdr) with 28%nat.
  rewrite firstn_app, firstn_all2 by lia.
  replace (28 - length (entity_header_bytes h))%nat with 0%nat by lia.
  cbn [firstn]. rewrite app_nil_r, Hl. reflexivity.
Qed.

Lemma entity_header_of_packed e :
  entity_ok e -> header_packed (entity_header_of e).
Proof.
  intros (Hr & Hm & _). unfold header_packed, entity_header_of.
  cbn [magic reserved metasize imagesize md5].
  unfold cpu_to_be32, cpu_to_be16. rewrite !be_encode_length. auto.
Qed.

Lemma entity_bytes_length e :
  entity_ok e ->
  length (entity_bytes e)
  = (28 + length (ent_meta e) + length (ent_image e))%nat.
Proof.
  intros He. unfold entity_bytes.
  rewrite !length_app, header_packed_length
    by (apply entity_header_of_packed; assumption).
  lia.
Qed.

Lemma entities_length es :
  Forall entity_ok es ->
  (28 * length es <= length (concat (map entity_bytes es)))%nat.
Proof.
  induction 1 as [|e es He _ IH]; cbn [map concat length]; [lia|].
  rewrite length_app, entity_bytes_length by assumption. lia.
Qed.

Lemma skipn_add {A} (l : list A) a b :
  skipn (a + b) l = skipn b (skipn a l).
Proof. rewrite skipn_skipn. f_equal. lia. Qed.

Lemma skipn_exact {A} (l1 l2 : list A) n :
  n = length l1 -> skipn n (l1 ++ l2) = l2.
Proof.
  intros ->. rewrite skipn_app, skipn_all, Nat.sub_diag. reflexivity.
Qed.

(** With the target index beyond the entities that are left, the loop of
    [oseama_extract_entity] walks over all of them and leaves through a
    header read of zero bytes. *)
Lemma oseama_extract_entity_loop_past_end es :
  forall (fuel : nat) (seama out : FILE) (i entity_idx : Z),
    Forall entity_ok es ->
    skipn (f_pos seama) (f_data seama) = concat (map entity_bytes es) ->
    (length es < fuel)%nat ->
    0 <= i ->
    i + Z.of_nat (length es) <= entity_idx <= INT_MAX ->
    oseama_extract_entity_loop fuel entity_idx seama out i = Ok (0, out, []).
Proof.
  induction es as [|e es IH]; intros fuel seama out i entity_idx Hok Hdata
    Hfuel Hi Hidx;
    (destruct fuel as [|fuel]; [cbn [length] in Hfuel; lia|]);
    cbn [oseama_extract_entity_loop].
  - unfold fread. cbn [map concat] in Hdata. rewrite Hdata, firstn_nil.
    reflexivity.
  - inversion Hok as [|? ? He Hes]; subst.
    pose proof He as (Hr & Hm & Hms & His).
    pose proof (entity_header_of_packed _ He) as Hp.
    cbn [map concat length] in *.
    unfold entity_bytes at 1 in Hdata. rewrite <- !app_assoc in Hdata.
    rewrite (fread_header seama _ _ Hp Hdata). cbv beta iota zeta.
    unfold len at 1. rewrite (header_packed_length _ Hp).
    change (Z.of_nat 28 =? sizeof_hdr) with true. cbn [negb].
    rewrite (entity_header_of_bytes_bytes _ Hp).
    cbn [entity_header_of magic metasize imagesize].
    pose proof (len_nonneg (ent_meta e)). pose proof (len_nonneg (ent_image e)).
    rewrite be16_roundtrip, (be32_roundtrip (len (ent_image e))) by lia.
    change (be32_to_cpu (cpu_to_be32 SEAMA_MAGIC) =? SEAMA_MAGIC) with true.
    cbn [negb].
    destruct (Z.eqb_spec i entity_idx) as [E|_]; [lia|]. cbn [negb].
    rewrite size_t_small by lia.
    set (fp1 := mkFILE (f_data seama) (f_pos seama + 28) (f_seekable seama)).
    assert (Hrest : skipn (f_pos fp1) (f_data fp1)
                    = ent_meta e ++ ent_image e
                        ++ concat (map entity_bytes es)).
    { subst fp1. cbn [f_pos f_data]. rewrite skipn_add, Hdata.
      apply skipn_exact. symmetry. apply (header_packed_length _ Hp). }
    destruct (oseama_skip_within fp1 (len (ent_meta e) + len (ent_image e)))
      as [rc Hrc].
    + rewrite remaining_skipn, Hrest, !length_app. unfold len. lia.
    + lia.
    + rewrite Hrc. cbn [bind]. unfold int_incr.
      destruct (Z.ltb_spec i INT_MAX); [|lia]. cbn [bind].
      apply IH; try assumption; try lia.
      cbn [f_pos f_data]. rewrite skipn_add, Hrest, app_assoc.
      apply skipn_exact. unfold len. rewrite length_app. lia.
Qed.

(** ** C2 *)

(** The container of one entity, asked for entity 1: Extract reaches the
    end of the stream before the target index, writes nothing, prints
    nothing and completes with status 0. *)
Lemma C2_index_past_end_is_not_an_error :
  let e := {| ent_reserved := [NUL; NUL]; ent_md5 := repeat xff 16;
              ent_meta := [x61; x00]; ent_image := [x01; x02; x03] |} in
  oseama_extract
    (Sample.machine "fw" (container_bytes [NUL; NUL] [x62; x00] [e]))
    (Some "fw"%string) 1 None
  = Ok ({| status := 0; stdout := []; stderr := [] |}, []).
Proof. vm_compute. reflexivity. Qed.

(** Opening the destination of Extract, when it can be created and is
    not the container: the stream of the container is as it was. *)
Lemma extract_opened (w : world) (seama_path : string)
    (out_path : option string) (seama : FILE) :
  (forall p, out_path = Some p -> w_creatable w p = true) ->
  out_path <> Some seama_path ->
  exists b,
    match out_path with
    | Some p =>
      match fopen_w w p with
      | Some (out, _) => inl (out, after_fopen_w p seama_path seama)
      | None => inr p
      end
    | None => inl (mkFILE [] 0 false, seama)
    end = inl (mkFILE [] 0 b, seama).
Proof.
  intros Hout Hne.
  destruct out_path as [p|]; [|eexists; reflexivity].
  unfold fopen_w, after_fopen_w. rewrite (Hout p eq_refl).
  destruct (String.eqb_spec p seama_path) as [->|_]; [congruence|].
  eexists; reflexivity.
Qed.

(** C2, as the code has it.  For every container whose entity stream
    holds n entities, read from a file or from standard input, every
    requested index greater than or equal to n, and every destination
    other than the container file itself, the iterator of Extract
    reaches the end of the stream before the target index; Extract then
    writes nothing to the destination, prints no diagnostic, and
    completes with status 0. *)
Theorem C2_extract_past_last_entity_is_silent :
  forall (w : world) (seama_path : string) (seekable : bool) (e : list diag)
         (seal_reserved seal_meta : list byte) (es : list seama_entity)
         (entity_idx : Z) (out_path : option string),
    oseama_open w seama_path
    = (Some (mkFILE (container_bytes seal_reserved seal_meta es) 0 seekable),
       e) ->
    length seal_reserved = 2%nat ->
    len seal_meta < 2 ^ 16 ->
    Forall entity_ok es ->
    Z.of_nat (length es) <= entity_idx <= INT_MAX ->
    (forall p, out_path = Some p -> w_creatable w p = true) ->
    out_path <> Some seama_path ->
    oseama_extract w (Some seama_path) entity_idx out_path
    = Ok ({| status := 0; stdout := []; stderr := [] |}, []).
Proof.
  intros w seama_path seekable e seal_reserved seal_meta es entity_idx
    out_path Hopen Hres Hmeta Hes Hidx Hout Hne.
  unfold oseama_extract.
  destruct (Z.ltb_spec entity_idx 0); [lia|].
  rewrite Hopen.
  destruct (extract_opened w seama_path out_path
              (mkFILE (container_bytes seal_reserved seal_meta es) 0 seekable)
              Hout Hne) as [b ->].
  set (data := container_bytes seal_reserved seal_meta es).
  assert (Hhdr : length (cpu_to_be32 SEAMA_MAGIC ++ seal_reserved
                           ++ cpu_to_be16 (len seal_meta) ++ cpu_to_be32 0)
                 = 12%nat).
  { unfold cpu_to_be32, cpu_to_be16.
    rewrite !length_app, !be_encode_length. lia. }
  assert (Hraw : fread sizeof_seal_hdr (mkFILE data 0 seekable)
                 = (firstn 12 data, mkFILE data 12 seekable)).
  { unfold fread. cbn [f_data f_pos f_seekable skipn].
    change (Z.to_nat sizeof_seal_hdr) with 12%nat.
    do 2 f_equal. subst data. unfold container_bytes.
    rewrite length_firstn, !length_app in *. lia. }
  rewrite Hraw. cbv beta iota zeta.
  assert (Hlen : len (firstn 12 data) = sizeof_seal_hdr).
  { unfold len. subst data. unfold container_bytes.
    rewrite length_firstn, !length_app in *. unfold sizeof_seal_hdr. lia. }
  rewrite Hlen, Z.eqb_refl. cbn [negb].
  assert (Hsh : seal_header_of_bytes (firstn 12 data)
                = {| seal_magic := cpu_to_be32 SEAMA_MAGIC;
                     seal_reserved := seal_reserved;
                     seal_metasize := cpu_to_be16 (len seal_meta);
                     seal_imagesize := cpu_to_be32 0 |}).
  { subst data. unfold container_bytes.
    apply seal_header_of_fields;
      unfold cpu_to_be32, cpu_to_be16; rewrite ?be_encode_length; auto. }
  rewrite Hsh. cbn [seal_metasize].
  pose proof (len_nonneg seal_meta).
  rewrite be16_roundtrip by lia.
  assert (Hafter : skipn 12 data = seal_meta ++ concat (map entity_bytes es)).
  { subst data. unfold container_bytes.
    rewrite (app_assoc (cpu_to_be32 SEAMA_MAGIC)), (app_assoc (_ ++ _)),
      (app_assoc ((_ ++ _) ++ _)).
    apply skipn_exact. rewrite <- !app_assoc. symmetry. exact Hhdr. }
  destruct (oseama_skip_within (mkFILE data 12 seekable) (len seal_meta))
    as [rc Hrc].
  - rewrite remaining_skipn. cbn [f_pos f_data].
    rewrite Hafter, length_app. unfold len. lia.
  - lia.
  - rewrite Hrc. cbn [bind f_data f_pos f_seekable].
    unfold oseama_extract_entity.
    set (fp := mkFILE data (12 + Z.to_nat (len seal_meta)) seekable).
    assert (Hents : skipn (f_pos fp) (f_data fp)
                    = concat (map entity_bytes es)).
    { subst fp. cbn [f_pos f_data]. rewrite skipn_add, Hafter.
      apply skipn_exact. unfold len. lia. }
    rewrite (oseama_extract_entity_loop_past_end es (S (remaining fp)) fp
               (mkFILE [] 0 b) 0 entity_idx); try assumption; try lia.
    + reflexivity.
    + rewrite remaining_skipn, Hents.
      pose proof (entities_length es Hes). lia.
Qed.

Lemma C2_witness :
  let e := {| ent_reserved := [NUL; NUL]; ent_md5 := repeat xff 16;
              ent_meta := [x61; x00]; ent_image := [x01; x02; x03] |} in
  oseama_extract
    (Sample.machine "fw" (container_bytes [NUL; NUL] [x62; x00] [e; e]))
    (Some "-"%string) 5 (Some "out"%string)
  = Ok ({| status := 0; stdout := []; stderr := [] |}, []).
Proof.
  intros e.
  apply (C2_extract_past_last_entity_is_silent
           (Sample.machine "fw" (container_bytes [NUL; NUL] [x62; x00] [e; e]))
           "-"%string false [] [NUL; NUL] [x62; x00] [e; e] 5
           (Some "out"%string)).
  - reflexivity.
  - reflexivity.
  - vm_compute. reflexivity.
  - repeat constructor; vm_compute; reflexivity.
  - vm_compute. split; discriminate.
  - intros p _. reflexivity.
  - discriminate.
Defined.

(* ================================================================== *)
(** * Build: the two option loops *)

Lemma fwrite_dest bs written :
  fwrite bs (dest written) = (len bs, dest (written ++ bs)).
Proof.
  destruct bs as [|b bs].
  - rewrite app_nil_r. reflexivity.
  - unfold dest. destruct written as [|x written].
    + unfold fwrite. cbn [f_data f_pos f_seekable length app].
      rewrite firstn_nil, skipn_nil, Nat.sub_0_r, Nat.add_0_r, app_nil_r.
      reflexivity.
    + replace (28 + length (x :: written))%nat
        with (length (repeat NUL 28 ++ x :: written))
        by (rewrite length_app, repeat_length; reflexivity).
      rewrite fwrite_at_end. cbn [app].
      rewrite <- app_assoc, !length_app, repeat_length. cbn [app length].
      do 2 f_equal. rewrite length_app. cbn [length]. lia.
Qed.

Lemma item_bytes s :
  firstn (Z.to_nat (strlen s + 1)) (s ++ [NUL])
  = firstn (Z.to_nat (strlen s)) s ++ [NUL].
Proof.
  induction s as [|b s IH]; cbn [strlen app]; [reflexivity|].
  destruct (Byte.eqb b NUL) eqn:E.
  - apply Byte.byte_dec_bl in E. subst b. reflexivity.
  - pose proof (strlen_bounds s).
    replace (Z.to_nat (1 + strlen s + 1)) with (S (Z.to_nat (strlen s + 1)))
      by lia.
    replace (Z.to_nat (1 + strlen s)) with (S (Z.to_nat (strlen s))) by lia.
    cbn [firstn app]. rewrite IH. reflexivity.
Qed.

Lemma oseama_entity_align_4 w seama curr_offset :
  oseama_entity_align w seama curr_offset 4
  = (align_pad curr_offset 4,
     snd (fwrite (repeat NUL (Z.to_nat (align_pad curr_offset 4))) seama),
     []).
Proof. apply (oseama_entity_align_pow2 w seama curr_offset 2). lia. Qed.

Lemma align_pad_bounds offset : 0 <= align_pad offset 4 < 4.
Proof. unfold align_pad. apply Z.mod_pos_bound. lia. Qed.

Lemma align_pad_shift a b :
  a mod 4 = 0 -> align_pad (a + b) 4 = align_pad b 4.
Proof.
  intros Ha. unfold align_pad.
  rewrite <- (Zplus_mod_idemp_l a b 4), Ha. reflexivity.
Qed.

Lemma meta_item_length s :
  len (meta_item s) = strlen s + 1 + align_pad (strlen s + 1) 4.
Proof.
  unfold meta_item. rewrite !len_app, len_firstn_strlen, len_repeat.
  pose proof (align_pad_bounds (strlen s + 1)).
  change (len [NUL]) with 1. lia.
Qed.

Lemma meta_item_aligned s : len (meta_item s) mod 4 = 0.
Proof. rewrite meta_item_length. apply align_pad_aligned. lia. Qed.

Lemma ssize_t_sub a b :
  - 2 ^ 63 <= a - b < 2 ^ 63 -> ssize_t (size_t a - b) = a - b.
Proof.
  intros H. unfold ssize_t, size_t.
  replace (a mod 2 ^ 64 - b + 2 ^ 63) with (a mod 2 ^ 64 + (2 ^ 63 - b)) by lia.
  rewrite Zplus_mod_idemp_l.
  replace (a + (2 ^ 63 - b)) with (a - b + 2 ^ 63) by lia.
  rewrite Z.mod_small; lia.
Qed.

(** One [-m] turn of the first loop writes [meta_item]. *)
Lemma entity_meta_opt_built w st meta s :
  built st meta [] ->
  len meta mod 4 = 0 ->
  sizeof_hdr + len meta + len (meta_item s) < 2 ^ 62 ->
  built (entity_meta_opt w st (OptM s)) (meta ++ meta_item s) [].
Proof.
  intros (Hfp & Hco & Hms & His & Herr) Hal Hfit.
  rewrite app_nil_r in Hfp. change (len (@nil byte)) with 0 in *.
  pose proof (len_nonneg meta) as Hm0.
  pose proof (strlen_bounds s) as Hs.
  pose proof (align_pad_bounds (strlen s + 1)) as Hpad.
  rewrite meta_item_length in Hfit. unfold sizeof_hdr in *.
  unfold entity_meta_opt.
  rewrite Hfp, item_bytes, fwrite_dest. cbv beta iota zeta.
  rewrite len_app, len_firstn_strlen. change (len [NUL]) with 1.
  rewrite ssize_t_small by lia.
  destruct (Z.ltb_spec (strlen s + 1) 0); [lia|].
  rewrite Hco, Hms, !size_t_small by lia.
  rewrite oseama_entity_align_4, fwrite_dest. cbn [snd].
  replace (28 + len meta + 0 + (strlen s + 1))
    with ((28 + len meta) + (strlen s + 1)) by lia.
  rewrite align_pad_shift
    by (rewrite <- Zplus_mod_idemp_r, Hal; reflexivity).
  destruct (Z.ltb_spec (align_pad (strlen s + 1) 4) 0); [lia|].
  rewrite !size_t_small by lia.
  unfold built. cbn [es_seama es_curr_offset es_metasize es_imagesize es_err].
  rewrite app_nil_r, <- !app_assoc.
  unfold meta_item.
  rewrite !len_app, len_firstn_strlen, len_repeat.
  change (len [NUL]) with 1. change (len (@nil byte)) with 0.
  unfold sizeof_hdr.
  repeat split; try reflexivity; try assumption; lia.
Qed.

Lemma meta_block_aligned opts : len (meta_block opts) mod 4 = 0.
Proof.
  induction opts as [|[s|p|t] opts IH]; cbn [meta_block]; try assumption.
  - reflexivity.
  - rewrite len_app, Z.add_mod, meta_item_aligned, IH by lia. reflexivity.
Qed.

(** The first loop writes [meta_block]. *)
Lemma entity_meta_loop_built w opts : forall st meta,
  built st meta [] ->
  len meta mod 4 = 0 ->
  sizeof_hdr + len meta + len (meta_block opts) < 2 ^ 62 ->
  built (entity_meta_loop w opts st) (meta ++ meta_block opts) [].
Proof.
  unfold entity_meta_loop.
  induction opts as [|[s|p|t] opts IH]; intros st meta Hb Hal Hfit;
    cbn [fold_left meta_block] in *.
  - rewrite app_nil_r. assumption.
  - rewrite len_app in Hfit. pose proof (len_nonneg (meta_block opts)).
    rewrite app_assoc. apply IH.
    + apply entity_meta_opt_built; try assumption. lia.
    + rewrite len_app, Z.add_mod, Hal, meta_item_aligned by lia. reflexivity.
    + rewrite len_app. lia.
  - apply IH; assumption.
  - apply IH; assumption.
Qed.

(** The copy loop of [oseama_entity_append_file] appends what is left of
    the input and returns its length. *)
Lemma oseama_entity_append_file_loop_spec fuel :
  forall (in_ : FILE) (written : list byte) (length0 : Z),
    (remaining in_ < fuel)%nat ->
    0 <= length0 ->
    length0 + Z.of_nat (remaining in_) < 2 ^ 63 ->
    oseama_entity_append_file_loop fuel in_ (dest written) length0
    = Ok (length0 + Z.of_nat (remaining in_),
          dest (written ++ skipn (f_pos in_) (f_data in_)), []).
Proof.
  induction fuel as [|fuel IH]; intros in_ written length0 Hfuel H0 Hfit;
    [lia|].
  cbn [oseama_entity_append_file_loop].
  destruct (fread 128 in_) as [got in1] eqn:Hrd.
  assert (Hgot : got = firstn 128 (skipn (f_pos in_) (f_data in_))
                 /\ in1 = mkFILE (f_data in_) (f_pos in_ + length got)
                            (f_seekable in_)).
  { unfold fread in Hrd. change (Z.to_nat 128) with 128%nat in Hrd.
    injection Hrd as <- <-. split; reflexivity. }
  destruct Hgot as [Hgot Hin1].
  pose proof (remaining_skipn in_) as Hrem.
  set (rest := skipn (f_pos in_) (f_data in_)) in *.
  assert (Hlg : length got = Nat.min 128 (length rest)).
  { rewrite Hgot. apply length_firstn. }
  destruct (Z.ltb_spec 0 (len got)) as [Hpos|Hzero].
  - rewrite fwrite_dest, Z.eqb_refl. cbn [negb].
    unfold len in Hpos.
    rewrite ssize_t_small by (unfold len; lia).
    rewrite IH.
    + subst in1. unfold remaining in *. cbn [f_data f_pos].
      rewrite skipn_add. fold rest.
      rewrite <- app_assoc.
      replace (got ++ skipn (length got) rest) with rest
        by (rewrite Hgot at 1; rewrite Hlg;
            destruct (Nat.le_ge_cases 128 (length rest));
            [ rewrite Nat.min_l by lia; symmetry; apply firstn_skipn
            | rewrite Nat.min_r, firstn_all2, skipn_all by lia;
              symmetry; apply app_nil_r ]).
      do 2 f_equal. unfold len. f_equal. lia.
    + subst in1. unfold remaining in *. cbn [f_data f_pos]. lia.
    + unfold len. lia.
    + subst in1. unfold remaining, len in *. cbn [f_data f_pos]. lia.
  - unfold len in Hzero.
    assert (Hnil : rest = []).
    { destruct rest; [reflexivity|]. cbn [length] in Hlg. lia. }
    rewrite Hrem, Hnil, app_nil_r. cbn [length]. rewrite Z.add_0_r.
    reflexivity.
Qed.

(** One turn of the second loop writes what [image_block] says. *)
Lemma entity_image_opt_built w st meta image c :
  built st meta image ->
  sizeof_hdr + len meta + len image
    + len (image_block w (sizeof_hdr + len meta + len image) [c]) < 2 ^ 62 ->
  match c with OptB target => - 2 ^ 62 <= target < 2 ^ 63 | _ => True end ->
  exists st',
    entity_image_opt w st c = Ok st'
    /\ built st' meta
         (image ++ image_block w (sizeof_hdr + len meta + len image) [c]).
Proof.
  intros (Hfp & Hco & Hms & His & Herr) Hfit Hpad.
  pose proof (len_nonneg meta). pose proof (len_nonneg image).
  unfold sizeof_hdr in *.
  destruct c as [s|p|target]; cbn [entity_image_opt image_block] in *.
  - exists st. rewrite app_nil_r. unfold built, sizeof_hdr. tauto.
  - rewrite app_nil_r in *. unfold oseama_entity_append_file, fopen_r.
    destruct (w_files w p) as [d|].
    + rewrite Hfp.
      rewrite oseama_entity_append_file_loop_spec;
        unfold remaining; cbn [f_data f_pos skipn]; unfold len in *;
        try lia.
      cbn [bind]. rewrite Nat.sub_0_r, Z.add_0_l.
      destruct (Z.ltb_spec (Z.of_nat (length d)) 0); [lia|].
      eexists. split; [reflexivity|].
      unfold built, sizeof_hdr, len.
      cbn [es_seama es_curr_offset es_metasize es_imagesize es_err].
      rewrite Hco, His, !size_t_small, app_assoc, !length_app
        by (unfold len; lia).
      unfold len. repeat split; try assumption; lia.
    + cbn [bind]. change (- EACCES <? 0) with true. cbv iota.
      eexists. split; [reflexivity|].
      unfold built, sizeof_hdr.
      cbn [es_seama es_curr_offset es_metasize es_imagesize es_err].
      rewrite app_nil_r. tauto.
  - rewrite app_nil_r in *. rewrite Hco.
    pose proof (len_nonneg
                  (if malloc w (target - (28 + len meta + len image))
                   then repeat NUL
                          (Z.to_nat (target - (28 + len meta + len image)))
                   else [])) as Hz0.
    destruct (Z.lt_ge_cases target (28 + len meta + len image)) as [Hlt|Hge].
    + rewrite ssize_t_sub_neg by lia.
      destruct (Z.ltb_spec (target - (28 + len meta + len image)) 0); [|lia].
      eexists. split; [reflexivity|].
      unfold built, sizeof_hdr.
      cbn [es_seama es_curr_offset es_metasize es_imagesize es_err].
      replace (Z.to_nat (target - (28 + len meta + len image))) with 0%nat
        by lia.
      cbn [repeat].
      destruct (malloc w (target - (28 + len meta + len image)));
        rewrite app_nil_r; tauto.
    + set (n := target - (28 + len meta + len image)) in *.
      assert (Hn : len (if malloc w n then repeat NUL (Z.to_nat n) else [])
                   = if malloc w n then n else 0).
      { destruct (malloc w n); [rewrite len_repeat; lia | reflexivity]. }
      rewrite Hn in Hfit.
      rewrite ssize_t_sub
        by (fold n; destruct (malloc w n); lia).
      fold n.
      destruct (Z.ltb_spec n 0); [lia|].
      unfold oseama_entity_append_zeros.
      destruct (malloc w n) eqn:Hgrant; cbn [negb].
      2:{ change (- ENOMEM <? 0) with true. cbv iota.
          eexists. split; [reflexivity|].
          unfold built, sizeof_hdr.
          cbn [es_seama es_curr_offset es_metasize es_imagesize es_err].
          rewrite app_nil_r. tauto. }
      rewrite Hfp, fwrite_dest. cbv beta iota zeta.
      rewrite len_repeat, Z2Nat.id, Z.eqb_refl by lia. cbn [negb].
      rewrite ssize_t_small by lia.
      destruct (Z.ltb_spec n 0); [lia|].
      eexists. split; [reflexivity|].
      unfold built, sizeof_hdr.
      cbn [es_seama es_curr_offset es_metasize es_imagesize es_err].
      rewrite His, !size_t_small, app_assoc, !len_app, len_repeat
        by lia.
      repeat split; try assumption; lia.
Qed.

Lemma image_block_cons w offset c opts :
  image_block w offset (c :: opts)
  = image_block w offset [c]
      ++ image_block w (offset + len (image_block w offset [c])) opts.
Proof.
  destruct c as [s|p|target]; cbn [image_block].
  - change (len (@nil byte)) with 0. rewrite Z.add_0_r. reflexivity.
  - rewrite !app_nil_r. reflexivity.
  - rewrite !app_nil_r. reflexivity.
Qed.

(** The second loop writes [image_block]. *)
Lemma entity_image_loop_built w opts : forall st meta image,
  built st meta image ->
  sizeof_hdr + len meta + len image
    + len (image_block w (sizeof_hdr + len meta + len image) opts) < 2 ^ 62 ->
  Forall (fun c => match c with OptB target => - 2 ^ 62 <= target < 2 ^ 63
                           | _ => True end) opts ->
  exists st',
    entity_image_loop w opts st = Ok st'
    /\ built st' meta
         (image ++ image_block w (sizeof_hdr + len meta + len image) opts).
Proof.
  induction opts as [|c opts IH]; intros st meta image Hb Hfit Hpads.
  - exists st. cbn [entity_image_loop image_block]. rewrite app_nil_r. auto.
  - inversion Hpads as [|? ? Hpad Hpads']; subst.
    rewrite image_block_cons in Hfit |- *. rewrite len_app in Hfit.
    set (one := image_block w (sizeof_hdr + len meta + len image) [c]) in *.
    pose proof (len_nonneg one).
    pose proof (len_nonneg
      (image_block w (sizeof_hdr + len meta + len image + len one) opts)).
    destruct (entity_image_opt_built w st meta image c Hb) as (st1 & E1 & Hb1);
      [fold one; lia | assumption |].
    fold one in Hb1.
    destruct (IH st1 meta (image ++ one) Hb1) as (st2 & E2 & Hb2).
    + rewrite len_app. rewrite Z.add_assoc. lia.
    + assumption.
    + exists st2. cbn [entity_image_loop]. rewrite E1. cbn [bind].
      destruct Hb1 as (_ & _ & _ & _ & ->). cbn [Z.eqb negb].
      split; [exact E2|].
      rewrite len_app, Z.add_assoc, <- app_assoc in Hb2. exact Hb2.
Qed.

(* ================================================================== *)
(** * Build: the digest and the header *)

Lemma firstn_plus {A} (l : list A) a b :
  firstn (a + b) l = firstn a l ++ firstn b (skipn a l).
Proof.
  revert l. induction a as [|a IH]; intros [|x l]; cbn [Nat.add firstn skipn app].
  - reflexivity.
  - reflexivity.
  - rewrite firstn_nil. reflexivity.
  - rewrite IH. reflexivity.
Qed.

Lemma fwrite_some bs fp :
  length bs <> 0%nat ->
  fwrite bs fp
  = (len bs,
     mkFILE (firstn (f_pos fp) (f_data fp)
               ++ repeat NUL (f_pos fp - length (f_data fp)) ++ bs
               ++ skipn (f_pos fp + length bs) (f_data fp))
            (f_pos fp + length bs) (f_seekable fp)).
Proof. destruct bs; [contradiction | reflexivity]. Qed.

Section Digest.
Context {md5_impl : MD5}.

(** The digest loop feeds [MD5_Update] the next [length] bytes of the
    stream in order - or all that is left, when the stream is
    shorter - and moves the stream that far. *)
Lemma write_hdr_digest_loop_spec fuel :
  forall (seama : FILE) (length0 : Z) (ctx : MD5_CTX),
    0 <= length0 < 2 ^ 64 ->
    (Nat.min (Z.to_nat length0) (remaining seama) < fuel)%nat ->
    exists chunks,
      let fed := firstn (Z.to_nat length0)
                   (skipn (f_pos seama) (f_data seama)) in
      write_hdr_digest_loop fuel seama length0 ctx
      = Ok (mkFILE (f_data seama) (f_pos seama + length fed)
              (f_seekable seama),
            length0 - len fed,
            fold_left MD5_Update chunks ctx)
      /\ concat chunks = fed.
Proof.
  induction fuel as [|fuel IH]; intros seama length0 ctx Hl Hfuel; [lia|].
  cbn [write_hdr_digest_loop].
  destruct (fread (oseama_min 128 length0) seama) as [got fp1] eqn:Hrd.
  pose proof (remaining_skipn seama) as Hrem.
  set (rest := skipn (f_pos seama) (f_data seama)) in *.
  set (k := Z.to_nat (oseama_min 128 length0)).
  assert (Hk : (k <= Z.to_nat length0)%nat /\ (k <= 128)%nat
               /\ (0 < length0 -> (0 < k)%nat)).
  { subst k. unfold oseama_min. destruct (Z.ltb_spec 128 length0); lia. }
  assert (Hgot : got = firstn k rest
                 /\ fp1 = mkFILE (f_data seama) (f_pos seama + length got)
                            (f_seekable seama)).
  { unfold fread in Hrd. injection Hrd as <- <-. split; reflexivity. }
  destruct Hgot as [Hgot Hfp1].
  assert (Hlg : length got = Nat.min k (length rest)).
  { rewrite Hgot. apply length_firstn. }
  assert (Hfg : firstn (length got) rest = got).
  { rewrite Hlg, Hgot. destruct (Nat.le_ge_cases k (length rest)).
    - rewrite Nat.min_l by lia. reflexivity.
    - rewrite Nat.min_r by lia. rewrite !firstn_all2 by lia. reflexivity. }
  assert (Hsplit : firstn (Z.to_nat length0) rest
                   = got ++ firstn (Z.to_nat length0 - length got)
                              (skipn (length got) rest)).
  { replace (Z.to_nat length0)
      with (length got + (Z.to_nat length0 - length got))%nat at 1 by lia.
    rewrite firstn_plus, Hfg. reflexivity. }
  cbv zeta.
  destruct (Z.ltb_spec 0 (len got)) as [Hpos|Hzero]; unfold len in *.
  - rewrite size_t_small by lia.
    destruct (IH fp1 (length0 - Z.of_nat (length got)) (MD5_Update ctx got))
      as (chunks & Hrun & Hcat).
    + lia.
    + subst fp1. unfold remaining in *. cbn [f_data f_pos]. lia.
    + cbv zeta in Hrun, Hcat.
      subst fp1. cbn [f_data f_pos f_seekable] in Hrun, Hcat.
      rewrite skipn_add in Hrun, Hcat. fold rest in Hrun, Hcat.
      replace (Z.to_nat (length0 - Z.of_nat (length got)))
        with (Z.to_nat length0 - length got)%nat in Hrun, Hcat by lia.
      exists (got :: chunks). split.
      * rewrite Hrun, Hsplit, length_app. cbn [fold_left].
        set (m := length (firstn _ (skipn _ rest))).
        replace (f_pos seama + (length got + m))%nat
          with (f_pos seama + length got + m)%nat by lia.
        replace (length0 - Z.of_nat (length got + m))
          with (length0 - Z.of_nat (length got) - Z.of_nat m) by lia.
        reflexivity.
      * cbn [concat]. rewrite Hcat, Hsplit. reflexivity.
  - exists []. cbn [fold_left concat].
    assert (Hnil : firstn (Z.to_nat length0) rest = []).
    { destruct (Nat.eq_dec (Z.to_nat length0) 0) as [->|Hne]; [reflexivity|].
      assert (length rest = 0)%nat by lia.
      destruct rest; [apply firstn_nil | discriminate]. }
    rewrite Hnil. cbn [length]. subst fp1.
    replace (length got) with 0%nat by lia.
    rewrite Z.sub_0_r. split; reflexivity.
Qed.

Lemma dest_after_header written :
  skipn 28 (f_data (dest written)) = written.
Proof.
  unfold dest. cbn [f_data]. destruct written as [|x written].
  - reflexivity.
  - apply skipn_exact. rewrite repeat_length. reflexivity.
Qed.

(** Sealing the destination of a Build run: the digest is taken over the
    image bytes, and the header is written over the room left at the
    start. *)
Lemma oseama_entity_write_hdr_spec meta image :
  sizeof_hdr + len meta + len image < 2 ^ 62 ->
  exists chunks,
    oseama_entity_write_hdr (dest (meta ++ image)) (len meta) (len image)
    = Ok (0,
          mkFILE
            (entity_header_bytes
               {| magic := cpu_to_be32 SEAMA_MAGIC;
                  reserved := [NUL; NUL];
                  metasize := cpu_to_be16 (len meta);
                  imagesize := cpu_to_be32 (len image);
                  md5 := MD5_Final (fold_left MD5_Update chunks MD5_Init) |}
               ++ meta ++ image)
            28 true,
          [])
    /\ concat chunks = image.
Proof.
  intros Hfit. pose proof (len_nonneg meta). pose proof (len_nonneg image).
  unfold sizeof_hdr in *. unfold oseama_entity_write_hdr, sizeof_hdr.
  rewrite size_t_small, ssize_t_small by lia.
  unfold fseek_set at 1. cbn [f_seekable dest andb].
  destruct (Z.leb_spec 0 (28 + len meta)); [|lia].
  set (d := f_data (dest (meta ++ image))). cbn [f_data dest] in d. fold d.
  set (fp := mkFILE d (Z.to_nat (28 + len meta)) true).
  assert (Hrest : skipn (f_pos fp) (f_data fp) = image).
  { subst fp. cbn [f_pos f_data].
    replace (Z.to_nat (28 + len meta)) with (28 + length meta)%nat
      by (unfold len; lia).
    rewrite skipn_add. subst d.
    change (match meta ++ image with
            | [] => []
            | _ :: _ => repeat NUL 28 ++ meta ++ image
            end) with (f_data (dest (meta ++ image))).
    rewrite dest_after_header. apply skipn_exact. reflexivity. }
  destruct (write_hdr_digest_loop_spec (S (remaining fp)) fp (len image)
              MD5_Init) as (chunks & Hrun & Hcat); [lia | lia |].
  cbv zeta in Hrun, Hcat. rewrite Hrest in Hrun, Hcat.
  unfold len in Hrun, Hcat. rewrite Nat2Z.id, firstn_all in Hrun, Hcat.
  exists chunks. split; [|exact Hcat].
  change (Z.of_nat (length image)) with (len image) in Hrun. rewrite Hrun. subst fp. cbn [bind f_data f_seekable].
  unfold fseek_set. cbn [f_seekable andb Z.leb Z.to_nat f_data].
  change (0 <=? 0) with true. cbv iota.
  set (hdr := {| magic := cpu_to_be32 SEAMA_MAGIC; reserved := [NUL; NUL];
                 metasize := _; imagesize := _; md5 := _ |}).
  assert (Hhl : length (entity_header_bytes hdr) = 28%nat).
  { apply entity_header_bytes_length; subst hdr;
      cbn [magic reserved metasize imagesize md5];
      unfold cpu_to_be32, cpu_to_be16; rewrite ?be_encode_length;
      try reflexivity.
    apply MD5_Final_length. }
  assert (Hw : fwrite (entity_header_bytes hdr) (mkFILE d 0 true)
               = (28, mkFILE (entity_header_bytes hdr ++ meta ++ image)
                        28 true)).
  { rewrite fwrite_some by lia. cbn [f_data f_pos f_seekable].
    unfold len. rewrite Hhl. cbn [firstn Nat.sub repeat app Nat.add].
    change (skipn 28 d) with (skipn 28 (f_data (dest (meta ++ image)))).
    rewrite dest_after_header. reflexivity. }
  rewrite Hw. reflexivity.
Qed.

End Digest.

(** ** C4 *)

Lemma entity_start_built : built (entity_start (mkFILE [] 0 true)) [] [].
Proof. unfold built. cbn. repeat split; reflexivity. Qed.

(** With no [-f] naming the emptied file, the image is what it would
    have been before. *)
Lemma image_block_emptied (w : world) (seama_path : string)
    (opts : list entity_opt) : forall offset : Z,
  reads_elsewhere seama_path opts ->
  image_block (emptied w seama_path) offset opts = image_block w offset opts.
Proof.
  induction opts as [|[s|p|t] opts IH]; intros offset Hel;
    cbn [image_block]; [reflexivity|..];
    inversion Hel as [|? ? Hc Hel']; subst.
  - apply IH. exact Hel'.
  - cbn [emptied w_files].
    destruct (String.eqb_spec p seama_path) as [E|_]; [contradiction|].
    rewrite IH by exact Hel'. reflexivity.
  - change (malloc (emptied w seama_path) (t - offset))
      with (malloc w (t - offset)).
    rewrite IH by exact Hel'. reflexivity.
Qed.

(** C4.  For every Build run whose destination can be opened and is
    not itself named by a [-f] (sizes within the range of [ssize_t],
    whatever the allocator grants): the file ends up as the 28-byte
    header, then the metadata block, then the image; the header carries
    the two sizes; and the digest in the header is [MD5_Final] of a
    context that [MD5_Update] was fed exactly the bytes of the image -
    the [imagesize] bytes of the file that start at offset
    [sizeof (hdr) + metasize] - in order, and nothing else.  No byte of
    the metadata block reaches the digest. *)
Theorem C4_digest_covers_exactly_the_image :
  forall (md5_impl : MD5) (w : world) (seama_path : string)
         (opts : list entity_opt),
    w_creatable w seama_path = true ->
    reads_elsewhere seama_path opts ->
    build_fits w opts ->
    let meta := meta_block opts in
    let image := image_block w (sizeof_hdr + len meta) opts in
    exists (r : run) (chunks : list (list byte)) (file : list byte),
      oseama_entity w (Some seama_path) opts = Ok (r, Some file)
      /\ file
         = entity_header_bytes
             {| magic := cpu_to_be32 SEAMA_MAGIC;
                reserved := [NUL; NUL];
                metasize := cpu_to_be16 (len meta);
                imagesize := cpu_to_be32 (len image);
                md5 := MD5_Final (fold_left MD5_Update chunks MD5_Init) |}
             ++ meta ++ image
      /\ concat chunks
         = firstn (Z.to_nat (len image))
             (skipn (Z.to_nat (sizeof_hdr + len meta)) file)
      /\ concat chunks = image
      /\ status r = 0.
Proof.
  intros md5_impl w seama_path opts Hcreate Hel [Hfit Hpads] meta image.
  pose proof (len_nonneg meta). pose proof (len_nonneg image).
  unfold oseama_entity, fopen_w. rewrite Hcreate.
  set (w' := emptied w seama_path).
  assert (Himg : image_block w' (sizeof_hdr + len meta) opts = image)
    by (apply image_block_emptied; exact Hel).
  pose proof (entity_meta_loop_built w' opts _ [] entity_start_built eq_refl)
    as Hb1.
  cbn [app] in Hb1. fold meta in Hb1.
  assert (Hb1' : built (entity_meta_loop w' opts
                          (entity_start (mkFILE [] 0 true)))
                   meta []).
  { apply Hb1. change (len (@nil byte)) with 0. fold meta image in Hfit.
    unfold sizeof_hdr in *. lia. }
  clear Hb1.
  destruct (entity_image_loop_built w' opts _ meta [] Hb1')
    as (st2 & E2 & Hb2).
  { change (len (@nil byte)) with 0. rewrite Z.add_0_r, Himg.
    fold meta image in Hfit. lia. }
  { exact Hpads. }
  change (len (@nil byte)) with 0 in Hb2. rewrite Z.add_0_r, Himg in Hb2.
  cbn [app] in Hb2.
  cbv zeta. rewrite E2. cbn [bind].
  destruct Hb2 as (Hfp & Hco & Hms & His & Herr).
  rewrite Hfp, Hms, His.
  destruct (oseama_entity_write_hdr_spec meta image) as (chunks & Hw & Hcat).
  { fold meta image in Hfit. exact Hfit. }
  rewrite Hw. cbn [bind f_data].
  eexists. exists chunks. eexists. split; [reflexivity|].
  split; [reflexivity|]. split; [|split; [exact Hcat | exact Herr]].
  rewrite Hcat.
  set (hdr := {| magic := _; reserved := _; metasize := _; imagesize := _;
                 md5 := _ |}).
  assert (Hhl : length (entity_header_bytes hdr) = 28%nat).
  { apply entity_header_bytes_length; subst hdr;
      cbn [magic reserved metasize imagesize md5];
      unfold cpu_to_be32, cpu_to_be16; rewrite ?be_encode_length;
      try reflexivity.
    apply MD5_Final_length. }
  replace (Z.to_nat (sizeof_hdr + len meta))
    with (length (entity_header_bytes hdr ++ meta))
    by (rewrite length_app, Hhl; unfold sizeof_hdr, len; lia).
  rewrite app_assoc, skipn_exact by reflexivity.
  unfold len. rewrite Nat2Z.id, firstn_all. reflexivity.
Qed.

Lemma C4_witness :
  let w := Sample.machine "in" [x01; x02; x03] in
  let opts := [OptM [x61; x62]; OptF "in"; OptB 40] in
  let meta := meta_block opts in
  let image := image_block w (sizeof_hdr + len meta) opts in
  exists (r : run) (chunks : list (list byte)) (file : list byte),
    oseama_entity (md5_impl := Sample.prefix_digest) w (Some "fw"%string) opts
    = Ok (r, Some file)
    /\ file
       = entity_header_bytes
           {| magic := cpu_to_be32 SEAMA_MAGIC;
              reserved := [NUL; NUL];
              metasize := cpu_to_be16 (len meta);
              imagesize := cpu_to_be32 (len image);
              md5 := @MD5_Final Sample.prefix_digest
                       (fold_left (@MD5_Update Sample.prefix_digest) chunks
                          (@MD5_Init Sample.prefix_digest)) |}
           ++ meta ++ image
    /\ concat chunks
       = firstn (Z.to_nat (len image))
           (skipn (Z.to_nat (sizeof_hdr + len meta)) file)
    /\ concat chunks = image
    /\ status r = 0.
Proof.
  apply (C4_digest_covers_exactly_the_image Sample.prefix_digest
           (Sample.machine "in" [x01; x02; x03]) "fw"%string
           [OptM [x61; x62]; OptF "in"; OptB 40]).
  - reflexivity.
  - repeat constructor; discriminate.
  - split.
    + vm_compute. reflexivity.
    + repeat constructor; lia.
Defined.

(* ================================================================== *)
(** * Decoding what Build encoded *)

Lemma joined_cons s ss : joined (s :: ss) = (s ++ [NUL]) ++ joined ss.
Proof. reflexivity. Qed.

Lemma joined_length ss :
  Forall meta_string_ok ss -> 2 * Z.of_nat (length ss) <= len (joined ss).
Proof.
  induction 1 as [|s ss [Hne _] _ IH]; [cbn; lia|].
  rewrite joined_cons, !len_app. cbn [length]. change (len [NUL]) with 1.
  assert (0 < len s) by (destruct s; [contradiction | unfold len; cbn; lia]).
  lia.
Qed.

Lemma joined_ends_with_nul ss :
  ss <> [] -> exists body, joined ss = body ++ [NUL].
Proof.
  induction ss as [|s ss IH]; intros Hne; [contradiction|].
  destruct ss as [|s2 ss].
  - exists s. unfold joined. cbn [map concat]. apply app_nil_r.
  - destruct IH as [body Hbody]; [discriminate|].
    exists ((s ++ [NUL]) ++ body).
    rewrite joined_cons, Hbody, app_assoc. reflexivity.
Qed.

(** The scan prints the strings of a NUL-joined run, one per turn, when
    the run lies below [end_] and the scan stops behind it. *)
Lemma meta_entries_loop_strings ss :
  forall (fuel : nat) (buf : buffer) (tmp end_ : Z) (tail : buffer),
    Forall meta_string_ok ss ->
    0 <= tmp ->
    skipn (Z.to_nat tmp) buf = map Some (joined ss) ++ tail ->
    tmp + len (joined ss) <= end_ + 1 ->
    (end_ <= tmp + len (joined ss) \/ exists rest, tail = Some NUL :: rest) ->
    (length ss < fuel)%nat ->
    meta_entries_loop fuel buf tmp end_ = Ok (map OutMetaEntry ss).
Proof.
  induction ss as [|s ss IH]; intros fuel buf tmp end_ tail Hok Htmp Hbuf
    Hin Hstop Hfuel;
    (destruct fuel as [|fuel]; [cbn [length] in Hfuel; lia|]);
    cbn [meta_entries_loop map].
  - change (len (joined [])) with 0 in *. cbn [joined map concat app] in Hbuf.
    destruct (Z.ltb_spec tmp end_) as [Hlt|_]; [|reflexivity].
    destruct Hstop as [Hge|[rest ->]]; [lia|].
    unfold string_at. rewrite Hbuf. reflexivity.
  - inversion Hok as [|? ? [Hne Hfree] Hok']; subst.
    rewrite joined_cons in Hbuf, Hin, Hstop.
    rewrite !len_app in Hin, Hstop. change (len [NUL]) with 1 in *.
    assert (Hs : 0 < len s)
      by (destruct s; [contradiction | unfold len; cbn; lia]).
    pose proof (len_nonneg (joined ss)).
    destruct (Z.ltb_spec tmp end_) as [_|Hge]; [|lia].
    unfold string_at. rewrite Hbuf, map_app, <- app_assoc.
    rewrite c_string_nul_free by assumption. cbn [bind].
    destruct (Z.eqb_spec (len s) 0) as [E|_]; [lia|]. cbn [negb].
    rewrite (IH fuel buf (tmp + len s + 1) end_ tail).
    + reflexivity.
    + assumption.
    + lia.
    + replace (Z.to_nat (tmp + len s + 1))
        with (Z.to_nat tmp + length (map Some (s ++ [NUL])))%nat
        by (rewrite length_map, length_app; unfold len; cbn [length]; lia).
      rewrite skipn_add, Hbuf, (map_app Some (s ++ [NUL]) (joined ss)),
        <- app_assoc.
      apply skipn_exact. reflexivity.
    + lia.
    + destruct Hstop as [Hge|Hnul]; [left; lia | right; exact Hnul].
    + cbn [length] in Hfuel. lia.
Qed.

(** Decoding a block made of NUL-terminated strings and trailing zero
    bytes gives back the strings. *)
Lemma meta_entries_joined ss k buf :
  ss <> [] ->
  Forall meta_string_ok ss ->
  len (joined ss ++ repeat NUL k) < BUFSZ ->
  exists buf',
    meta_entries (buf_fill (joined ss ++ repeat NUL k) buf)
      (len (joined ss ++ repeat NUL k))
    = Ok (buf', map OutMetaEntry ss).
Proof.
  intros Hne Hok Hsize.
  set (block := joined ss ++ repeat NUL k) in *.
  pose proof (joined_length ss Hok) as Hjl.
  assert (Hnz : (0 < length ss)%nat)
    by (destruct ss; [contradiction | cbn; lia]).
  assert (Hlen : len block = len (joined ss) + Z.of_nat k)
    by (subst block; rewrite len_app, len_repeat; reflexivity).
  assert (Hlast : exists body, block = body ++ [NUL]).
  { subst block. destruct k as [|k].
    - destruct (joined_ends_with_nul ss Hne) as [body ->].
      exists body. cbn [repeat]. apply app_nil_r.
    - exists (joined ss ++ repeat NUL k).
      rewrite <- app_assoc. f_equal. cbn [repeat]. apply repeat_cons. }
  destruct Hlast as [body Hbody].
  unfold meta_entries. rewrite buf_store_last by lia. cbn [bind].
  replace (removelast block) with body
    by (rewrite Hbody, removelast_last; reflexivity).
  set (rest := skipn (length block) buf).
  rewrite (meta_entries_loop_strings ss (Z.to_nat BUFSZ)
             (map Some body ++ Some NUL :: rest) 0 (len block - 1)
             (map Some (repeat NUL k) ++ rest)).
  - cbn [bind]. eexists. reflexivity.
  - assumption.
  - lia.
  - cbn [Z.to_nat skipn].
    change (Some NUL :: rest) with (map Some [NUL] ++ rest).
    rewrite !app_assoc, <- !map_app, <- Hbody. reflexivity.
  - lia.
  - destruct k as [|[|k]]; [left; lia | left; lia | right].
    cbn [repeat map app]. eexists. reflexivity.
  - unfold BUFSZ in *. lia.
Qed.

Lemma strlen_of_nul_free s : nul_free s -> strlen s = len s.
Proof.
  unfold len. induction 1 as [|b s Hb _ IH]; cbn [strlen length]; [reflexivity|].
  destruct (Byte.eqb b NUL) eqn:E.
  - apply Byte.byte_dec_bl in E. contradiction.
  - rewrite IH. lia.
Qed.

Lemma meta_item_of_string s :
  nul_free s ->
  meta_item s = (s ++ [NUL]) ++ repeat NUL (Z.to_nat (align_pad (len s + 1) 4)).
Proof.
  intros Hfree. unfold meta_item. rewrite strlen_of_nul_free by assumption.
  unfold len. rewrite Nat2Z.id, firstn_all, <- app_assoc. reflexivity.
Qed.

(** With no zero bytes between the entries, the block Build writes is
    the NUL-joined strings followed by the alignment of the last one. *)
Lemma meta_block_packed ss :
  ss <> [] ->
  Forall meta_string_ok ss ->
  packed ss ->
  exists k, meta_block (map OptM ss) = joined ss ++ repeat NUL k.
Proof.
  induction ss as [|s ss IH]; intros Hne Hok Hpacked; [contradiction|].
  inversion Hok as [|? ? [_ Hfree] Hok']; subst.
  cbn [map meta_block]. rewrite joined_cons, meta_item_of_string by assumption.
  destruct ss as [|s2 ss].
  - eexists. cbn [map meta_block joined concat]. rewrite !app_nil_r.
    reflexivity.
  - destruct Hpacked as [Hal Hpacked].
    destruct IH as [k Hk]; [discriminate | assumption | assumption |].
    exists k. rewrite Hk.
    unfold align_pad. rewrite Hal, Z.sub_0_r, Z.mod_same by lia.
    cbn [Z.to_nat repeat]. rewrite app_nil_r, <- !app_assoc. reflexivity.
Qed.

(** ** C6 *)

(** Build given ["ab"] and ["cd"] writes ["ab\0\0cd\0\0"]; the decode of
    Info prints ["ab"] only, because the zero byte Build put behind the
    first entry reads as an empty string.  With no string at all the
    block is empty and the decode stores outside its buffer. *)
Lemma C6_padding_between_entries_ends_the_decode :
  let w := Sample.machine "in" [] in
  let st := entity_meta_loop w [OptM [x61; x62]; OptM [x63; x64]]
              (entity_start (mkFILE [] 0 true)) in
  let block := skipn 28 (f_data (es_seama st)) in
  block = [x61; x62; x00; x00; x63; x64; x00; x00]
  /\ es_metasize st = 8
  /\ snd <$> meta_entries (buf_fill block buf_uninit) (es_metasize st)
     = Ok [OutMetaEntry [x61; x62]]
  /\ snd <$> meta_entries (buf_fill block buf_uninit) (es_metasize st)
     <> Ok (map OutMetaEntry [[x61; x62]; [x63; x64]])
  /\ es_metasize (entity_meta_loop w [] (entity_start (mkFILE [] 0 true))) = 0
  /\ meta_entries (buf_fill [] buf_uninit) 0 = Undef (StoreOutOfBounds (-1)).
Proof.
  vm_compute. repeat split. discriminate.
Qed.

(** C6, as the code has it.  For every non-empty sequence of non-empty
    strings without NUL in which every string but the last has a length
    of 3 modulo 4 - so that Build pads only behind the last entry - and
    whose metadata block stays below the 1024 bytes Info accepts:
    decoding the block that Build wrote, with the size Build counted,
    prints exactly the original strings in the original order. *)
Theorem C6_decode_of_packed_block_gives_the_strings :
  forall (w : world) (ss : list (list byte)) (buf : buffer),
    ss <> [] ->
    Forall meta_string_ok ss ->
    packed ss ->
    len (meta_block (map OptM ss)) < BUFSZ ->
    let st := entity_meta_loop w (map OptM ss)
                (entity_start (mkFILE [] 0 true)) in
    let block := skipn 28 (f_data (es_seama st)) in
    block = meta_block (map OptM ss)
    /\ es_metasize st = len block
    /\ exists buf',
         meta_entries (buf_fill block buf) (es_metasize st)
         = Ok (buf', map OutMetaEntry ss).
Proof.
  intros w ss buf Hne Hok Hpacked Hsize st block.
  pose proof (len_nonneg (meta_block (map OptM ss))).
  pose proof (entity_meta_loop_built w (map OptM ss) _ [] entity_start_built
                eq_refl) as Hb.
  cbn [app] in Hb. change (len (@nil byte)) with 0 in Hb.
  destruct Hb as (Hfp & _ & Hms & _); [unfold sizeof_hdr, BUFSZ in *; lia|].
  fold st in Hfp, Hms. rewrite app_nil_r in Hfp.
  assert (Hblock : block = meta_block (map OptM ss)).
  { subst block. rewrite Hfp. apply dest_after_header. }
  split; [exact Hblock|]. rewrite Hms, Hblock. split; [reflexivity|].
  destruct (meta_block_packed ss Hne Hok Hpacked) as [k Hk].
  rewrite Hk in *. apply meta_entries_joined; assumption.
Qed.

Lemma C6_witness :
  let w := Sample.machine "in" [] in
  let ss := [[x61; x62; x63]; [x64; x65]] in
  let st := entity_meta_loop w (map OptM ss)
              (entity_start (mkFILE [] 0 true)) in
  let block := skipn 28 (f_data (es_seama st)) in
  block = meta_block (map OptM ss)
  /\ es_metasize st = len block
  /\ exists buf',
       meta_entries (buf_fill block buf_uninit) (es_metasize st)
       = Ok (buf', map OutMetaEntry ss).
Proof.
  apply (C6_decode_of_packed_block_gives_the_strings
           (Sample.machine "in" []) [[x61; x62; x63]; [x64; x65]] buf_uninit).
  - discriminate.
  - repeat constructor; discriminate.
  - simpl. split; [reflexivity | exact I].
  - vm_compute. reflexivity.
Defined.

(* ================================================================== *)
(** * What the metadata decode prints, for any block *)

Lemma split_nul_run s : forall cur rest,
  nul_free s ->
  split_nul cur (s ++ NUL :: rest)
  = match cur ++ s with
    | [] => []
    | _ => (cur ++ s) :: split_nul [] rest
    end.
Proof.
  induction s as [|b s IH]; intros cur rest Hfree; cbn [app split_nul].
  - rewrite app_nil_r. reflexivity.
  - inversion Hfree as [|? ? Hb Hs]; subst.
    destruct (Byte.eqb b NUL) eqn:E.
    + apply Byte.byte_dec_bl in E. contradiction.
    + rewrite IH by assumption. rewrite <- app_assoc. reflexivity.
Qed.

Lemma split_nul_last_run s : forall cur,
  nul_free s ->
  split_nul cur s = match cur ++ s with [] => [] | _ => [cur ++ s] end.
Proof.
  induction s as [|b s IH]; intros cur Hfree; cbn [app split_nul].
  - rewrite app_nil_r. reflexivity.
  - inversion Hfree as [|? ? Hb Hs]; subst.
    destruct (Byte.eqb b NUL) eqn:E.
    + apply Byte.byte_dec_bl in E. contradiction.
    + rewrite IH by assumption. rewrite <- app_assoc. reflexivity.
Qed.

(** A list splits at its first NUL. *)
Lemma strlen_split l :
  nul_free (firstn (Z.to_nat (strlen l)) l)
  /\ (skipn (Z.to_nat (strlen l)) l = []
      \/ exists rest, skipn (Z.to_nat (strlen l)) l = NUL :: rest).
Proof.
  induction l as [|b l [IHf IHs]]; cbn [strlen].
  - split; [constructor | left; reflexivity].
  - destruct (Byte.eqb b NUL) eqn:E.
    + apply Byte.byte_dec_bl in E. subst b. cbn [Z.to_nat firstn skipn].
      split; [constructor | right; eexists; reflexivity].
    + pose proof (strlen_bounds l).
      replace (Z.to_nat (1 + strlen l)) with (S (Z.to_nat (strlen l))) by lia.
      cbn [firstn skipn]. split; [|exact IHs].
      constructor; [|exact IHf]. apply Byte.eqb_false. exact E.
Qed.

(** The scan loop prints [split_nul] of what lies between [tmp] and the
    terminator stored at [end_]. *)
Lemma meta_entries_loop_split fuel :
  forall (body : list byte) (rest : buffer) (tmp : Z),
    0 <= tmp ->
    (0 < fuel)%nat ->
    len body - tmp < Z.of_nat fuel ->
    meta_entries_loop fuel (map Some body ++ Some NUL :: rest) tmp (len body)
    = Ok (map OutMetaEntry (split_nul [] (skipn (Z.to_nat tmp) body))).
Proof.
  induction fuel as [|fuel IH]; intros body rest tmp Htmp Hpos Hfuel; [lia|].
  cbn [meta_entries_loop].
  destruct (Z.ltb_spec tmp (len body)) as [Hlt|Hge].
  - unfold string_at. unfold len in Hlt.
    rewrite skipn_written by lia. rewrite c_string_terminated. cbn [bind].
    set (l := skipn (Z.to_nat tmp) body).
    destruct (strlen_split l) as [Hfree Htail].
    pose proof (strlen_bounds l) as Hb.
    pose proof (firstn_skipn (Z.to_nat (strlen l)) l) as Hsplit.
    set (s := firstn (Z.to_nat (strlen l)) l) in *.
    assert (Hls : len s = strlen l) by apply len_firstn_strlen.
    assert (Hll : length l = (length body - Z.to_nat tmp)%nat)
      by (subst l; apply length_skipn).
    assert (Hnext : skipn (Z.to_nat (tmp + len s + 1)) body
                    = skipn (S (length s)) l).
    { replace (Z.to_nat (tmp + len s + 1))
        with (Z.to_nat tmp + S (length s))%nat
        by (pose proof (len_nonneg s); unfold len in *; lia).
      apply skipn_add. }
    clearbody s. clearbody l.
    destruct (Z.eqb_spec (len s) 0) as [E|E]; cbn [negb].
    + assert (s = [])
        by (destruct s; [reflexivity | unfold len in E; cbn in E; lia]).
      subst s. cbn [app] in Hsplit.
      destruct Htail as [Hnil|[r Hr]].
      * rewrite Hnil in Hsplit. subst l. cbn [length] in Hll. lia.
      * rewrite <- Hsplit, Hr. reflexivity.
    + assert (Hne : s <> [])
        by (intros ->; apply E; reflexivity).
      rewrite IH; try lia.
      * f_equal. rewrite Hnext.
        destruct Htail as [Hnil|[r Hr]].
        -- rewrite Hnil, app_nil_r in Hsplit. subst l.
           rewrite skipn_all2 by lia.
           rewrite (split_nul_last_run s []) by assumption. cbn [app].
           destruct s; [contradiction | reflexivity].
        -- rewrite Hr in Hsplit. subst l.
           rewrite (split_nul_run s [] r) by assumption. cbn [app].
           rewrite skipn_app, skipn_all2 by lia.
           replace (S (length s) - length s)%nat with 1%nat by lia.
           cbn [skipn app].
           destruct s; [contradiction | reflexivity].
      * pose proof (len_nonneg s). unfold len in *. lia.
  - unfold len in Hge. rewrite skipn_all2 by lia. reflexivity.
Qed.

(** X1.  For every metadata block of 1 to 1023 bytes and whatever the
    buffer held before, the decode of Info prints the NUL-separated
    strings of the block without its last byte, in order, up to the
    first empty one: the last byte of the block is overwritten by the
    terminator and never printed. *)
Theorem X1_decode_prints_strings_before_last_byte :
  forall (block : list byte) (buf : buffer),
    1 <= len block < BUFSZ ->
    exists buf',
      meta_entries (buf_fill block buf) (len block)
      = Ok (buf', map OutMetaEntry (split_nul [] (removelast block))).
Proof.
  intros block buf H. unfold meta_entries.
  rewrite buf_store_last by assumption. cbn [bind].
  assert (Hlen : len block - 1 = len (removelast block)).
  { unfold len in *. rewrite removelast_firstn_len, length_firstn. lia. }
  rewrite Hlen.
  rewrite (meta_entries_loop_split (Z.to_nat BUFSZ) (removelast block)
             (skipn (length block) buf) 0);
    unfold BUFSZ in *; try lia.
  cbn [bind Z.to_nat skipn]. eexists. reflexivity.
Qed.

Lemma X1_witness :
  exists buf',
    meta_entries (buf_fill [x61; x62; x00; x63; x64] buf_uninit)
      (len [x61; x62; x00; x63; x64])
    = Ok (buf', map OutMetaEntry [[x61; x62]; [x63]]).
Proof.
  apply (X1_decode_prints_strings_before_last_byte
           [x61; x62; x00; x63; x64] buf_uninit).
  unfold BUFSZ, len. simpl. lia.
Defined.

(* ================================================================== *)
(** * What [oseama_skip] does on either kind of stream *)




(* ================================================================== *)
(** * Extract: reaching and copying the target entity *)

(** The copy loop moves the next [length] bytes of the stream - or all
    that is left - to the end of the destination. *)
Lemma extract_copy_loop_spec fuel :
  forall (seama : FILE) (o : list byte) (b : bool) (length0 : Z),
    0 <= length0 < 2 ^ 64 ->
    (Nat.min (Z.to_nat length0) (remaining seama) < fuel)%nat ->
    let fed := firstn (Z.to_nat length0)
                 (skipn (f_pos seama) (f_data seama)) in
    extract_copy_loop fuel seama (mkFILE o (length o) b) length0
    = Ok (0,
          mkFILE (f_data seama) (f_pos seama + length fed) (f_seekable seama),
          mkFILE (o ++ fed) (length o + length fed) b,
          length0 - len fed, []).
Proof.
  induction fuel as [|fuel IH]; intros seama o b length0 Hl Hfuel; [lia|].
  cbv zeta. cbn [extract_copy_loop].
  destruct (fread (oseama_min 1024 length0) seama) as [got fp1] eqn:Hrd.
  pose proof (remaining_skipn seama) as Hrem.
  set (rest := skipn (f_pos seama) (f_data seama)) in *.
  set (k := Z.to_nat (oseama_min 1024 length0)).
  assert (Hk : (k <= Z.to_nat length0)%nat
               /\ (0 < length0 -> (0 < k)%nat)).
  { subst k. unfold oseama_min. destruct (Z.ltb_spec 1024 length0); lia. }
  assert (Hgot : got = firstn k rest
                 /\ fp1 = mkFILE (f_data seama) (f_pos seama + length got)
                            (f_seekable seama)).
  { unfold fread in Hrd. injection Hrd as <- <-. split; reflexivity. }
  destruct Hgot as [Hgot Hfp1].
  assert (Hlg : length got = Nat.min k (length rest)).
  { rewrite Hgot. apply length_firstn. }
  assert (Hfg : firstn (length got) rest = got).
  { rewrite Hlg, Hgot. destruct (Nat.le_ge_cases k (length rest)).
    - rewrite Nat.min_l by lia. reflexivity.
    - rewrite Nat.min_r by lia. rewrite !firstn_all2 by lia. reflexivity. }
  assert (Hsplit : firstn (Z.to_nat length0) rest
                   = got ++ firstn (Z.to_nat length0 - length got)
                              (skipn (length got) rest)).
  { replace (Z.to_nat length0)
      with (length got + (Z.to_nat length0 - length got))%nat at 1 by lia.
    rewrite firstn_plus, Hfg. reflexivity. }
  destruct (Z.ltb_spec 0 (len got)) as [Hpos|Hzero]; unfold len in *.
  - rewrite fwrite_at_end. unfold len. rewrite Z.eqb_refl. cbn [negb].
    rewrite size_t_small by lia.
    replace (length o + length got)%nat with (length (o ++ got))
      by apply length_app.
    rewrite IH.
    + subst fp1. cbn [f_data f_pos f_seekable]. cbv zeta.
      rewrite skipn_add. fold rest.
      replace (Z.to_nat (length0 - Z.of_nat (length got)))
        with (Z.to_nat length0 - length got)%nat by lia.
      rewrite Hsplit.
      set (more := firstn _ (skipn _ rest)).
      rewrite <- app_assoc, !length_app.
      replace (f_pos seama + length got + length more)%nat
        with (f_pos seama + (length got + length more))%nat by lia.
      replace (length o + length got + length more)%nat
        with (length o + (length got + length more))%nat by lia.
      replace (length0 - Z.of_nat (length got) - Z.of_nat (length more))
        with (length0 - Z.of_nat (length got + length more)) by lia.
      reflexivity.
    + lia.
    + subst fp1. unfold remaining in *. cbn [f_data f_pos]. lia.
  - assert (Hnil : firstn (Z.to_nat length0) rest = []).
    { destruct (Nat.eq_dec (Z.to_nat length0) 0) as [->|Hne]; [reflexivity|].
      assert (length rest = 0)%nat by lia.
      destruct rest; [apply firstn_nil | discriminate]. }
    rewrite Hnil. cbn [length]. subst fp1.
    replace (length got) with 0%nat by lia.
    rewrite Z.sub_0_r, app_nil_r, (Nat.add_0_r (length o)). reflexivity.
Qed.

(** The entities before the target index are walked over, one loop turn
    each. *)
Lemma oseama_extract_entity_loop_walk pre :
  forall (fuel : nat) (seama out : FILE) (i entity_idx : Z) (tail : list byte),
    Forall entity_ok pre ->
    skipn (f_pos seama) (f_data seama)
    = concat (map entity_bytes pre) ++ tail ->
    0 <= i ->
    i + Z.of_nat (length pre) <= entity_idx <= INT_MAX ->
    oseama_extract_entity_loop (length pre + fuel) entity_idx seama out i
    = oseama_extract_entity_loop fuel entity_idx
        (mkFILE (f_data seama)
           (f_pos seama + length (concat (map entity_bytes pre)))
           (f_seekable seama))
        out (i + Z.of_nat (length pre)).
Proof.
  induction pre as [|e pre IH]; intros fuel seama out i entity_idx tail Hok
    Hdata Hi Hidx.
  - cbn [length map concat Nat.add]. rewrite Nat.add_0_r.
    cbn [Z.of_nat]. rewrite Z.add_0_r. destruct seama; reflexivity.
  - inversion Hok as [|? ? He Hes]; subst.
    pose proof He as (Hr & Hm & Hms & His).
    pose proof (entity_header_of_packed _ He) as Hp.
    cbn [map concat length] in *.
    cbn [Nat.add oseama_extract_entity_loop].
    unfold entity_bytes at 1 in Hdata. rewrite <- !app_assoc in Hdata.
    rewrite (fread_header seama _ _ Hp Hdata). cbv beta iota zeta.
    unfold len at 1. rewrite (header_packed_length _ Hp).
    change (Z.of_nat 28 =? sizeof_hdr) with true. cbn [negb].
    rewrite (entity_header_of_bytes_bytes _ Hp).
    cbn [entity_header_of magic metasize imagesize].
    pose proof (len_nonneg (ent_meta e)). pose proof (len_nonneg (ent_image e)).
    rewrite be16_roundtrip, (be32_roundtrip (len (ent_image e))) by lia.
    change (be32_to_cpu (cpu_to_be32 SEAMA_MAGIC) =? SEAMA_MAGIC) with true.
    cbn [negb].
    destruct (Z.eqb_spec i entity_idx) as [E|_]; [lia|]. cbn [negb].
    rewrite size_t_small by lia.
    set (fp1 := mkFILE (f_data seama) (f_pos seama + 28) (f_seekable seama)).
    assert (Hrest : skipn (f_pos fp1) (f_data fp1)
                    = ent_meta e ++ ent_image e
                        ++ concat (map entity_bytes pre) ++ tail).
    { subst fp1. cbn [f_pos f_data]. rewrite skipn_add, Hdata.
      apply skipn_exact. symmetry. apply (header_packed_length _ Hp). }
    destruct (oseama_skip_within fp1 (len (ent_meta e) + len (ent_image e)))
      as [rc Hrc].
    + rewrite remaining_skipn, Hrest, !length_app. unfold len. lia.
    + lia.
    + rewrite Hrc. cbn [bind]. unfold int_incr.
      destruct (Z.ltb_spec i INT_MAX); [|lia]. cbn [bind].
      rewrite (IH fuel _ out (i + 1) entity_idx tail); try assumption; try lia.
      * cbn [f_data f_pos f_seekable]. f_equal; [|lia].
        f_equal. rewrite length_app, entity_bytes_length by assumption.
        subst fp1. cbn [f_pos]. unfold len. lia.
      * cbn [f_pos f_data]. rewrite skipn_add, Hrest.
        rewrite (app_assoc (ent_meta e)).
        apply skipn_exact. unfold len. rewrite length_app. lia.
Qed.

(** The loop turn that finds the target: header and then
    [metasize + imagesize] bytes, or what is left of them, go to the
    destination; bytes that are missing are reported. *)
Lemma oseama_extract_entity_loop_target fuel (seama : FILE) (o : list byte)
    (b : bool) (e : seama_entity) (tail : list byte) (entity_idx : Z) :
  entity_ok e ->
  skipn (f_pos seama) (f_data seama)
  = entity_header_bytes (entity_header_of e) ++ tail ->
  let want := len (ent_meta e) + len (ent_image e) in
  let fed := firstn (Z.to_nat want) tail in
  oseama_extract_entity_loop (S fuel) entity_idx seama
    (mkFILE o (length o) b) entity_idx
  = Ok (if want - len fed =? 0 then 0 else - EIO,
        mkFILE (o ++ entity_header_bytes (entity_header_of e) ++ fed)
          (length o + (28 + length fed)) b,
        if want - len fed =? 0 then []
        else [ErrExtract entity_idx (want - len fed)]).
Proof.
  intros He Hdata want fed.
  pose proof He as (Hr & Hm & Hms & His).
  pose proof (entity_header_of_packed _ He) as Hp.
  pose proof (len_nonneg (ent_meta e)). pose proof (len_nonneg (ent_image e)).
  cbn [oseama_extract_entity_loop].
  rewrite (fread_header seama _ _ Hp Hdata). cbv beta iota zeta.
  unfold len at 1. rewrite (header_packed_length _ Hp).
  change (Z.of_nat 28 =? sizeof_hdr) with true. cbn [negb].
  rewrite (entity_header_of_bytes_bytes _ Hp).
  cbn [entity_header_of magic metasize imagesize].
  fold (entity_header_of e).
  rewrite be16_roundtrip, (be32_roundtrip (len (ent_image e))) by lia.
  change (be32_to_cpu (cpu_to_be32 SEAMA_MAGIC) =? SEAMA_MAGIC) with true.
  cbn [negb]. rewrite Z.eqb_refl. cbn [negb].
  rewrite fwrite_at_end. unfold len at 1.
  rewrite (header_packed_length _ Hp).
  change (Z.of_nat 28 =? sizeof_hdr) with true. cbn [negb].
  rewrite size_t_small by lia. fold want.
  set (fp1 := mkFILE (f_data seama) (f_pos seama + 28) (f_seekable seama)).
  assert (Hrest : skipn (f_pos fp1) (f_data fp1) = tail).
  { subst fp1. cbn [f_pos f_data]. rewrite skipn_add, Hdata.
    apply skipn_exact. symmetry. apply (header_packed_length _ Hp). }
  replace (length o + 28)%nat
    with (length (o ++ entity_header_bytes (entity_header_of e)))
    by (rewrite length_app, (header_packed_length _ Hp); reflexivity).
  rewrite (extract_copy_loop_spec (S (remaining fp1)) fp1 _ b want)
    by (subst want; lia).
  cbv zeta. rewrite Hrest. fold fed. cbn [bind].
  rewrite <- app_assoc, length_app, (header_packed_length _ Hp).
  destruct (Z.eqb_spec (want - len fed) 0); cbn [negb app];
    rewrite <- Nat.add_assoc; reflexivity.
Qed.

(** Extract up to its entity loop, with a destination that is not the
    container: the seal header is read, its metadata skipped, and the
    loop starts at the first entity header. *)
Lemma oseama_extract_sealed (w : world) (seama_path : string)
    (seekable : bool) (e : list diag) (seal_reserved seal_meta body : list byte)
    (entity_idx : Z) (out_path : option string) :
  oseama_open w seama_path
  = (Some (mkFILE (sealed seal_reserved seal_meta body) 0 seekable), e) ->
  length seal_reserved = 2%nat ->
  len seal_meta < 2 ^ 16 ->
  0 <= entity_idx ->
  (forall p, out_path = Some p -> w_creatable w p = true) ->
  out_path <> Some seama_path ->
  exists b,
    let fp := mkFILE (sealed seal_reserved seal_meta body)
                (12 + length seal_meta) seekable in
    skipn (f_pos fp) (f_data fp) = body
    /\ oseama_extract w (Some seama_path) entity_idx out_path
       = (' (_, out, errs) <-
            oseama_extract_entity_loop (S (length body)) entity_idx fp
              (mkFILE [] 0 b) 0 ;;
          Ok ({| status := 0; stdout := []; stderr := errs |}, f_data out)).
Proof.
  intros Hopen Hres Hmeta Hidx Hout Hne.
  destruct (extract_opened w seama_path out_path
              (mkFILE (sealed seal_reserved seal_meta body) 0 seekable)
              Hout Hne) as [b Hb].
  exists b. cbv zeta.
  set (data := sealed seal_reserved seal_meta body).
  assert (Hhdr : length (cpu_to_be32 SEAMA_MAGIC ++ seal_reserved
                           ++ cpu_to_be16 (len seal_meta) ++ cpu_to_be32 0)
                 = 12%nat).
  { unfold cpu_to_be32, cpu_to_be16.
    rewrite !length_app, !be_encode_length. lia. }
  assert (Hafter : skipn 12 data = seal_meta ++ body).
  { subst data. unfold sealed.
    rewrite (app_assoc (cpu_to_be32 SEAMA_MAGIC)), (app_assoc (_ ++ _)),
      (app_assoc ((_ ++ _) ++ _)).
    apply skipn_exact. rewrite <- !app_assoc. symmetry. exact Hhdr. }
  assert (Hbody : skipn (12 + length seal_meta) data = body).
  { rewrite skipn_add, Hafter. apply skipn_exact. reflexivity. }
  split; [exact Hbody|].
  unfold oseama_extract.
  destruct (Z.ltb_spec entity_idx 0); [lia|].
  rewrite Hopen, Hb. fold data.
  assert (Hraw : fread sizeof_seal_hdr (mkFILE data 0 seekable)
                 = (firstn 12 data, mkFILE data 12 seekable)).
  { unfold fread. cbn [f_data f_pos f_seekable skipn].
    change (Z.to_nat sizeof_seal_hdr) with 12%nat.
    do 2 f_equal. subst data. unfold sealed.
    rewrite length_firstn, !length_app in *. lia. }
  rewrite Hraw. cbv beta iota zeta.
  assert (Hlen : len (firstn 12 data) = sizeof_seal_hdr).
  { unfold len. subst data. unfold sealed.
    rewrite length_firstn, !length_app in *. unfold sizeof_seal_hdr. lia. }
  rewrite Hlen, Z.eqb_refl. cbn [negb].
  assert (Hsh : seal_header_of_bytes (firstn 12 data)
                = {| seal_magic := cpu_to_be32 SEAMA_MAGIC;
                     seal_reserved := seal_reserved;
                     seal_metasize := cpu_to_be16 (len seal_meta);
                     seal_imagesize := cpu_to_be32 0 |}).
  { subst data. unfold sealed.
    apply seal_header_of_fields;
      unfold cpu_to_be32, cpu_to_be16; rewrite ?be_encode_length; auto. }
  rewrite Hsh. cbn [seal_metasize].
  pose proof (len_nonneg seal_meta).
  rewrite be16_roundtrip by lia.
  destruct (oseama_skip_within (mkFILE data 12 seekable) (len seal_meta))
    as [rc Hrc].
  - rewrite remaining_skipn. cbn [f_pos f_data].
    rewrite Hafter, length_app. unfold len. lia.
  - lia.
  - rewrite Hrc. cbn [bind f_data f_pos f_seekable].
    unfold oseama_extract_entity, len. rewrite Nat2Z.id.
    rewrite remaining_skipn. cbn [f_pos f_data]. rewrite Hbody.
    reflexivity.
Qed.

Lemma oseama_extract_entity_loop_bad_magic fuel entity_idx seama out i :
  (28 <= remaining seama)%nat ->
  be32_to_cpu (magic (next_header seama)) <> SEAMA_MAGIC ->
  oseama_extract_entity_loop (S fuel) entity_idx seama out i
  = Ok (- EINVAL, out, [ErrMagic (be32_to_cpu (magic (next_header seama)))]).
Proof.
  intros Hfull Hmagic. pose proof (fread_hdr_full seama Hfull) as E.
  apply Z.eqb_neq in Hmagic. unfold next_header in *.
  cbn [oseama_extract_entity_loop].
  destruct (fread sizeof_hdr seama) as [raw seama1]. cbn [fst] in *.
  rewrite E, Hmagic. reflexivity.
Qed.

(** X3.  Extract of an entity that is there.  For every container read
    from a file or from standard input, seekable or not, whose entity
    stream is [pre ++ e :: post], the index [length pre], and a
    destination other than the container file itself: the destination
    receives exactly the bytes of [e] - header, metadata, image,
    verbatim - nothing is reported, and the status is 0. *)
Theorem X3_extract_copies_the_entity_verbatim :
  forall (w : world) (seama_path : string) (seekable : bool) (d : list diag)
         (seal_reserved seal_meta : list byte)
         (pre : list seama_entity) (e : seama_entity)
         (post : list seama_entity) (out_path : option string),
    oseama_open w seama_path
    = (Some (mkFILE (container_bytes seal_reserved seal_meta
                       (pre ++ e :: post)) 0 seekable), d) ->
    length seal_reserved = 2%nat ->
    len seal_meta < 2 ^ 16 ->
    Forall entity_ok pre -> entity_ok e ->
    Z.of_nat (length pre) <= INT_MAX ->
    (forall p, out_path = Some p -> w_creatable w p = true) ->
    out_path <> Some seama_path ->
    oseama_extract w (Some seama_path) (Z.of_nat (length pre)) out_path
    = Ok ({| status := 0; stdout := []; stderr := [] |}, entity_bytes e).
Proof.
  intros w seama_path seekable d seal_reserved seal_meta pre e post out_path
    Hopen Hres Hmeta Hpre He Hmax Hout Hne.
  pose proof He as (_ & _ & Hms & His).
  pose proof (len_nonneg (ent_meta e)). pose proof (len_nonneg (ent_image e)).
  set (body := concat (map entity_bytes (pre ++ e :: post))).
  destruct (oseama_extract_sealed w seama_path seekable d seal_reserved
              seal_meta body (Z.of_nat (length pre)) out_path)
    as (b & Hbody & Hrun); try assumption; try lia.
  cbv zeta in Hbody, Hrun. rewrite Hrun. clear Hrun.
  assert (Hsplit : body = concat (map entity_bytes pre)
                            ++ entity_header_bytes (entity_header_of e)
                            ++ (ent_meta e ++ ent_image e)
                            ++ concat (map entity_bytes post)).
  { subst body. rewrite map_app, concat_app. cbn [map concat].
    unfold entity_bytes at 2. rewrite <- !app_assoc. reflexivity. }
  pose proof (entities_length pre Hpre) as Hpl.
  assert (Hbl : (length pre + 28 <= length body)%nat).
  { rewrite Hsplit, !length_app,
      (header_packed_length _ (entity_header_of_packed _ He)). lia. }
  replace (S (length body))
    with (length pre + S (length body - length pre))%nat by lia.
  rewrite (oseama_extract_entity_loop_walk pre _ _ _ 0 _
             (entity_header_bytes (entity_header_of e)
                ++ (ent_meta e ++ ent_image e)
                ++ concat (map entity_bytes post)));
    try assumption; try lia.
  2:{ rewrite Hbody. exact Hsplit. }
  cbn [f_data f_pos f_seekable]. rewrite Z.add_0_l.
  rewrite (oseama_extract_entity_loop_target _ _ [] b e
             ((ent_meta e ++ ent_image e) ++ concat (map entity_bytes post)));
    try assumption.
  2:{ cbn [f_data f_pos] in Hbody |- *. rewrite skipn_add.
      rewrite Hbody, Hsplit. rewrite <- app_assoc.
      apply skipn_exact. reflexivity. }
  cbv zeta.
  replace (Z.to_nat (len (ent_meta e) + len (ent_image e)))
    with (length (ent_meta e ++ ent_image e))
    by (rewrite length_app; unfold len; lia).
  rewrite firstn_app, firstn_all, Nat.sub_diag. cbn [firstn].
  rewrite app_nil_r. unfold len at 3 6. rewrite length_app.
  replace (len (ent_meta e) + len (ent_image e)
           - Z.of_nat (length (ent_meta e) + length (ent_image e)))
    with 0 by (unfold len; lia).
  cbn [Z.eqb bind f_data app]. unfold entity_bytes. reflexivity.
Qed.

Lemma X3_witness :
  let e0 := {| ent_reserved := [NUL; NUL]; ent_md5 := repeat xff 16;
               ent_meta := [x61; x00]; ent_image := [x01; x02; x03] |} in
  let e1 := {| ent_reserved := [NUL; NUL]; ent_md5 := repeat x11 16;
               ent_meta := [x62; x63; x64; x00]; ent_image := repeat x07 2000 |} in
  oseama_extract
    (Sample.machine "fw" (container_bytes [NUL; NUL] [x62; x00] ([e0] ++ e1 :: [e0])))
    (Some "-"%string) (Z.of_nat (length [e0])) (Some "out"%string)
  = Ok ({| status := 0; stdout := []; stderr := [] |}, entity_bytes e1).
Proof.
  intros e0 e1.
  apply (X3_extract_copies_the_entity_verbatim
           (Sample.machine "fw"
              (container_bytes [NUL; NUL] [x62; x00] ([e0] ++ e1 :: [e0])))
           "-"%string false [] [NUL; NUL] [x62; x00] [e0] e1 [e0]
           (Some "out"%string)).
  - reflexivity.
  - reflexivity.
  - vm_compute. reflexivity.
  - repeat constructor; vm_compute; reflexivity.
  - repeat constructor; vm_compute; reflexivity.
  - vm_compute. discriminate.
  - intros p _. reflexivity.
  - discriminate.
Defined.

(** X4.  Extract of an entity whose bytes end early.  When the stream
    ends [missing] bytes before the end of the target entity, the
    destination - any but the container file itself - receives the
    header and the bytes that are there, the number of missing bytes is
    reported, and the status is still 0. *)
Theorem X4_extract_of_a_cut_entity :
  forall (w : world) (seama_path : string) (seekable : bool) (d : list diag)
         (seal_reserved seal_meta : list byte)
         (pre : list seama_entity) (e : seama_entity) (kept : nat)
         (out_path : option string),
    oseama_open w seama_path
    = (Some (mkFILE
               (sealed seal_reserved seal_meta
                  (concat (map entity_bytes pre)
                     ++ entity_header_bytes (entity_header_of e)
                     ++ firstn kept (ent_meta e ++ ent_image e)))
               0 seekable), d) ->
    length seal_reserved = 2%nat ->
    len seal_meta < 2 ^ 16 ->
    Forall entity_ok pre -> entity_ok e ->
    Z.of_nat (length pre) <= INT_MAX ->
    (kept < length (ent_meta e ++ ent_image e))%nat ->
    (forall p, out_path = Some p -> w_creatable w p = true) ->
    out_path <> Some seama_path ->
    oseama_extract w (Some seama_path) (Z.of_nat (length pre)) out_path
    = Ok ({| status := 0; stdout := [];
             stderr :=
               [ErrExtract (Z.of_nat (length pre))
                  (len (ent_meta e ++ ent_image e) - Z.of_nat kept)] |},
          entity_header_bytes (entity_header_of e)
            ++ firstn kept (ent_meta e ++ ent_image e)).
Proof.
  intros w seama_path seekable d seal_reserved seal_meta pre e kept out_path
    Hopen Hres Hmeta Hpre He Hmax Hkept Hout Hne.
  pose proof He as (_ & _ & Hms & His).
  pose proof (len_nonneg (ent_meta e)). pose proof (len_nonneg (ent_image e)).
  set (tail := firstn kept (ent_meta e ++ ent_image e)) in *.
  assert (Htl : length tail = kept)
    by (subst tail; rewrite length_firstn; lia).
  set (body := concat (map entity_bytes pre)
                 ++ entity_header_bytes (entity_header_of e) ++ tail) in *.
  destruct (oseama_extract_sealed w seama_path seekable d seal_reserved
              seal_meta body (Z.of_nat (length pre)) out_path)
    as (b & Hbody & Hrun); try assumption; try lia.
  cbv zeta in Hbody, Hrun. rewrite Hrun. clear Hrun.
  pose proof (entities_length pre Hpre) as Hpl.
  assert (Hbl : (length pre + 28 <= length body)%nat).
  { subst body. rewrite !length_app,
      (header_packed_length _ (entity_header_of_packed _ He)). lia. }
  replace (S (length body))
    with (length pre + S (length body - length pre))%nat by lia.
  rewrite (oseama_extract_entity_loop_walk pre _ _ _ 0 _
             (entity_header_bytes (entity_header_of e) ++ tail));
    try assumption; try lia.
  cbn [f_data f_pos f_seekable]. rewrite Z.add_0_l.
  rewrite (oseama_extract_entity_loop_target _ _ [] b e tail);
    try assumption.
  2:{ cbn [f_data f_pos] in Hbody |- *. rewrite skipn_add, Hbody.
      subst body. apply skipn_exact. reflexivity. }
  cbv zeta. rewrite length_app in Hkept.
  rewrite firstn_all2 by (unfold len; lia).
  assert (Hlt : len tail = Z.of_nat kept) by (unfold len; lia).
  rewrite len_app, Hlt, Htl.
  destruct (Z.eqb_spec (len (ent_meta e) + len (ent_image e) - Z.of_nat kept) 0)
    as [E|_]; [unfold len in E; lia|].
  reflexivity.
Qed.

Lemma X4_witness :
  let e := {| ent_reserved := [NUL; NUL]; ent_md5 := repeat xff 16;
              ent_meta := [x61; x00]; ent_image := [x01; x02; x03] |} in
  oseama_extract
    (Sample.machine "fw"
       (sealed [NUL; NUL] [x62; x00]
          (concat (map entity_bytes [e])
             ++ entity_header_bytes (entity_header_of e)
             ++ firstn 4 (ent_meta e ++ ent_image e))))
    (Some "fw"%string) (Z.of_nat (length [e])) None
  = Ok ({| status := 0; stdout := [];
           stderr := [ErrExtract (Z.of_nat (length [e]))
                        (len (ent_meta e ++ ent_image e) - Z.of_nat 4)] |},
        entity_header_bytes (entity_header_of e)
          ++ firstn 4 (ent_meta e ++ ent_image e)).
Proof.
  intros e.
  apply (X4_extract_of_a_cut_entity
           (Sample.machine "fw"
              (sealed [NUL; NUL] [x62; x00]
                 (concat (map entity_bytes [e])
                    ++ entity_header_bytes (entity_header_of e)
                    ++ firstn 4 (ent_meta e ++ ent_image e))))
           "fw"%string true [] [NUL; NUL] [x62; x00] [e] e 4%nat None).
  - reflexivity.
  - reflexivity.
  - vm_compute. reflexivity.
  - repeat constructor; vm_compute; reflexivity.
  - repeat constructor; vm_compute; reflexivity.
  - vm_compute. discriminate.
  - vm_compute. lia.
  - intros p Hp. discriminate Hp.
  - discriminate.
Defined.

(** X5.  Extract meeting a bad magic.  When an entity header at or
    before the target index does not carry the sentinel, the invalid
    magic is reported, nothing is written to the destination (any but
    the container file itself) - the entities behind the bad header are
    not looked at - and the status is still 0. *)
Theorem X5_extract_stops_at_a_bad_magic :
  forall (w : world) (seama_path : string) (seekable : bool) (d : list diag)
         (seal_reserved seal_meta : list byte)
         (pre : list seama_entity) (raw rest : list byte)
         (entity_idx : Z) (out_path : option string),
    oseama_open w seama_path
    = (Some (mkFILE
               (sealed seal_reserved seal_meta
                  (concat (map entity_bytes pre) ++ raw ++ rest))
               0 seekable), d) ->
    length seal_reserved = 2%nat ->
    len seal_meta < 2 ^ 16 ->
    Forall entity_ok pre ->
    length raw = 28%nat ->
    be32_to_cpu (magic (entity_header_of_bytes raw)) <> SEAMA_MAGIC ->
    Z.of_nat (length pre) <= entity_idx <= INT_MAX ->
    (forall p, out_path = Some p -> w_creatable w p = true) ->
    out_path <> Some seama_path ->
    oseama_extract w (Some seama_path) entity_idx out_path
    = Ok ({| status := 0; stdout := [];
             stderr :=
               [ErrMagic (be32_to_cpu (magic (entity_header_of_bytes raw)))] |},
          []).
Proof.
  intros w seama_path seekable d seal_reserved seal_meta pre raw rest
    entity_idx out_path Hopen Hres Hmeta Hpre Hraw Hmagic Hidx Hout Hne.
  set (body := concat (map entity_bytes pre) ++ raw ++ rest) in *.
  destruct (oseama_extract_sealed w seama_path seekable d seal_reserved
              seal_meta body entity_idx out_path)
    as (b & Hbody & Hrun); try assumption; try lia.
  cbv zeta in Hbody, Hrun. rewrite Hrun. clear Hrun.
  pose proof (entities_length pre Hpre) as Hpl.
  assert (Hbl : (length pre + 28 <= length body)%nat).
  { subst body. rewrite !length_app. lia. }
  replace (S (length body))
    with (length pre + S (length body - length pre))%nat by lia.
  rewrite (oseama_extract_entity_loop_walk pre _ _ _ 0 _ (raw ++ rest));
    try assumption; try lia.
  cbn [f_data f_pos f_seekable]. rewrite Z.add_0_l.
  set (fp := mkFILE _ _ seekable).
  assert (Hhere : skipn (f_pos fp) (f_data fp) = raw ++ rest).
  { subst fp. cbn [f_data f_pos] in Hbody |- *. rewrite skipn_add, Hbody.
    subst body. apply skipn_exact. reflexivity. }
  assert (Hnext : next_header fp = entity_header_of_bytes raw).
  { unfold next_header, fread. cbn [fst]. rewrite Hhere.
    change (Z.to_nat sizeof_hdr) with 28%nat.
    rewrite firstn_app, firstn_all2 by lia.
    replace (28 - length raw)%nat with 0%nat by lia.
    cbn [firstn]. rewrite app_nil_r. reflexivity. }
  rewrite oseama_extract_entity_loop_bad_magic.
  - rewrite Hnext. reflexivity.
  - rewrite remaining_skipn, Hhere, length_app. lia.
  - rewrite Hnext. exact Hmagic.
Qed.

Lemma X5_witness :
  let e := {| ent_reserved := [NUL; NUL]; ent_md5 := repeat xff 16;
              ent_meta := [x61; x00]; ent_image := [x01; x02; x03] |} in
  oseama_extract
    (Sample.machine "fw"
       (sealed [NUL; NUL] [x62; x00]
          (concat (map entity_bytes [e]) ++ repeat x01 28 ++ entity_bytes e)))
    (Some "fw"%string) 2 None
  = Ok ({| status := 0; stdout := [];
           stderr := [ErrMagic (be32_to_cpu
                        (magic (entity_header_of_bytes (repeat x01 28))))] |},
        []).
Proof.
  intros e.
  apply (X5_extract_stops_at_a_bad_magic
           (Sample.machine "fw"
              (sealed [NUL; NUL] [x62; x00]
                 (concat (map entity_bytes [e]) ++ repeat x01 28
                    ++ entity_bytes e)))
           "fw"%string true [] [NUL; NUL] [x62; x00] [e] (repeat x01 28)
           (entity_bytes e) 2 None).
  - reflexivity.
  - reflexivity.
  - vm_compute. reflexivity.
  - repeat constructor; vm_compute; reflexivity.
  - reflexivity.
  - vm_compute. discriminate.
  - vm_compute. split; discriminate.
  - intros p Hp. discriminate Hp.
  - discriminate.
Defined.

(* ================================================================== *)
(** * Info over a well-formed container *)

Lemma meta_entries_split (block : list byte) (buf : buffer) :
  1 <= len block < BUFSZ ->
  meta_entries (buf_fill block buf) (len block)
  = Ok (map Some (removelast block) ++ Some NUL :: skipn (length block) buf,
        map OutMetaEntry (split_nul [] (removelast block))).
Proof.
  intros H. unfold meta_entries.
  rewrite buf_store_last by assumption. cbn [bind].
  assert (Hlen : len block - 1 = len (removelast block)).
  { unfold len in *. rewrite removelast_firstn_len, length_firstn. lia. }
  rewrite Hlen.
  rewrite (meta_entries_loop_split (Z.to_nat BUFSZ) (removelast block)
             (skipn (length block) buf) 0);
    unfold BUFSZ in *; try lia.
  reflexivity.
Qed.

(** Reading exactly the bytes that lie ahead. *)
Lemma fread_prefix (fp : FILE) (a rest : list byte) :
  skipn (f_pos fp) (f_data fp) = a ++ rest ->
  fread (len a) fp = (a, mkFILE (f_data fp) (f_pos fp + length a) (f_seekable fp)).
Proof.
  intros Hdata. unfold fread, len. rewrite Hdata, Nat2Z.id.
  rewrite firstn_app, firstn_all, Nat.sub_diag. cbn [firstn].
  rewrite app_nil_r. reflexivity.
Qed.

Lemma entity_bytes_len e :
  entity_ok e ->
  len (entity_bytes e) = sizeof_hdr + len (ent_meta e) + len (ent_image e).
Proof.
  intros He. unfold len. rewrite entity_bytes_length by assumption.
  unfold sizeof_hdr. lia.
Qed.

(** The entity loop of Info over a stream that holds the entities [es]
    and then fewer bytes than a header. *)
Lemma oseama_info_entities_loop_spec es :
  forall (fuel : nat) (entity_idx : Z) (seama : FILE) (pos i : Z)
         (buf : buffer) (out : list out_line) (tail : list byte),
    Forall entity_ok es ->
    info_ready entity_idx i es ->
    skipn (f_pos seama) (f_data seama)
    = concat (map entity_bytes es) ++ tail ->
    (length tail < 28)%nat ->
    0 <= i -> i + Z.of_nat (length es) <= INT_MAX ->
    0 <= pos -> pos + len (concat (map entity_bytes es)) < 2 ^ 63 ->
    (length es < fuel)%nat ->
    oseama_info_entities_loop fuel entity_idx seama pos i buf out
    = Ok {| ie_err := 0;
            ie_pos := pos + len (concat (map entity_bytes es));
            ie_stdout := out ++ info_lines entity_idx i pos es;
            ie_stderr := [] |}.
Proof.
  induction es as [|e es IH];
    intros fuel entity_idx seama pos i buf out tail Hok Hready Hdata Htail
      Hi Hmax Hpos Hfit Hfuel;
    (destruct fuel as [|fuel]; [cbn [length] in Hfuel; lia|]);
    cbn [oseama_info_entities_loop].
  - cbn [map concat app info_lines] in *.
    pose proof (fread_hdr_short seama) as Hs.
    destruct (fread sizeof_hdr seama) as [raw seama1]. cbn [fst] in Hs.
    rewrite Hs by (rewrite remaining_skipn, Hdata; exact Htail).
    cbn [negb]. change (len (@nil byte)) with 0.
    rewrite Z.add_0_r, app_nil_r. reflexivity.
  - inversion Hok as [|? ? He Hes]; subst.
    pose proof He as (Hr & Hm & Hms & His).
    pose proof (entity_header_of_packed _ He) as Hp.
    destruct Hready as [Hdec Hready].
    cbn [map concat length info_lines] in *.
    rewrite len_app, (entity_bytes_len e He) in Hfit.
    rewrite len_app, (entity_bytes_len e He).
    pose proof (len_nonneg (ent_meta e)) as Hm0.
    pose proof (len_nonneg (ent_image e)) as Hi0.
    pose proof (len_nonneg (concat (map entity_bytes es))) as Hc0.
    unfold sizeof_hdr in Hfit.
    unfold entity_bytes at 1 in Hdata. rewrite <- !app_assoc in Hdata.
    rewrite (fread_header seama _ _ Hp Hdata). cbv beta iota zeta.
    assert (Hhl : len (entity_header_bytes (entity_header_of e)) = 28)
      by (unfold len; rewrite (header_packed_length _ Hp); reflexivity).
    rewrite !Hhl.
    change (28 =? sizeof_hdr) with true. cbn [negb].
    rewrite (entity_header_of_bytes_bytes _ Hp).
    cbn [entity_header_of magic metasize imagesize].
    rewrite be16_roundtrip, (be32_roundtrip (len (ent_image e))) by lia.
    change (be32_to_cpu (cpu_to_be32 SEAMA_MAGIC) =? SEAMA_MAGIC) with true.
    cbn [negb].
    rewrite (size_t_small (pos + 28)) by lia.
    set (fp1 := mkFILE (f_data seama) (f_pos seama + 28) (f_seekable seama)).
    assert (Hrest : skipn (f_pos fp1) (f_data fp1)
                    = ent_meta e ++ ent_image e
                        ++ concat (map entity_bytes es) ++ tail).
    { subst fp1. cbn [f_pos f_data]. rewrite skipn_add, Hdata.
      apply skipn_exact. symmetry. apply (header_packed_length _ Hp). }
    fold (passed_over entity_idx i).
    unfold int_incr. destruct (Z.ltb_spec i INT_MAX) as [_|]; [|lia].
    destruct (passed_over entity_idx i) eqn:Hpass.
    + rewrite (size_t_small (len (ent_meta e) + len (ent_image e))) by lia.
      destruct (oseama_skip_within fp1 (len (ent_meta e) + len (ent_image e)))
        as [rc Hrc].
      * rewrite remaining_skipn, Hrest, !length_app. unfold len. lia.
      * lia.
      * rewrite Hrc. cbn [bind].
        rewrite size_t_small by lia.
        rewrite (IH fuel entity_idx _ _ (i + 1) buf out tail);
          try assumption; try lia.
        -- cbn [app]. unfold sizeof_hdr.
           replace (pos + 28 + (len (ent_meta e) + len (ent_image e)))
             with (pos + (28 + len (ent_meta e) + len (ent_image e))) by lia.
           rewrite <- Z.add_assoc. reflexivity.
        -- cbn [f_pos f_data]. rewrite skipn_add, Hrest.
           rewrite (app_assoc (ent_meta e)).
           apply skipn_exact. unfold len. rewrite length_app. lia.
    + specialize (Hdec eq_refl).
      destruct (Z.leb_spec BUFSZ (len (ent_meta e))) as [|_]; [lia|].
      rewrite (fread_prefix fp1 (ent_meta e) _ Hrest).
      cbv beta iota zeta. rewrite Z.eqb_refl. cbn [negb].
      rewrite (meta_entries_split _ _ Hdec). cbn [bind].
      set (fp2 := mkFILE (f_data fp1) (f_pos fp1 + length (ent_meta e))
                    (f_seekable fp1)).
      assert (Hrest2 : skipn (f_pos fp2) (f_data fp2)
                       = ent_image e ++ concat (map entity_bytes es) ++ tail).
      { subst fp2. cbn [f_pos f_data]. rewrite skipn_add, Hrest.
        apply skipn_exact. reflexivity. }
      destruct (oseama_skip_within fp2 (len (ent_image e))) as [rc Hrc].
      * rewrite remaining_skipn, Hrest2, !length_app. unfold len. lia.
      * lia.
      * rewrite Hrc. cbn [bind].
        rewrite (size_t_small (pos + 28 + len (ent_meta e))) by lia.
        rewrite (size_t_small (pos + 28 + len (ent_meta e) + len (ent_image e)))
          by lia.
        rewrite (IH fuel entity_idx _ _ (i + 1) _ _ tail);
          try assumption; try lia.
        -- unfold entity_lines, sizeof_hdr.
           replace (pos + 28 - 28) with pos by lia.
           rewrite (size_t_small pos), (ssize_t_small pos) by lia.
           rewrite (size_t_small (28 + len (ent_meta e) + len (ent_image e)))
             by lia.
           replace (pos + 28 + len (ent_meta e) + len (ent_image e))
             with (pos + (28 + len (ent_meta e) + len (ent_image e))) by lia.
           rewrite <- !app_assoc, <- Z.add_assoc. reflexivity.
        -- cbn [f_pos f_data]. rewrite skipn_add, Hrest2.
           apply skipn_exact. unfold len. lia.
Qed.

(** Info up to its entity loop: the seal header is read and checked, the
    seal metadata is read (and printed when no [-e] was given), and the
    loop starts at the first entity header. *)
Lemma oseama_info_sealed (w : world) (seama_path : string)
    (seekable : bool) (d : list diag) (seal_reserved seal_meta body : list byte)
    (entity_idx : Z) :
  oseama_open w seama_path
  = (Some (mkFILE (sealed seal_reserved seal_meta body) 0 seekable), d) ->
  length seal_reserved = 2%nat ->
  len seal_meta < BUFSZ ->
  (entity_idx < 0 -> 1 <= len seal_meta) ->
  let fp := mkFILE (sealed seal_reserved seal_meta body)
              (12 + length seal_meta) seekable in
  skipn (f_pos fp) (f_data fp) = body
  /\ oseama_info w (Some seama_path) entity_idx
     = (r <- oseama_info_entities_loop (S (length body)) entity_idx fp
               (12 + len seal_meta) 0 buf_uninit [] ;;
        Ok {| status := 0;
              stdout :=
                (if entity_idx <? 0 then
                   [OutMetaSize (len seal_meta); OutImageSize 0]
                     ++ map OutMetaEntry
                          (split_nul [] (removelast seal_meta))
                 else []) ++ ie_stdout r;
              stderr := ie_stderr r |}).
Proof.
  intros Hopen Hres Hmeta Hdec. cbv zeta.
  set (data := sealed seal_reserved seal_meta body).
  assert (Hhdr : length (cpu_to_be32 SEAMA_MAGIC ++ seal_reserved
                           ++ cpu_to_be16 (len seal_meta) ++ cpu_to_be32 0)
                 = 12%nat).
  { unfold cpu_to_be32, cpu_to_be16.
    rewrite !length_app, !be_encode_length. lia. }
  assert (Hafter : skipn 12 data = seal_meta ++ body).
  { subst data. unfold sealed.
    rewrite (app_assoc (cpu_to_be32 SEAMA_MAGIC)), (app_assoc (_ ++ _)),
      (app_assoc ((_ ++ _) ++ _)).
    apply skipn_exact. rewrite <- !app_assoc. symmetry. exact Hhdr. }
  assert (Hbody : skipn (12 + length seal_meta) data = body).
  { rewrite skipn_add, Hafter. apply skipn_exact. reflexivity. }
  split; [exact Hbody|].
  unfold oseama_info. rewrite Hopen. fold data.
  assert (Hraw : fread sizeof_seal_hdr (mkFILE data 0 seekable)
                 = (firstn 12 data, mkFILE data 12 seekable)).
  { unfold fread. cbn [f_data f_pos f_seekable skipn].
    change (Z.to_nat sizeof_seal_hdr) with 12%nat.
    do 2 f_equal. subst data. unfold sealed.
    rewrite length_firstn, !length_app in *. lia. }
  rewrite Hraw. cbv beta iota zeta.
  assert (Hlen : len (firstn 12 data) = sizeof_seal_hdr).
  { unfold len. subst data. unfold sealed.
    rewrite length_firstn, !length_app in *. unfold sizeof_seal_hdr. lia. }
  rewrite !Hlen, Z.eqb_refl. cbn [negb].
  assert (Hsh : seal_header_of_bytes (firstn 12 data)
                = {| seal_magic := cpu_to_be32 SEAMA_MAGIC;
                     seal_reserved := seal_reserved;
                     seal_metasize := cpu_to_be16 (len seal_meta);
                     seal_imagesize := cpu_to_be32 0 |}).
  { subst data. unfold sealed.
    apply seal_header_of_fields;
      unfold cpu_to_be32, cpu_to_be16; rewrite ?be_encode_length; auto. }
  rewrite Hsh. cbn [seal_magic seal_metasize seal_imagesize].
  pose proof (len_nonneg seal_meta) as Hm0. unfold BUFSZ in Hmeta.
  rewrite be16_roundtrip by lia.
  change (be32_to_cpu (cpu_to_be32 SEAMA_MAGIC) =? SEAMA_MAGIC) with true.
  change (be32_to_cpu (cpu_to_be32 0)) with 0.
  cbn [negb Z.eqb].
  destruct (Z.leb_spec BUFSZ (len seal_meta)) as [Hbig|_];
    [unfold BUFSZ in Hbig; lia|].
  rewrite (fread_prefix (mkFILE data 12 seekable) seal_meta body Hafter).
  cbv beta iota zeta. rewrite Z.eqb_refl. cbn [negb f_data f_pos f_seekable].
  unfold sizeof_seal_hdr. change (size_t (0 + 12)) with 12.
  rewrite (size_t_small (12 + len seal_meta)) by lia.
  unfold oseama_info_entities. rewrite remaining_skipn.
  cbn [f_pos f_data]. rewrite Hbody.
  destruct (Z.ltb_spec entity_idx 0) as [Hneg|Hpos].
  - rewrite (meta_entries_split seal_meta buf_uninit)
      by (unfold BUFSZ; specialize (Hdec Hneg); lia).
    reflexivity.
  - reflexivity.
Qed.

Lemma info_lines_all es : forall (entity_idx i offset : Z),
  entity_idx < 0 ->
  info_lines entity_idx i offset es = all_entity_lines offset es.
Proof.
  induction es as [|e es IH]; intros entity_idx i offset Hneg;
    cbn [info_lines all_entity_lines]; [reflexivity|].
  unfold passed_over.
  destruct (Z.leb_spec 0 entity_idx) as [|_]; [lia|]. cbn [andb].
  destruct (Z.ltb_spec entity_idx 0) as [_|]; [|lia].
  rewrite IH by assumption. reflexivity.
Qed.

Lemma info_ready_all es : forall (entity_idx i : Z),
  Forall (fun e => 1 <= len (ent_meta e) < BUFSZ) es ->
  info_ready entity_idx i es.
Proof.
  induction es as [|e es IH]; intros entity_idx i Hall; cbn [info_ready];
    [exact I|].
  inversion Hall; subst. split; [intros _; assumption | apply IH; assumption].
Qed.

Lemma info_lines_none es : forall (entity_idx i offset : Z),
  0 <= entity_idx ->
  entity_idx < i \/ i + Z.of_nat (length es) <= entity_idx ->
  info_lines entity_idx i offset es = []
  /\ info_ready entity_idx i es.
Proof.
  induction es as [|e es IH]; intros entity_idx i offset Hidx Hout;
    cbn [info_lines info_ready length] in *; [split; [reflexivity | exact I]|].
  assert (Hpass : passed_over entity_idx i = true).
  { unfold passed_over. destruct (Z.leb_spec 0 entity_idx); [|lia].
    destruct (Z.eqb_spec i entity_idx); [lia | reflexivity]. }
  rewrite Hpass. cbn [app].
  destruct (IH entity_idx (i + 1) (offset + len (entity_bytes e)) Hidx)
    as [Hl Hr]; [lia|].
  split; [exact Hl|]. split; [intros E; discriminate E | exact Hr].
Qed.

Lemma info_lines_one pre : forall (entity_idx i offset : Z) e post,
  0 <= i ->
  entity_idx = i + Z.of_nat (length pre) ->
  1 <= len (ent_meta e) < BUFSZ ->
  info_lines entity_idx i offset (pre ++ e :: post)
  = entity_lines false (offset + len (concat (map entity_bytes pre))) e
  /\ info_ready entity_idx i (pre ++ e :: post).
Proof.
  induction pre as [|p pre IH]; intros entity_idx i offset e post Hi Hidx Hdec;
    cbn [app info_lines info_ready length map concat] in *.
  - assert (Hpass : passed_over entity_idx i = false).
    { unfold passed_over. destruct (Z.eqb_spec i entity_idx); [|lia].
      apply andb_false_r. }
    rewrite Hpass.
    destruct (info_lines_none post entity_idx (i + 1)
                (offset + len (entity_bytes e))) as [Hl Hr]; [lia | lia |].
    rewrite Hl, app_nil_r.
    destruct (Z.ltb_spec entity_idx 0) as [|_]; [lia|].
    change (len (@nil byte)) with 0. rewrite Z.add_0_r.
    split; [reflexivity|]. split; [intros _; exact Hdec | exact Hr].
  - assert (Hpass : passed_over entity_idx i = true).
    { unfold passed_over. destruct (Z.leb_spec 0 entity_idx); [|lia].
      destruct (Z.eqb_spec i entity_idx); [lia | reflexivity]. }
    rewrite Hpass. cbn [app].
    destruct (IH entity_idx (i + 1) (offset + len (entity_bytes p)) e post)
      as [Hl Hr]; [lia | lia | exact Hdec |].
    rewrite Hl, len_app, Z.add_assoc.
    split; [reflexivity|]. split; [intros E; discriminate E | exact Hr].
Qed.

(** X6.  Info without [-e], over a well-formed container read from a
    file or from standard input, seekable or not, whose seal metadata and
    entity metadata blocks have 1 to 1023 bytes each: the output is the
    two sizes of the seal header, the strings of the seal metadata, and
    then for every entity in order a blank line, its offset in the file,
    its size including the header, its two sizes, and the strings of its
    metadata; nothing is reported and the status is 0. *)
Theorem X6_info_lists_every_entity :
  forall (w : world) (seama_path : string) (seekable : bool) (d : list diag)
         (seal_reserved seal_meta : list byte) (es : list seama_entity)
         (entity_idx : Z),
    oseama_open w seama_path
    = (Some (mkFILE (container_bytes seal_reserved seal_meta es) 0 seekable),
       d) ->
    entity_idx < 0 ->
    length seal_reserved = 2%nat ->
    1 <= len seal_meta < BUFSZ ->
    Forall entity_ok es ->
    Forall (fun e => 1 <= len (ent_meta e) < BUFSZ) es ->
    Z.of_nat (length es) <= INT_MAX ->
    len (container_bytes seal_reserved seal_meta es) < 2 ^ 63 ->
    oseama_info w (Some seama_path) entity_idx
    = Ok {| status := 0;
            stdout :=
              [OutMetaSize (len seal_meta); OutImageSize 0]
                ++ map OutMetaEntry (split_nul [] (removelast seal_meta))
                ++ all_entity_lines (sizeof_seal_hdr + len seal_meta) es;
            stderr := [] |}.
Proof.
  intros w seama_path seekable d seal_reserved seal_meta es entity_idx
    Hopen Hneg Hres Hmeta Hok Hdec Hmax Hfit.
  set (body := concat (map entity_bytes es)).
  destruct (oseama_info_sealed w seama_path seekable d seal_reserved
              seal_meta body entity_idx) as [Hbody Hrun];
    try assumption; try lia.
  cbv zeta in Hbody, Hrun. rewrite Hrun. clear Hrun.
  assert (Hcl : len (container_bytes seal_reserved seal_meta es)
                = 12 + len seal_meta + len body).
  { unfold container_bytes, cpu_to_be32, cpu_to_be16. fold body.
    unfold len. rewrite !length_app, !be_encode_length, Hres. lia. }
  pose proof (len_nonneg seal_meta). pose proof (len_nonneg body).
  pose proof (entities_length es Hok) as Hel. fold body in Hel.
  rewrite (oseama_info_entities_loop_spec es _ entity_idx _ _ 0 _ _ []);
    try assumption; try lia.
  - cbn [bind ie_stdout ie_stderr app].
    rewrite (info_lines_all es entity_idx 0 _ Hneg).
    destruct (Z.ltb_spec entity_idx 0) as [_|]; [|lia].
    unfold sizeof_seal_hdr. reflexivity.
  - apply info_ready_all. exact Hdec.
  - rewrite app_nil_r. exact Hbody.
  - cbn [length]. lia.
  - fold body. lia.
Qed.

Lemma X6_witness :
  let e0 := {| ent_reserved := [NUL; NUL]; ent_md5 := repeat xff 16;
               ent_meta := [x61; x3d; x31; x00; x62; x00; x00; x00];
               ent_image := [x01; x02; x03] |} in
  let e1 := {| ent_reserved := [NUL; NUL]; ent_md5 := repeat x11 16;
               ent_meta := [x63; x00; x00; x00]; ent_image := repeat x07 1500 |} in
  oseama_info
    (Sample.machine "fw" (container_bytes [NUL; NUL] [x73; x00] [e0; e1]))
    (Some "-"%string) (-1)
  = Ok {| status := 0;
          stdout :=
            [OutMetaSize (len [x73; x00]); OutImageSize 0]
              ++ map OutMetaEntry (split_nul [] (removelast [x73; x00]))
              ++ all_entity_lines (sizeof_seal_hdr + len [x73; x00]) [e0; e1];
          stderr := [] |}.
Proof.
  intros e0 e1.
  apply (X6_info_lists_every_entity
           (Sample.machine "fw" (container_bytes [NUL; NUL] [x73; x00] [e0; e1]))
           "-"%string false [] [NUL; NUL] [x73; x00] [e0; e1] (-1)).
  - reflexivity.
  - lia.
  - reflexivity.
  - unfold BUFSZ, len. simpl. lia.
  - repeat constructor; vm_compute; reflexivity.
  - repeat constructor; unfold BUFSZ, len; simpl; lia.
  - vm_compute. discriminate.
  - vm_compute. reflexivity.
Defined.

(** X7.  Info with [-e idx], over a container whose entity stream is
    [pre ++ e :: post] and the index [length pre]: the output is the
    offset of [e] in the file, its size including the header, its two
    sizes and the strings of its metadata - no blank line, nothing of the
    seal header, nothing of any other entity.  Only the metadata of [e]
    has to have 1 to 1023 bytes; the seal metadata may be empty. *)
Theorem X7_info_of_one_entity :
  forall (w : world) (seama_path : string) (seekable : bool) (d : list diag)
         (seal_reserved seal_meta : list byte)
         (pre : list seama_entity) (e : seama_entity)
         (post : list seama_entity),
    oseama_open w seama_path
    = (Some (mkFILE (container_bytes seal_reserved seal_meta
                       (pre ++ e :: post)) 0 seekable), d) ->
    length seal_reserved = 2%nat ->
    len seal_meta < BUFSZ ->
    Forall entity_ok (pre ++ e :: post) ->
    1 <= len (ent_meta e) < BUFSZ ->
    Z.of_nat (length (pre ++ e :: post)) <= INT_MAX ->
    len (container_bytes seal_reserved seal_meta (pre ++ e :: post)) < 2 ^ 63 ->
    oseama_info w (Some seama_path) (Z.of_nat (length pre))
    = Ok {| status := 0;
            stdout :=
              entity_lines false
                (sizeof_seal_hdr + len seal_meta
                   + len (concat (map entity_bytes pre))) e;
            stderr := [] |}.
Proof.
  intros w seama_path seekable d seal_reserved seal_meta pre e post
    Hopen Hres Hmeta Hok Hdec Hmax Hfit.
  set (es := pre ++ e :: post) in *.
  set (body := concat (map entity_bytes es)).
  destruct (oseama_info_sealed w seama_path seekable d seal_reserved
              seal_meta body (Z.of_nat (length pre))) as [Hbody Hrun];
    try assumption; try lia.
  cbv zeta in Hbody, Hrun. rewrite Hrun. clear Hrun.
  assert (Hcl : len (container_bytes seal_reserved seal_meta es)
                = 12 + len seal_meta + len body).
  { unfold container_bytes, cpu_to_be32, cpu_to_be16. fold body.
    unfold len. rewrite !length_app, !be_encode_length, Hres. lia. }
  pose proof (len_nonneg seal_meta). pose proof (len_nonneg body).
  pose proof (entities_length es Hok) as Hel. fold body in Hel.
  destruct (info_lines_one pre (Z.of_nat (length pre)) 0
              (12 + len seal_meta) e post) as [Hl Hr];
    try assumption; try lia.
  fold es in Hl, Hr.
  rewrite (oseama_info_entities_loop_spec es _ _ _ _ 0 _ _ []);
    try assumption; try lia.
  - cbn [bind ie_stdout ie_stderr app]. rewrite Hl.
    destruct (Z.ltb_spec (Z.of_nat (length pre)) 0) as [|_]; [lia|].
    reflexivity.
  - rewrite app_nil_r. exact Hbody.
  - cbn [length]. lia.
  - fold body. lia.
Qed.

Lemma X7_witness :
  let e0 := {| ent_reserved := [NUL; NUL]; ent_md5 := repeat xff 16;
               ent_meta := []; ent_image := [x01; x02; x03] |} in
  let e1 := {| ent_reserved := [NUL; NUL]; ent_md5 := repeat x11 16;
               ent_meta := [x63; x00; x64; x00]; ent_image := repeat x07 1500 |} in
  oseama_info
    (Sample.machine "fw" (container_bytes [NUL; NUL] [] ([e0] ++ e1 :: [e0])))
    (Some "fw"%string) (Z.of_nat (length [e0]))
  = Ok {| status := 0;
          stdout :=
            entity_lines false
              (sizeof_seal_hdr + len (@nil byte)
                 + len (concat (map entity_bytes [e0]))) e1;
          stderr := [] |}.
Proof.
  intros e0 e1.
  apply (X7_info_of_one_entity
           (Sample.machine "fw"
              (container_bytes [NUL; NUL] [] ([e0] ++ e1 :: [e0])))
           "fw"%string true [] [NUL; NUL] [] [e0] e1 [e0]).
  - reflexivity.
  - reflexivity.
  - vm_compute. reflexivity.
  - repeat constructor; vm_compute; reflexivity.
  - unfold BUFSZ, len. simpl. lia.
  - vm_compute. discriminate.
  - vm_compute. reflexivity.
Defined.

(* ================================================================== *)
(** * Build, and what Extract and Info make of its file *)

Section BuildRun.
Context {md5_impl : MD5}.

(** A Build run whose destination can be opened, and is not read by a
    [-f], writes the bytes of [built_entity], with the digest of the
    image. *)
Lemma oseama_entity_built (w : world) (seama_path : string)
    (opts : list entity_opt) :
  w_creatable w seama_path = true ->
  reads_elsewhere seama_path opts ->
  build_fits w opts ->
  exists (errs : list diag) (chunks : list (list byte)),
    oseama_entity w (Some seama_path) opts
    = Ok ({| status := 0; stdout := []; stderr := errs |},
          Some (entity_bytes
                  (built_entity w opts
                     (MD5_Final (fold_left MD5_Update chunks MD5_Init)))))
    /\ concat chunks = image_block w (sizeof_hdr + len (meta_block opts)) opts.
Proof.
  intros Hcreate Hel [Hfit Hpads].
  set (meta := meta_block opts) in *.
  set (image := image_block w (sizeof_hdr + len meta) opts) in *.
  pose proof (len_nonneg meta). pose proof (len_nonneg image).
  unfold oseama_entity, fopen_w. rewrite Hcreate.
  set (w' := emptied w seama_path).
  assert (Himg : image_block w' (sizeof_hdr + len meta) opts = image)
    by (apply image_block_emptied; exact Hel).
  pose proof (entity_meta_loop_built w' opts _ [] entity_start_built eq_refl)
    as Hb1.
  cbn [app] in Hb1. fold meta in Hb1.
  assert (Hb1' : built (entity_meta_loop w' opts
                          (entity_start (mkFILE [] 0 true)))
                   meta []).
  { apply Hb1. change (len (@nil byte)) with 0. unfold sizeof_hdr in *. lia. }
  clear Hb1.
  destruct (entity_image_loop_built w' opts _ meta [] Hb1')
    as (st2 & E2 & Hb2).
  { change (len (@nil byte)) with 0. rewrite Z.add_0_r, Himg. lia. }
  { exact Hpads. }
  change (len (@nil byte)) with 0 in Hb2. rewrite Z.add_0_r, Himg in Hb2.
  cbn [app] in Hb2.
  cbv zeta. rewrite E2. cbn [bind].
  destruct Hb2 as (Hfp & Hco & Hms & His & Herr).
  rewrite Hfp, Hms, His, Herr.
  destruct (oseama_entity_write_hdr_spec meta image) as (chunks & Hw & Hcat).
  { exact Hfit. }
  rewrite Hw. cbn [bind f_data].
  eexists. exists chunks. split; [reflexivity | exact Hcat].
Qed.

Lemma built_entity_ok (w : world) (opts : list entity_opt) (ctx : MD5_CTX) :
  len (meta_block opts) < 2 ^ 16 ->
  len (image_block w (sizeof_hdr + len (meta_block opts)) opts) < 2 ^ 32 ->
  entity_ok (built_entity w opts (MD5_Final ctx)).
Proof.
  intros Hm Hi. unfold entity_ok, built_entity.
  cbn [ent_reserved ent_md5 ent_meta ent_image].
  split; [reflexivity|]. split; [apply MD5_Final_length|]. split; assumption.
Qed.

End BuildRun.

(** X8.  Build, then Extract.  The file of a Build run that reads no
    [-f] from its own destination and whose metadata block and image fit
    the 16- and 32-bit size fields, placed first in a sealed container,
    is what Extract of entity 0 delivers to a destination other than
    that container: byte for byte, with no diagnostic and status 0. *)
Theorem X8_extract_returns_what_build_wrote :
  forall (md5_impl : MD5) (w : world) (seama_path : string)
         (opts : list entity_opt),
    w_creatable w seama_path = true ->
    reads_elsewhere seama_path opts ->
    build_fits w opts ->
    len (meta_block opts) < 2 ^ 16 ->
    len (image_block w (sizeof_hdr + len (meta_block opts)) opts) < 2 ^ 32 ->
    exists (r : run) (file : list byte),
      oseama_entity w (Some seama_path) opts = Ok (r, Some file)
      /\ forall (w2 : world) (path2 : string) (seekable : bool)
                (d : list diag) (seal_reserved seal_meta rest : list byte)
                (out_path : option string),
           oseama_open w2 path2
           = (Some (mkFILE (sealed seal_reserved seal_meta (file ++ rest))
                      0 seekable), d) ->
           length seal_reserved = 2%nat ->
           len seal_meta < 2 ^ 16 ->
           (forall p, out_path = Some p -> w_creatable w2 p = true) ->
           out_path <> Some path2 ->
           oseama_extract w2 (Some path2) 0 out_path
           = Ok ({| status := 0; stdout := []; stderr := [] |}, file).
Proof.
  intros md5_impl w seama_path opts Hcreate Hel Hfits Hm Hi.
  destruct (oseama_entity_built w seama_path opts Hcreate Hel Hfits)
    as (errs & chunks & Hrun & _).
  set (e := built_entity w opts _) in Hrun.
  assert (He : entity_ok e) by (apply built_entity_ok; assumption).
  eexists. exists (entity_bytes e). split; [exact Hrun|].
  intros w2 path2 seekable d seal_reserved seal_meta rest out_path
    Hopen Hres Hsm Hout Hne.
  pose proof He as (_ & _ & Hms & His).
  pose proof (len_nonneg (ent_meta e)). pose proof (len_nonneg (ent_image e)).
  destruct (oseama_extract_sealed w2 path2 seekable d seal_reserved
              seal_meta (entity_bytes e ++ rest) 0 out_path)
    as (b & Hbody & Hrun2); try assumption; try lia.
  cbv zeta in Hbody, Hrun2. rewrite Hrun2. clear Hrun2.
  rewrite (oseama_extract_entity_loop_target _ _ [] b e
             ((ent_meta e ++ ent_image e) ++ rest)); try assumption.
  2:{ rewrite Hbody. unfold entity_bytes. rewrite <- !app_assoc.
      reflexivity. }
  cbv zeta.
  replace (Z.to_nat (len (ent_meta e) + len (ent_image e)))
    with (length (ent_meta e ++ ent_image e))
    by (rewrite length_app; unfold len; lia).
  rewrite firstn_app, firstn_all, Nat.sub_diag. cbn [firstn].
  rewrite app_nil_r.
  replace (len (ent_meta e) + len (ent_image e)
           - len (ent_meta e ++ ent_image e))
    with 0 by (rewrite len_app; lia).
  cbn [Z.eqb bind f_data app]. reflexivity.
Qed.

Lemma X8_witness :
  let w := Sample.machine "in" [x01; x02; x03] in
  let opts := [OptM [x61; x62]; OptF "in"; OptB 40] in
  exists (r : run) (file : list byte),
    oseama_entity (md5_impl := Sample.prefix_digest) w (Some "fw"%string) opts
    = Ok (r, Some file)
    /\ forall (w2 : world) (path2 : string) (seekable : bool)
              (d : list diag) (seal_reserved seal_meta rest : list byte)
              (out_path : option string),
         oseama_open w2 path2
         = (Some (mkFILE (sealed seal_reserved seal_meta (file ++ rest))
                    0 seekable), d) ->
         length seal_reserved = 2%nat ->
         len seal_meta < 2 ^ 16 ->
         (forall p, out_path = Some p -> w_creatable w2 p = true) ->
         out_path <> Some path2 ->
         oseama_extract w2 (Some path2) 0 out_path
         = Ok ({| status := 0; stdout := []; stderr := [] |}, file).
Proof.
  apply (X8_extract_returns_what_build_wrote Sample.prefix_digest
           (Sample.machine "in" [x01; x02; x03]) "fw"%string
           [OptM [x61; x62]; OptF "in"; OptB 40]).
  - reflexivity.
  - repeat constructor; discriminate.
  - split.
    + vm_compute. reflexivity.
    + repeat constructor; lia.
  - vm_compute. reflexivity.
  - vm_compute. reflexivity.
Defined.

Lemma meta_block_args (opts : list entity_opt) :
  meta_block opts = meta_block (map OptM (meta_args opts)).
Proof.
  induction opts as [|[s|p|t] opts IH]; cbn [meta_args map meta_block];
    [reflexivity | rewrite IH; reflexivity | exact IH | exact IH].
Qed.

(** The strings of a block of NUL-terminated strings and trailing zero
    bytes are the strings it was joined from. *)
Lemma split_nul_joined (ss : list (list byte)) (k : nat) :
  ss <> [] ->
  Forall meta_string_ok ss ->
  len (joined ss ++ repeat NUL k) < BUFSZ ->
  split_nul [] (removelast (joined ss ++ repeat NUL k)) = ss.
Proof.
  intros Hne Hok Hsize.
  set (block := joined ss ++ repeat NUL k) in *.
  assert (Hpos : 1 <= len block).
  { subst block. rewrite len_app.
    pose proof (len_nonneg (repeat NUL k)).
    destruct (joined_ends_with_nul ss Hne) as [body ->].
    rewrite len_app. pose proof (len_nonneg body).
    change (len [NUL]) with 1. lia. }
  destruct (meta_entries_joined ss k buf_uninit Hne Hok Hsize) as [buf' Hj].
  fold block in Hj.
  rewrite (meta_entries_split block buf_uninit) in Hj by lia.
  injection Hj as _ Hmap.
  revert Hmap. generalize (split_nul [] (removelast block)).
  clear. induction ss as [|s ss IH]; intros [|t l] Hmap;
    try discriminate Hmap; [reflexivity|].
  cbn [map] in Hmap. injection Hmap as -> Hrest.
  f_equal. apply IH. exact Hrest.
Qed.

(** X9.  Build, then Info.  For a Build run that reads no [-f] from
    its own destination and whose [-m] strings are not empty, hold no
    NUL, leave no padding between two entries, and give a metadata
    block below 1024 bytes: Info with [-e 0] on a sealed
    container that holds the file prints the offset behind the seal, the
    length of the file, the two sizes Build counted, and then exactly
    the [-m] strings in the order they were given. *)
Theorem X9_info_prints_the_strings_build_was_given :
  forall (md5_impl : MD5) (w : world) (seama_path : string)
         (opts : list entity_opt),
    w_creatable w seama_path = true ->
    reads_elsewhere seama_path opts ->
    build_fits w opts ->
    meta_args opts <> [] ->
    Forall meta_string_ok (meta_args opts) ->
    packed (meta_args opts) ->
    len (meta_block opts) < BUFSZ ->
    len (image_block w (sizeof_hdr + len (meta_block opts)) opts) < 2 ^ 32 ->
    exists (r : run) (file : list byte),
      oseama_entity w (Some seama_path) opts = Ok (r, Some file)
      /\ forall (w2 : world) (path2 : string) (seekable : bool)
                (d : list diag) (seal_reserved seal_meta : list byte),
           oseama_open w2 path2
           = (Some (mkFILE (sealed seal_reserved seal_meta file) 0 seekable),
              d) ->
           length seal_reserved = 2%nat ->
           len seal_meta < BUFSZ ->
           oseama_info w2 (Some path2) 0
           = Ok {| status := 0;
                   stdout :=
                     [OutEntityOffset (sizeof_seal_hdr + len seal_meta);
                      OutEntitySize (len file);
                      OutMetaSize (len (meta_block opts));
                      OutImageSize
                        (len (image_block w
                                (sizeof_hdr + len (meta_block opts)) opts))]
                       ++ map OutMetaEntry (meta_args opts);
                   stderr := [] |}.
Proof.
  intros md5_impl w seama_path opts Hcreate Hsrc Hfits Hne Hss Hpacked Hm Hi.
  destruct (oseama_entity_built w seama_path opts Hcreate Hsrc Hfits)
    as (errs & chunks & Hrun & _).
  set (e := built_entity w opts _) in Hrun.
  assert (He : entity_ok e)
    by (apply built_entity_ok; [unfold BUFSZ in Hm; lia | assumption]).
  eexists. exists (entity_bytes e). split; [exact Hrun|].
  intros w2 path2 seekable d seal_reserved seal_meta Hopen Hres Hsm.
  destruct Hfits as [Hfit _].
  pose proof (len_nonneg (meta_block opts)) as Hm0.
  pose proof (len_nonneg (image_block w (sizeof_hdr + len (meta_block opts))
                            opts)) as Hi0.
  pose proof (len_nonneg seal_meta) as Hs0.
  destruct (meta_block_packed (meta_args opts) Hne Hss Hpacked) as [k Hk].
  rewrite <- meta_block_args in Hk.
  assert (Hstrings : split_nul [] (removelast (meta_block opts))
                     = meta_args opts).
  { rewrite Hk. apply split_nul_joined; try assumption.
    rewrite <- Hk. exact Hm. }
  assert (Hdec : 1 <= len (ent_meta e) < BUFSZ).
  { subst e. cbn [built_entity ent_meta]. split; [|exact Hm].
    rewrite Hk, len_app. pose proof (len_nonneg (repeat NUL k)).
    destruct (joined_ends_with_nul (meta_args opts) Hne) as [body ->].
    rewrite len_app. pose proof (len_nonneg body).
    change (len [NUL]) with 1. lia. }
  destruct (oseama_info_sealed w2 path2 seekable d seal_reserved
              seal_meta (entity_bytes e) 0) as [Hbody Hrun2];
    try assumption; try lia.
  cbv zeta in Hbody, Hrun2. rewrite Hrun2. clear Hrun2.
  pose proof (entity_bytes_len e He) as Hel.
  subst e. cbn [built_entity ent_meta ent_image] in Hel, Hdec.
  set (e := built_entity w opts _) in *.
  unfold sizeof_hdr, BUFSZ in *.
  rewrite (oseama_info_entities_loop_spec [e] _ 0 _ _ 0 _ _ []);
    try assumption; try lia.
  - cbn [bind ie_stdout ie_stderr app info_lines].
    change (passed_over 0 0) with false. cbv iota.
    rewrite app_nil_r. unfold entity_lines.
    change (0 <? 0) with false. cbv iota. cbn [app].
    subst e. cbn [built_entity ent_meta ent_image].
    rewrite Hstrings, Hel. unfold sizeof_seal_hdr, sizeof_hdr.
    reflexivity.
  - constructor; [exact He | constructor].
  - cbn [info_ready]. split; [intros _; exact Hdec | exact I].
  - cbn [map concat]. rewrite !app_nil_r. exact Hbody.
  - cbn [length]. lia.
  - cbn [length]. unfold INT_MAX. lia.
  - cbn [map concat]. rewrite app_nil_r, Hel. lia.
  - cbn [length]. pose proof (entity_bytes_length e He). lia.
Qed.

Lemma X9_witness :
  let w := Sample.machine "in" [x01; x02; x03] in
  let opts := [OptM [x61; x3d; x31]; OptF "in"; OptM [x62; x63]; OptB 48] in
  exists (r : run) (file : list byte),
    oseama_entity (md5_impl := Sample.prefix_digest) w (Some "fw"%string) opts
    = Ok (r, Some file)
    /\ forall (w2 : world) (path2 : string) (seekable : bool)
              (d : list diag) (seal_reserved seal_meta : list byte),
         oseama_open w2 path2
         = (Some (mkFILE (sealed seal_reserved seal_meta file) 0 seekable),
            d) ->
         length seal_reserved = 2%nat ->
         len seal_meta < BUFSZ ->
         oseama_info w2 (Some path2) 0
         = Ok {| status := 0;
                 stdout :=
                   [OutEntityOffset (sizeof_seal_hdr + len seal_meta);
                    OutEntitySize (len file);
                    OutMetaSize (len (meta_block opts));
                    OutImageSize
                      (len (image_block w
                              (sizeof_hdr + len (meta_block opts)) opts))]
                     ++ map OutMetaEntry (meta_args opts);
                 stderr := [] |}.
Proof.
  apply (X9_info_prints_the_strings_build_was_given Sample.prefix_digest
           (Sample.machine "in" [x01; x02; x03]) "fw"%string
           [OptM [x61; x3d; x31]; OptF "in"; OptM [x62; x63]; OptB 48]).
  - reflexivity.
  - repeat constructor; discriminate.
  - split.
    + vm_compute. reflexivity.
    + repeat constructor; lia.
  - simpl. discriminate.
  - repeat constructor; simpl; discriminate.
  - simpl. split; [reflexivity | exact I].
  - vm_compute. reflexivity.
  - vm_compute. reflexivity.
Defined.

(** X10.  Info with an index past the last entity.  Over a container
    of well-formed entities [es] and with [-e idx], [length es <= idx]:
    every entity is passed over, nothing at all is printed, nothing is
    reported, and the status is 0.  No metadata block has to be
    decodable, the seal's included. *)
Theorem X10_info_index_past_end_prints_nothing :
  forall (w : world) (seama_path : string) (seekable : bool) (d : list diag)
         (seal_reserved seal_meta : list byte) (es : list seama_entity)
         (entity_idx : Z),
    oseama_open w seama_path
    = (Some (mkFILE (container_bytes seal_reserved seal_meta es) 0 seekable),
       d) ->
    length seal_reserved = 2%nat ->
    len seal_meta < BUFSZ ->
    Forall entity_ok es ->
    Z.of_nat (length es) <= entity_idx ->
    Z.of_nat (length es) <= INT_MAX ->
    len (container_bytes seal_reserved seal_meta es) < 2 ^ 63 ->
    oseama_info w (Some seama_path) entity_idx
    = Ok {| status := 0; stdout := []; stderr := [] |}.
Proof.
  intros w seama_path seekable d seal_reserved seal_meta es entity_idx
    Hopen Hres Hmeta Hok Hidx Hmax Hfit.
  set (body := concat (map entity_bytes es)).
  destruct (oseama_info_sealed w seama_path seekable d seal_reserved
              seal_meta body entity_idx) as [Hbody Hrun];
    try assumption; try lia.
  cbv zeta in Hbody, Hrun. rewrite Hrun. clear Hrun.
  assert (Hcl : len (container_bytes seal_reserved seal_meta es)
                = 12 + len seal_meta + len body).
  { unfold container_bytes, cpu_to_be32, cpu_to_be16. fold body.
    unfold len. rewrite !length_app, !be_encode_length, Hres. lia. }
  pose proof (len_nonneg seal_meta). pose proof (len_nonneg body).
  pose proof (entities_length es Hok) as Hel. fold body in Hel.
  destruct (info_lines_none es entity_idx 0 (12 + len seal_meta)) as [Hl Hr];
    [lia | right; lia |].
  rewrite (oseama_info_entities_loop_spec es _ _ _ _ 0 _ _ []);
    try assumption; try lia.
  - cbn [bind ie_stdout ie_stderr app]. rewrite Hl.
    destruct (Z.ltb_spec entity_idx 0) as [|_]; [lia|].
    reflexivity.
  - rewrite app_nil_r. exact Hbody.
  - cbn [length]. lia.
  - fold body. lia.
Qed.

Lemma X10_witness :
  let e0 := {| ent_reserved := [NUL; NUL]; ent_md5 := repeat xff 16;
               ent_meta := []; ent_image := [x01; x02; x03] |} in
  oseama_info
    (Sample.machine "fw" (container_bytes [NUL; NUL] [] [e0; e0]))
    (Some "fw"%string) 2
  = Ok {| status := 0; stdout := []; stderr := [] |}.
Proof.
  intros e0.
  apply (X10_info_index_past_end_prints_nothing
           (Sample.machine "fw" (container_bytes [NUL; NUL] [] [e0; e0]))
           "fw"%string true [] [NUL; NUL] [] [e0; e0] 2).
  - reflexivity.
  - reflexivity.
  - vm_compute. reflexivity.
  - repeat constructor; vm_compute; reflexivity.
  - simpl. lia.
  - vm_compute. discriminate.
  - vm_compute. reflexivity.
Defined.

Lemma built_header_packed {md5_impl : MD5} (w : world)
    (opts : list entity_opt) (ctx : MD5_CTX) :
  header_packed (entity_header_of (built_entity w opts (MD5_Final ctx))).
Proof.
  unfold header_packed, entity_header_of, built_entity.
  cbn [magic reserved metasize imagesize md5 ent_reserved ent_md5].
  unfold cpu_to_be32, cpu_to_be16. rewrite !be_encode_length.
  repeat split. apply MD5_Final_length.
Qed.

(** X11.  The header Build writes.  For every Build run that reads no
    [-f] from its own destination, whatever the allocator grants: the
    file is 28 bytes longer than metadata block and image together - a
    pad whose buffer is not granted adds nothing; its first 28
    bytes read back as a header with the sentinel magic, a zero
    [reserved] field, and the two sizes reduced modulo 2^16 and 2^32 -
    a metadata block of 65536 bytes or more, or an image of 4 GiB or
    more, is recorded with a size that is too small; and the metadata
    block has a length that is a multiple of 4. *)
Theorem X11_built_header_holds_the_sizes_modulo_field_width :
  forall (md5_impl : MD5) (w : world) (seama_path : string)
         (opts : list entity_opt),
    w_creatable w seama_path = true ->
    reads_elsewhere seama_path opts ->
    build_fits w opts ->
    let meta := meta_block opts in
    let image := image_block w (sizeof_hdr + len meta) opts in
    exists (r : run) (file : list byte),
      oseama_entity w (Some seama_path) opts = Ok (r, Some file)
      /\ len file = sizeof_hdr + len meta + len image
      /\ (let hdr := entity_header_of_bytes (firstn 28 file) in
          be32_to_cpu (magic hdr) = SEAMA_MAGIC
          /\ reserved hdr = [NUL; NUL]
          /\ be16_to_cpu (metasize hdr) = len meta mod 2 ^ 16
          /\ be32_to_cpu (imagesize hdr) = len image mod 2 ^ 32)
      /\ len meta mod 4 = 0.
Proof.
  intros md5_impl w seama_path opts Hcreate Hel Hfits meta image.
  destruct (oseama_entity_built w seama_path opts Hcreate Hel Hfits)
    as (errs & chunks & Hrun & _).
  set (e := built_entity w opts _) in Hrun.
  pose proof (built_header_packed w opts
                (fold_left MD5_Update chunks MD5_Init)) as Hp.
  fold e in Hp.
  pose proof (header_packed_length _ Hp) as Hl.
  eexists. exists (entity_bytes e). split; [exact Hrun|].
  split; [|split].
  - unfold entity_bytes, len. rewrite !length_app, Hl.
    subst e meta image. cbn [built_entity ent_meta ent_image].
    unfold sizeof_hdr, len. lia.
  - cbv zeta. unfold entity_bytes.
    rewrite firstn_app, firstn_all2 by lia.
    replace (28 - length (entity_header_bytes (entity_header_of e)))%nat
      with 0%nat by lia.
    cbn [firstn]. rewrite app_nil_r.
    rewrite (entity_header_of_bytes_bytes _ Hp).
    subst e.
    cbn [entity_header_of built_entity magic reserved metasize imagesize
         ent_reserved ent_meta ent_image].
    split; [reflexivity|]. split; [reflexivity|].
    unfold be16_to_cpu, be32_to_cpu, cpu_to_be16, cpu_to_be32.
    rewrite !be_decode_encode. split; reflexivity.
  - apply meta_block_aligned.
Qed.

Lemma X11_witness :
  let w := Sample.machine "in" [x01; x02; x03] in
  let opts := [OptM [x61; x62]; OptF "in"; OptB 40] in
  let meta := meta_block opts in
  let image := image_block w (sizeof_hdr + len meta) opts in
  exists (r : run) (file : list byte),
    oseama_entity (md5_impl := Sample.prefix_digest) w (Some "fw"%string) opts
    = Ok (r, Some file)
    /\ len file = sizeof_hdr + len meta + len image
    /\ (let hdr := entity_header_of_bytes (firstn 28 file) in
        be32_to_cpu (magic hdr) = SEAMA_MAGIC
        /\ reserved hdr = [NUL; NUL]
        /\ be16_to_cpu (metasize hdr) = len meta mod 2 ^ 16
        /\ be32_to_cpu (imagesize hdr) = len image mod 2 ^ 32)
    /\ len meta mod 4 = 0.
Proof.
  apply (X11_built_header_holds_the_sizes_modulo_field_width
           Sample.prefix_digest
           (Sample.machine "in" [x01; x02; x03]) "fw"%string
           [OptM [x61; x62]; OptF "in"; OptB 40]).
  - reflexivity.
  - repeat constructor; discriminate.
  - split.
    + vm_compute. reflexivity.
    + repeat constructor; lia.
Defined.

Lemma meta_block_app (opts more : list entity_opt) :
  meta_block (opts ++ more) = meta_block opts ++ meta_block more.
Proof.
  induction opts as [|[s|p|t] opts IH]; cbn [app meta_block];
    [reflexivity | rewrite IH, app_assoc; reflexivity | exact IH | exact IH].
Qed.

Lemma image_block_app (w : world) (opts : list entity_opt) :
  forall (offset : Z) (more : list entity_opt),
    image_block w offset (opts ++ more)
    = image_block w offset opts
        ++ image_block w (offset + len (image_block w offset opts)) more.
Proof.
  induction opts as [|c opts IH]; intros offset more.
  - cbn [app image_block]. change (len (@nil byte)) with 0.
    rewrite Z.add_0_r. reflexivity.
  - cbn [app]. rewrite (image_block_cons w offset c (opts ++ more)).
    rewrite (image_block_cons w offset c opts).
    rewrite IH, <- app_assoc, len_app, Z.add_assoc. reflexivity.
Qed.

(** X12.  Padding to a length.  A Build run that reads no [-f] from
    its own destination and whose last option is [-b target], with
    [target] not below what the options before it give and the buffer
    for the zero bytes granted, leaves a file of exactly [target]
    bytes: the header, the metadata block and the image of the options
    before it, and zero bytes from there to [target]. *)
Theorem X12_last_pad_gives_the_file_its_length :
  forall (md5_impl : MD5) (w : world) (seama_path : string)
         (opts : list entity_opt) (target : Z),
    w_creatable w seama_path = true ->
    reads_elsewhere seama_path opts ->
    build_fits w (opts ++ [OptB target]) ->
    let meta := meta_block opts in
    let image := image_block w (sizeof_hdr + len meta) opts in
    sizeof_hdr + len meta + len image <= target ->
    malloc w (target - (sizeof_hdr + len meta + len image)) = true ->
    exists (r : run) (file hdr : list byte),
      oseama_entity w (Some seama_path) (opts ++ [OptB target])
      = Ok (r, Some file)
      /\ len file = target
      /\ length hdr = 28%nat
      /\ file = hdr ++ meta ++ image
                  ++ repeat NUL
                       (Z.to_nat (target - (sizeof_hdr + len meta + len image))).
Proof.
  intros md5_impl w seama_path opts target Hcreate Hel Hfits meta image Hle
    Hgrant.
  assert (Hel' : reads_elsewhere seama_path (opts ++ [OptB target])).
  { unfold reads_elsewhere in *. apply Forall_app. split; [exact Hel|].
    constructor; [exact I | constructor]. }
  destruct (oseama_entity_built w seama_path (opts ++ [OptB target])
              Hcreate Hel' Hfits) as (errs & chunks & Hrun & _).
  set (e := built_entity w (opts ++ [OptB target]) _) in Hrun.
  pose proof (built_header_packed w (opts ++ [OptB target])
                (fold_left MD5_Update chunks MD5_Init)) as Hp.
  fold e in Hp.
  pose proof (header_packed_length _ Hp) as Hl.
  assert (Hmeta : ent_meta e = meta).
  { subst e meta. cbn [built_entity ent_meta].
    rewrite meta_block_app. cbn [meta_block]. apply app_nil_r. }
  assert (Himage : ent_image e
                   = image ++ repeat NUL
                       (Z.to_nat (target
                                  - (sizeof_hdr + len meta + len image)))).
  { subst e. cbn [built_entity ent_image].
    rewrite meta_block_app. cbn [meta_block]. rewrite app_nil_r.
    fold meta. rewrite image_block_app. fold image.
    cbn [image_block]. rewrite Hgrant, app_nil_r. reflexivity. }
  eexists. exists (entity_bytes e), (entity_header_bytes (entity_header_of e)).
  split; [exact Hrun|].
  pose proof (len_nonneg meta). pose proof (len_nonneg image).
  split; [|split; [exact Hl|]].
  - unfold entity_bytes. rewrite !len_app, Hmeta, Himage, len_app, len_repeat.
    unfold len at 1. rewrite Hl. unfold sizeof_hdr in *. lia.
  - unfold entity_bytes. rewrite Hmeta, Himage. reflexivity.
Qed.

Lemma X12_witness :
  let w := Sample.machine "in" [x01; x02; x03] in
  let opts := [OptM [x61; x62]; OptF "in"] in
  let meta := meta_block opts in
  let image := image_block w (sizeof_hdr + len meta) opts in
  exists (r : run) (file hdr : list byte),
    oseama_entity (md5_impl := Sample.prefix_digest) w (Some "fw"%string)
      (opts ++ [OptB 64])
    = Ok (r, Some file)
    /\ len file = 64
    /\ length hdr = 28%nat
    /\ file = hdr ++ meta ++ image
                ++ repeat NUL
                     (Z.to_nat (64 - (sizeof_hdr + len meta + len image))).
Proof.
  apply (X12_last_pad_gives_the_file_its_length Sample.prefix_digest
           (Sample.machine "in" [x01; x02; x03]) "fw"%string
           [OptM [x61; x62]; OptF "in"] 64).
  - reflexivity.
  - repeat constructor; discriminate.
  - split.
    + vm_compute. reflexivity.
    + repeat constructor; lia.
  - vm_compute. discriminate.
  - vm_compute. reflexivity.
Defined.

(* ================================================================== *)
(** * Appending a file *)

(** X13.  Appending a source file.  Whatever its length - the 128-byte
    pieces the loop moves do not show - a source file that can be opened
    arrives at the end of the destination whole and in order, and the
    result is its length. *)
Theorem X13_append_file_copies_the_whole_file :
  forall (w : world) (written : list byte) (in_path : string)
         (d : list byte),
    w_files w in_path = Some d ->
    len d < 2 ^ 63 ->
    oseama_entity_append_file w (dest written) in_path
    = Ok (len d, dest (written ++ d), []).
Proof.
  intros w written in_path d Hfile Hfit.
  unfold oseama_entity_append_file, fopen_r. rewrite Hfile.
  rewrite (oseama_entity_append_file_loop_spec _ (mkFILE d 0 true) written 0);
    unfold remaining; cbn [f_data f_pos skipn]; rewrite ?Nat.sub_0_r;
    unfold len in *; try lia.
  reflexivity.
Qed.

Lemma X13_witness :
  oseama_entity_append_file (Sample.machine "in" (repeat x07 300))
    (dest [x61; x00; x00; x00]) "in"
  = Ok (len (repeat x07 300), dest ([x61; x00; x00; x00] ++ repeat x07 300),
        []).
Proof.
  apply (X13_append_file_copies_the_whole_file
           (Sample.machine "in" (repeat x07 300)) [x61; x00; x00; x00]
           "in"%string (repeat x07 300)).
  - reflexivity.
  - vm_compute. reflexivity.
Defined.

(* ================================================================== *)
(** * The byte order conversions *)

Lemma Z_byte_byte_Z (b : byte) : Z_byte (byte_Z b) = b.
Proof.
  unfold Z_byte. pose proof (byte_Z_range b) as Hb.
  rewrite Z.mod_small by lia. unfold byte_Z.
  rewrite N2Z.id, Byte.of_to_N. reflexivity.
Qed.

Lemma Z_byte_mod (z : Z) : Z_byte (z mod 256) = Z_byte z.
Proof. unfold Z_byte. rewrite Z.mod_mod by lia. reflexivity. Qed.

Lemma be_decode_acc (bs : list byte) : forall acc,
  0 <= acc ->
  fold_left (fun acc b => Z.lor (Z.shiftl acc 8) (byte_Z b)) bs acc
  = acc * 2 ^ (8 * len bs) + be_decode bs
  /\ 0 <= be_decode bs < 2 ^ (8 * len bs).
Proof.
  unfold be_decode.
  induction bs as [|b bs IH]; intros acc Hacc; cbn [fold_left].
  - change (2 ^ (8 * len (@nil byte))) with 1. lia.
  - pose proof (byte_Z_range b) as Hb.
    rewrite !lor_shiftl_byte by lia.
    destruct (IH (acc * 256 + byte_Z b)) as [E1 R]; [lia|].
    destruct (IH (0 * 256 + byte_Z b)) as [E2 _]; [lia|].
    rewrite E1, E2.
    replace (8 * len (b :: bs)) with (8 + 8 * len bs)
      by (unfold len; cbn [length]; lia).
    pose proof (len_nonneg bs).
    rewrite Z.pow_add_r by lia. change (2 ^ 8) with 256.
    set (P := 2 ^ (8 * len bs)) in *.
    assert (0 < P) by (subst P; apply Z.pow_pos_nonneg; lia).
    split; [lia|]. nia.
Qed.

Lemma be_encode_decode_from (bs : list byte) : forall acc,
  0 <= acc ->
  be_encode (length bs)
    (fold_left (fun acc b => Z.lor (Z.shiftl acc 8) (byte_Z b)) bs acc)
  = bs.
Proof.
  induction bs as [|b bs IH]; intros acc Hacc; cbn [length be_encode fold_left];
    [reflexivity|].
  pose proof (byte_Z_range b) as Hb.
  rewrite lor_shiftl_byte by lia.
  rewrite IH by lia. f_equal.
  destruct (be_decode_acc bs (acc * 256 + byte_Z b)) as [E R]; [lia|].
  rewrite E. fold (len bs). pose proof (len_nonneg bs).
  rewrite Z.shiftr_div_pow2 by lia.
  set (P := 2 ^ (8 * len bs)) in *.
  assert (0 < P) by (subst P; apply Z.pow_pos_nonneg; lia).
  rewrite Z.div_add_l by lia. rewrite (Z.div_small (be_decode bs) P) by lia.
  rewrite Z.add_0_r, <- Z_byte_mod.
  rewrite Z.add_comm, Z.mod_add by lia.
  rewrite Z_byte_mod. apply Z_byte_byte_Z.
Qed.

(** X14.  The byte order conversions are inverse to each other.  A
    value written to a field and read back is the value reduced to the
    width of the field; a field of the right width read and written
    back is the same bytes, and what is read lies within the range of
    the field's type. *)
Theorem X14_byte_order_conversions_are_inverse :
  (forall x : Z, be32_to_cpu (cpu_to_be32 x) = x mod 2 ^ 32)
  /\ (forall x : Z, be16_to_cpu (cpu_to_be16 x) = x mod 2 ^ 16)
  /\ (forall field : list byte,
        length field = 4%nat ->
        cpu_to_be32 (be32_to_cpu field) = field
        /\ 0 <= be32_to_cpu field < 2 ^ 32)
  /\ (forall field : list byte,
        length field = 2%nat ->
        cpu_to_be16 (be16_to_cpu field) = field
        /\ 0 <= be16_to_cpu field < 2 ^ 16).
Proof.
  split; [|split; [|split]].
  - intros x. unfold be32_to_cpu, cpu_to_be32. apply be_decode_encode.
  - intros x. unfold be16_to_cpu, cpu_to_be16. apply be_decode_encode.
  - intros field Hl. unfold be32_to_cpu, cpu_to_be32.
    destruct (be_decode_acc field 0) as [_ R]; [lia|].
    unfold len in R. rewrite Hl in R. split; [|exact R].
    rewrite <- Hl at 1. unfold be_decode.
    apply be_encode_decode_from. lia.
  - intros field Hl. unfold be16_to_cpu, cpu_to_be16.
    destruct (be_decode_acc field 0) as [_ R]; [lia|].
    unfold len in R. rewrite Hl in R. split; [|exact R].
    rewrite <- Hl at 1. unfold be_decode.
    apply be_encode_decode_from. lia.
Qed.

Lemma X14_witness :
  cpu_to_be32 (be32_to_cpu [x5e; xa3; xa4; x17]) = [x5e; xa3; xa4; x17]
  /\ 0 <= be32_to_cpu [x5e; xa3; xa4; x17] < 2 ^ 32.
Proof.
  destruct X14_byte_order_conversions_are_inverse as (_ & _ & H32 & _).
  apply (H32 [x5e; xa3; xa4; x17]). reflexivity.
Defined.

(* ================================================================== *)
(** * What a failing run leaves behind *)

(** X15.  Info either ends with status 0 or has printed nothing.  For
    every machine and every argument: the status is 0, [-EINVAL],
    [-EACCES] or [-EIO]; and when it is not 0, standard output is empty
    and a diagnostic was given.  (Once the seal header is accepted the
    status stays 0, whatever the entities hold.) *)
Theorem X15_info_fails_before_it_prints :
  forall (w : world) (seama_path : option string) (entity_idx : Z) (r : run),
    oseama_info w seama_path entity_idx = Ok r ->
    (status r = 0 \/ status r = - EINVAL \/ status r = - EACCES
     \/ status r = - EIO)
    /\ (status r <> 0 -> stdout r = [] /\ stderr r <> []).
Proof.
  intros w seama_path entity_idx r Hrun.
  unfold oseama_info in Hrun.
  assert (Hfail : forall (st : Z) (errs : list diag),
            (st = - EINVAL \/ st = - EACCES \/ st = - EIO) -> errs <> [] ->
            Ok {| status := st; stdout := []; stderr := errs |} = Ok r ->
            (status r = 0 \/ status r = - EINVAL \/ status r = - EACCES
             \/ status r = - EIO)
            /\ (status r <> 0 -> stdout r = [] /\ stderr r <> [])).
  { intros st errs Hst Herrs E. injection E as <-. cbn [status stdout stderr].
    split; [tauto | intros _; split; [reflexivity | exact Herrs]]. }
  destruct seama_path as [p|]; [|refine (Hfail _ _ _ _ Hrun); [tauto | discriminate]].
  destruct (oseama_open w p) as [[seama|] e].
  2:{ refine (Hfail _ _ _ _ Hrun);
        [tauto | intros E; destruct e; discriminate E]. }
  destruct (fread sizeof_seal_hdr seama) as [raw seama1].
  destruct (negb (len raw =? sizeof_seal_hdr));
    [refine (Hfail _ _ _ _ Hrun); [tauto | discriminate]|].
  destruct (negb (be32_to_cpu (seal_magic (seal_header_of_bytes raw))
                  =? SEAMA_MAGIC));
    [refine (Hfail _ _ _ _ Hrun); [tauto | discriminate]|].
  destruct (BUFSZ <=? be16_to_cpu (seal_metasize (seal_header_of_bytes raw)));
    [refine (Hfail _ _ _ _ Hrun); [tauto | discriminate]|].
  destruct (negb (be32_to_cpu (seal_imagesize (seal_header_of_bytes raw)) =? 0));
    [refine (Hfail _ _ _ _ Hrun); [tauto | discriminate]|].
  destruct (fread (be16_to_cpu (seal_metasize (seal_header_of_bytes raw)))
              seama1) as [got seama2].
  destruct (negb (len got
                  =? be16_to_cpu (seal_metasize (seal_header_of_bytes raw))));
    [refine (Hfail _ _ _ _ Hrun); [tauto | discriminate]|].
  match type of Hrun with
  | bind ?c _ = _ => destruct c as [out| |]; cbn [bind] in Hrun;
                       try discriminate Hrun
  end.
  match type of Hrun with
  | bind ?c _ = _ => destruct c as [res| |]; cbn [bind] in Hrun;
                       try discriminate Hrun
  end.
  injection Hrun as <-. cbn [status].
  split; [left; reflexivity | intros H; contradiction H; reflexivity].
Qed.

Lemma X15_witness :
  let r := {| status := - EIO; stdout := [];
              stderr := [ErrReadHeader "fw"] |} in
  (status r = 0 \/ status r = - EINVAL \/ status r = - EACCES
   \/ status r = - EIO)
  /\ (status r <> 0 -> stdout r = [] /\ stderr r <> []).
Proof.
  apply (X15_info_fails_before_it_prints
           (Sample.machine "fw" [x5e; xa3; xa4]) (Some "fw"%string) (-1)
           {| status := - EIO; stdout := []; stderr := [ErrReadHeader "fw"] |}).
  reflexivity.
Defined.

(** X16.  Extract either ends with status 0 or has written nothing.
    For every machine and every argument: the status is 0, [-EINVAL],
    [-EACCES] or [-EIO]; and when it is not 0, no byte has reached the
    destination and a diagnostic was given.  (Once the seal header is
    read the status stays 0, whatever the entities hold.) *)
Theorem X16_extract_fails_before_it_writes :
  forall (w : world) (seama_path : option string) (entity_idx : Z)
         (out_path : option string) (r : run) (bytes : list byte),
    oseama_extract w seama_path entity_idx out_path = Ok (r, bytes) ->
    (status r = 0 \/ status r = - EINVAL \/ status r = - EACCES
     \/ status r = - EIO)
    /\ (status r <> 0 -> bytes = [] /\ stderr r <> []).
Proof.
  intros w seama_path entity_idx out_path r bytes Hrun.
  unfold oseama_extract in Hrun.
  assert (Hfail : forall (st : Z) (errs : list diag),
            (st = - EINVAL \/ st = - EACCES \/ st = - EIO) -> errs <> [] ->
            Ok ({| status := st; stdout := []; stderr := errs |}, @nil byte)
            = Ok (r, bytes) ->
            (status r = 0 \/ status r = - EINVAL \/ status r = - EACCES
             \/ status r = - EIO)
            /\ (status r <> 0 -> bytes = [] /\ stderr r <> [])).
  { intros st errs Hst Herrs E. injection E as <- <-. cbn [status stderr].
    split; [tauto | intros _; split; [reflexivity | exact Herrs]]. }
  destruct seama_path as [p|];
    [|refine (Hfail _ _ _ _ Hrun); [tauto | discriminate]].
  destruct (entity_idx <? 0);
    [refine (Hfail _ _ _ _ Hrun); [tauto | discriminate]|].
  destruct (oseama_open w p) as [[seama|] e].
  2:{ refine (Hfail _ _ _ _ Hrun);
        [tauto | intros E; destruct e; discriminate E]. }
  assert (Hopened :
    (exists b seama',
       match out_path with
       | Some q => match fopen_w w q with
                   | Some (out, _) => inl (out, after_fopen_w q p seama)
                   | None => inr q
                   end
       | None => inl (mkFILE [] 0 false, seama)
       end = inl (mkFILE [] 0 b, seama'))
    \/ (exists q,
          match out_path with
          | Some q => match fopen_w w q with
                      | Some (out, _) => inl (out, after_fopen_w q p seama)
                      | None => inr q
                      end
          | None => @inl (FILE * FILE) string (mkFILE [] 0 false, seama)
          end = inr q)).
  { destruct out_path as [q|]; [|left; do 2 eexists; reflexivity].
    unfold fopen_w. destruct (w_creatable w q);
      [left; do 2 eexists | right; eexists]; reflexivity. }
  destruct Hopened as [(b & seama' & Hb)|[q Hq]].
  2:{ rewrite Hq in Hrun.
      refine (Hfail _ _ _ _ Hrun); [tauto | discriminate]. }
  rewrite Hb in Hrun.
  destruct (fread sizeof_seal_hdr seama') as [raw seama1].
  destruct (negb (len raw =? sizeof_seal_hdr)).
  { cbn [f_data] in Hrun.
    refine (Hfail _ _ _ _ Hrun); [tauto | discriminate]. }
  match type of Hrun with
  | bind ?c _ = _ => destruct c as [[rc seama2]| |]; cbn [bind] in Hrun;
                       try discriminate Hrun
  end.
  match type of Hrun with
  | bind ?c _ = _ => destruct c as [[[rc2 out] errs]| |]; cbn [bind] in Hrun;
                       try discriminate Hrun
  end.
  injection Hrun as <- <-. cbn [status].
  split; [left; reflexivity | intros H; contradiction H; reflexivity].
Qed.

Lemma X16_witness :
  let r := {| status := - EACCES; stdout := [];
              stderr := [ErrOpen "missing"] |} in
  (status r = 0 \/ status r = - EINVAL \/ status r = - EACCES
   \/ status r = - EIO)
  /\ (status r <> 0 -> @nil byte = [] /\ stderr r <> []).
Proof.
  apply (X16_extract_fails_before_it_writes
           (Sample.machine "fw" [x5e; xa3; xa4]) (Some "missing"%string) 0
           None
           {| status := - EACCES; stdout := []; stderr := [ErrOpen "missing"] |}
           []).
  reflexivity.
Defined.

(* ================================================================== *)
(** * Info over a damaged container *)

(** The entity loop of Info over the entities [pre] that lie ahead: one
    turn each, after which the loop goes on behind them. *)
Lemma oseama_info_entities_loop_walk pre :
  forall (fuel : nat) (entity_idx : Z) (seama : FILE) (pos i : Z)
         (buf : buffer) (out : list out_line) (tail : list byte),
    Forall entity_ok pre ->
    info_ready entity_idx i pre ->
    skipn (f_pos seama) (f_data seama)
    = concat (map entity_bytes pre) ++ tail ->
    0 <= i -> i + Z.of_nat (length pre) <= INT_MAX ->
    0 <= pos -> pos + len (concat (map entity_bytes pre)) < 2 ^ 63 ->
    exists buf',
      oseama_info_entities_loop (length pre + fuel) entity_idx seama pos i
        buf out
      = oseama_info_entities_loop fuel entity_idx
          (mkFILE (f_data seama)
             (f_pos seama + length (concat (map entity_bytes pre)))
             (f_seekable seama))
          (pos + len (concat (map entity_bytes pre)))
          (i + Z.of_nat (length pre)) buf'
          (out ++ info_lines entity_idx i pos pre).
Proof.
  induction pre as [|e es IH];
    intros fuel entity_idx seama pos i buf out tail Hok Hready Hdata
      Hi Hmax Hpos Hfit.
  - exists buf. cbn [map concat length info_lines Nat.add Z.of_nat].
    change (len (@nil byte)) with 0.
    rewrite !Z.add_0_r, Nat.add_0_r, app_nil_r. destruct seama; reflexivity.
  - inversion Hok as [|? ? He Hes]; subst.
    pose proof He as (Hr & Hm & Hms & His).
    pose proof (entity_header_of_packed _ He) as Hp.
    destruct Hready as [Hdec Hready].
    cbn [map concat length info_lines] in *.
    cbn [Nat.add oseama_info_entities_loop].
    rewrite len_app, (entity_bytes_len e He) in Hfit.
    rewrite len_app, (entity_bytes_len e He).
    rewrite length_app, (entity_bytes_length e He).
    pose proof (len_nonneg (ent_meta e)) as Hm0.
    pose proof (len_nonneg (ent_image e)) as Hi0.
    pose proof (len_nonneg (concat (map entity_bytes es))) as Hc0.
    unfold sizeof_hdr in Hfit.
    unfold entity_bytes at 1 in Hdata. rewrite <- !app_assoc in Hdata.
    rewrite (fread_header seama _ _ Hp Hdata). cbv beta iota zeta.
    assert (Hhl : len (entity_header_bytes (entity_header_of e)) = 28)
      by (unfold len; rewrite (header_packed_length _ Hp); reflexivity).
    rewrite !Hhl.
    change (28 =? sizeof_hdr) with true. cbn [negb].
    rewrite (entity_header_of_bytes_bytes _ Hp).
    cbn [entity_header_of magic metasize imagesize].
    rewrite be16_roundtrip, (be32_roundtrip (len (ent_image e))) by lia.
    change (be32_to_cpu (cpu_to_be32 SEAMA_MAGIC) =? SEAMA_MAGIC) with true.
    cbn [negb].
    rewrite (size_t_small (pos + 28)) by lia.
    set (fp1 := mkFILE (f_data seama) (f_pos seama + 28) (f_seekable seama)).
    assert (Hrest : skipn (f_pos fp1) (f_data fp1)
                    = ent_meta e ++ ent_image e
                        ++ concat (map entity_bytes es) ++ tail).
    { subst fp1. cbn [f_pos f_data]. rewrite skipn_add, Hdata.
      apply skipn_exact. symmetry. apply (header_packed_length _ Hp). }
    fold (passed_over entity_idx i).
    unfold int_incr. destruct (Z.ltb_spec i INT_MAX) as [_|]; [|lia].
    assert (Hpos' : pos + (sizeof_hdr + len (ent_meta e) + len (ent_image e))
                    = pos + 28 + len (ent_meta e) + len (ent_image e))
      by (unfold sizeof_hdr; lia).
    assert (Hidx' : i + Z.of_nat (S (length es))
                    = i + 1 + Z.of_nat (length es)) by lia.
    assert (Hfp' : forall p : nat,
               (p + (28 + length (ent_meta e) + length (ent_image e)
                     + length (concat (map entity_bytes es))))%nat
               = (p + 28 + length (ent_meta e) + length (ent_image e)
                  + length (concat (map entity_bytes es)))%nat)
      by (intros; lia).
    rewrite Hfp', Hidx', Z.add_assoc, Hpos'.
    destruct (passed_over entity_idx i) eqn:Hpass.
    + rewrite (size_t_small (len (ent_meta e) + len (ent_image e))) by lia.
      destruct (oseama_skip_within fp1 (len (ent_meta e) + len (ent_image e)))
        as [rc Hrc].
      * rewrite remaining_skipn, Hrest, !length_app. unfold len. lia.
      * lia.
      * rewrite Hrc. cbn [bind].
        rewrite size_t_small by lia.
        destruct (IH fuel entity_idx
                    (mkFILE (f_data fp1)
                       (f_pos fp1
                        + Z.to_nat (len (ent_meta e) + len (ent_image e)))
                       (f_seekable fp1))
                    (pos + 28 + (len (ent_meta e) + len (ent_image e)))
                    (i + 1) buf out tail) as [buf' Hwalk];
          try assumption; try lia.
        { cbn [f_pos f_data]. rewrite skipn_add, Hrest.
          rewrite (app_assoc (ent_meta e)).
          apply skipn_exact. unfold len. rewrite length_app. lia. }
        exists buf'. rewrite Hwalk. cbn [app f_data f_pos f_seekable].
        subst fp1. cbn [f_data f_pos f_seekable].
        replace (f_pos seama + 28
                 + Z.to_nat (len (ent_meta e) + len (ent_image e))
                 + length (concat (map entity_bytes es)))%nat
          with (f_pos seama + 28 + length (ent_meta e) + length (ent_image e)
                + length (concat (map entity_bytes es)))%nat
          by (unfold len; lia).
        replace (pos + 28 + (len (ent_meta e) + len (ent_image e)))
          with (pos + 28 + len (ent_meta e) + len (ent_image e)) by lia.
        reflexivity.
    + specialize (Hdec eq_refl).
      destruct (Z.leb_spec BUFSZ (len (ent_meta e))) as [|_]; [lia|].
      rewrite (fread_prefix fp1 (ent_meta e) _ Hrest).
      cbv beta iota zeta. rewrite Z.eqb_refl. cbn [negb].
      rewrite (meta_entries_split _ _ Hdec). cbn [bind].
      set (fp2 := mkFILE (f_data fp1) (f_pos fp1 + length (ent_meta e))
                    (f_seekable fp1)).
      assert (Hrest2 : skipn (f_pos fp2) (f_data fp2)
                       = ent_image e ++ concat (map entity_bytes es) ++ tail).
      { subst fp2. cbn [f_pos f_data]. rewrite skipn_add, Hrest.
        apply skipn_exact. reflexivity. }
      destruct (oseama_skip_within fp2 (len (ent_image e))) as [rc Hrc].
      * rewrite remaining_skipn, Hrest2, !length_app. unfold len. lia.
      * lia.
      * rewrite Hrc. cbn [bind].
        rewrite (size_t_small (pos + 28 + len (ent_meta e))) by lia.
        rewrite (size_t_small (pos + 28 + len (ent_meta e) + len (ent_image e)))
          by lia.
        match goal with
        | |- exists _, oseama_info_entities_loop _ _ ?fp ?p _ ?b ?o = _ =>
          destruct (IH fuel entity_idx fp p (i + 1) b o tail)
            as [buf' Hwalk]; try assumption; try lia
        end.
        { cbn [f_pos f_data]. rewrite skipn_add, Hrest2.
          apply skipn_exact. unfold len. lia. }
        exists buf'. rewrite Hwalk. cbn [f_data f_pos f_seekable].
        subst fp2 fp1. cbn [f_data f_pos f_seekable].
        replace (f_pos seama + 28 + length (ent_meta e)
                 + Z.to_nat (len (ent_image e))
                 + length (concat (map entity_bytes es)))%nat
          with (f_pos seama + 28 + length (ent_meta e) + length (ent_image e)
                + length (concat (map entity_bytes es)))%nat
          by (unfold len; lia).
        unfold entity_lines, sizeof_hdr.
        replace (pos + 28 - 28) with pos by lia.
        rewrite (size_t_small pos), (ssize_t_small pos) by lia.
        rewrite (size_t_small (28 + len (ent_meta e) + len (ent_image e)))
          by lia.
        rewrite <- !app_assoc. reflexivity.
Qed.

(** X17.  Info meeting a bad magic.  Without [-e], over a container
    whose well-formed entities [pre] are followed by 28 bytes that do
    not start with the sentinel: the seal and the entities [pre] are
    listed as usual, the invalid magic is reported, what follows the bad
    header is not looked at, and the status is still 0. *)
Theorem X17_info_lists_up_to_a_bad_magic :
  forall (w : world) (seama_path : string) (seekable : bool) (d : list diag)
         (seal_reserved seal_meta : list byte) (pre : list seama_entity)
         (raw rest : list byte) (entity_idx : Z),
    oseama_open w seama_path
    = (Some (mkFILE
               (sealed seal_reserved seal_meta
                  (concat (map entity_bytes pre) ++ raw ++ rest))
               0 seekable), d) ->
    entity_idx < 0 ->
    length seal_reserved = 2%nat ->
    1 <= len seal_meta < BUFSZ ->
    Forall entity_ok pre ->
    Forall (fun e => 1 <= len (ent_meta e) < BUFSZ) pre ->
    Z.of_nat (length pre) <= INT_MAX ->
    12 + len seal_meta + len (concat (map entity_bytes pre)) + 28 < 2 ^ 63 ->
    length raw = 28%nat ->
    be32_to_cpu (magic (entity_header_of_bytes raw)) <> SEAMA_MAGIC ->
    oseama_info w (Some seama_path) entity_idx
    = Ok {| status := 0;
            stdout :=
              [OutMetaSize (len seal_meta); OutImageSize 0]
                ++ map OutMetaEntry (split_nul [] (removelast seal_meta))
                ++ all_entity_lines (sizeof_seal_hdr + len seal_meta) pre;
            stderr :=
              [ErrMagic (be32_to_cpu (magic (entity_header_of_bytes raw)))] |}.
Proof.
  intros w seama_path seekable d seal_reserved seal_meta pre raw rest
    entity_idx Hopen Hneg Hres Hmeta Hok Hdec Hmax Hfit Hraw Hmagic.
  set (body := concat (map entity_bytes pre) ++ raw ++ rest) in *.
  destruct (oseama_info_sealed w seama_path seekable d seal_reserved
              seal_meta body entity_idx) as [Hbody Hrun];
    try assumption; try lia.
  cbv zeta in Hbody, Hrun. rewrite Hrun. clear Hrun.
  pose proof (len_nonneg seal_meta).
  pose proof (len_nonneg (concat (map entity_bytes pre))).
  pose proof (entities_length pre Hok) as Hel.
  assert (Hbl : (length pre + 28 <= length body)%nat).
  { subst body. rewrite !length_app. lia. }
  replace (S (length body))
    with (length pre + S (length body - length pre))%nat by lia.
  destruct (oseama_info_entities_loop_walk pre
              (S (length body - length pre)) entity_idx
              (mkFILE (sealed seal_reserved seal_meta body)
                 (12 + length seal_meta) seekable)
              (12 + len seal_meta) 0 buf_uninit [] (raw ++ rest))
    as [buf' Hwalk]; try assumption; try lia.
  { apply info_ready_all. exact Hdec. }
  rewrite Hwalk. clear Hwalk.
  cbn [f_data f_pos f_seekable app].
  set (fp := mkFILE _ _ seekable).
  assert (Hhere : skipn (f_pos fp) (f_data fp) = raw ++ rest).
  { subst fp. cbn [f_data f_pos] in Hbody |- *. rewrite skipn_add, Hbody.
    subst body. apply skipn_exact. reflexivity. }
  cbn [oseama_info_entities_loop].
  unfold fread. rewrite Hhere.
  change (Z.to_nat sizeof_hdr) with 28%nat.
  rewrite firstn_app, firstn_all2 by lia.
  replace (28 - length raw)%nat with 0%nat by lia.
  cbn [firstn]. rewrite app_nil_r. cbv beta iota zeta.
  unfold len at 1. rewrite Hraw.
  change (Z.of_nat 28 =? sizeof_hdr) with true. cbn [negb].
  apply Z.eqb_neq in Hmagic. rewrite Hmagic. cbn [negb bind ie_stdout ie_stderr].
  rewrite (info_lines_all pre entity_idx _ _ Hneg).
  destruct (Z.ltb_spec entity_idx 0) as [_|]; [|lia].
  unfold sizeof_seal_hdr. reflexivity.
Qed.

Lemma X17_witness :
  let e0 := {| ent_reserved := [NUL; NUL]; ent_md5 := repeat xff 16;
               ent_meta := [x61; x3d; x31; x00];
               ent_image := [x01; x02; x03] |} in
  oseama_info
    (Sample.machine "fw"
       (sealed [NUL; NUL] [x73; x00]
          (concat (map entity_bytes [e0]) ++ repeat x01 28 ++ entity_bytes e0)))
    (Some "-"%string) (-1)
  = Ok {| status := 0;
          stdout :=
            [OutMetaSize (len [x73; x00]); OutImageSize 0]
              ++ map OutMetaEntry (split_nul [] (removelast [x73; x00]))
              ++ all_entity_lines (sizeof_seal_hdr + len [x73; x00]) [e0];
          stderr :=
            [ErrMagic (be32_to_cpu
                         (magic (entity_header_of_bytes (repeat x01 28))))] |}.
Proof.
  intros e0.
  apply (X17_info_lists_up_to_a_bad_magic
           (Sample.machine "fw"
              (sealed [NUL; NUL] [x73; x00]
                 (concat (map entity_bytes [e0]) ++ repeat x01 28
                    ++ entity_bytes e0)))
           "-"%string false [] [NUL; NUL] [x73; x00] [e0] (repeat x01 28)
           (entity_bytes e0) (-1)).
  - reflexivity.
  - lia.
  - reflexivity.
  - unfold BUFSZ, len. simpl. lia.
  - repeat constructor; vm_compute; reflexivity.
  - repeat constructor; unfold BUFSZ, len; simpl; lia.
  - vm_compute. discriminate.
  - vm_compute. reflexivity.
  - reflexivity.
  - vm_compute. discriminate.
Defined.

(** X18.  Info meeting a metadata block it cannot hold.  Without [-e],
    over a container whose well-formed entities [pre] are followed by a
    well-formed entity with 1024 bytes of metadata or more: the seal and
    the entities [pre] are listed as usual, nothing is printed for the
    large entity, the buffer size and the metadata size are reported,
    what follows is not looked at, and the status is still 0. *)
Theorem X18_info_stops_at_large_metadata :
  forall (w : world) (seama_path : string) (seekable : bool) (d : list diag)
         (seal_reserved seal_meta : list byte) (pre : list seama_entity)
         (e : seama_entity) (rest : list byte) (entity_idx : Z),
    oseama_open w seama_path
    = (Some (mkFILE
               (sealed seal_reserved seal_meta
                  (concat (map entity_bytes pre) ++ entity_bytes e ++ rest))
               0 seekable), d) ->
    entity_idx < 0 ->
    length seal_reserved = 2%nat ->
    1 <= len seal_meta < BUFSZ ->
    Forall entity_ok pre ->
    Forall (fun e => 1 <= len (ent_meta e) < BUFSZ) pre ->
    Z.of_nat (length pre) <= INT_MAX ->
    12 + len seal_meta + len (concat (map entity_bytes pre)) + 28 < 2 ^ 63 ->
    entity_ok e ->
    BUFSZ <= len (ent_meta e) ->
    oseama_info w (Some seama_path) entity_idx
    = Ok {| status := 0;
            stdout :=
              [OutMetaSize (len seal_meta); OutImageSize 0]
                ++ map OutMetaEntry (split_nul [] (removelast seal_meta))
                ++ all_entity_lines (sizeof_seal_hdr + len seal_meta) pre;
            stderr := [ErrBufTooSmall BUFSZ (len (ent_meta e))] |}.
Proof.
  intros w seama_path seekable d seal_reserved seal_meta pre e rest
    entity_idx Hopen Hneg Hres Hmeta Hok Hdec Hmax Hfit He Hbig.
  set (body := concat (map entity_bytes pre) ++ entity_bytes e ++ rest) in *.
  destruct (oseama_info_sealed w seama_path seekable d seal_reserved
              seal_meta body entity_idx) as [Hbody Hrun];
    try assumption; try lia.
  cbv zeta in Hbody, Hrun. rewrite Hrun. clear Hrun.
  pose proof He as (Hr & Hm & Hms & His).
  pose proof (entity_header_of_packed _ He) as Hp.
  pose proof (len_nonneg seal_meta).
  pose proof (len_nonneg (concat (map entity_bytes pre))).
  pose proof (len_nonneg (ent_image e)).
  pose proof (entities_length pre Hok) as Hel.
  assert (Hbl : (length pre + 28 <= length body)%nat).
  { subst body. rewrite !length_app, (entity_bytes_length e He). lia. }
  replace (S (length body))
    with (length pre + S (length body - length pre))%nat by lia.
  destruct (oseama_info_entities_loop_walk pre
              (S (length body - length pre)) entity_idx
              (mkFILE (sealed seal_reserved seal_meta body)
                 (12 + length seal_meta) seekable)
              (12 + len seal_meta) 0 buf_uninit []
              (entity_bytes e ++ rest))
    as [buf' Hwalk]; try assumption; try lia.
  { apply info_ready_all. exact Hdec. }
  rewrite Hwalk. clear Hwalk.
  cbn [f_data f_pos f_seekable app].
  set (fp := mkFILE _ _ seekable).
  assert (Hhere : skipn (f_pos fp) (f_data fp)
                  = entity_header_bytes (entity_header_of e)
                      ++ (ent_meta e ++ ent_image e) ++ rest).
  { subst fp. cbn [f_data f_pos] in Hbody |- *. rewrite skipn_add, Hbody.
    subst body. rewrite skipn_exact by reflexivity.
    unfold entity_bytes. rewrite <- !app_assoc. reflexivity. }
  cbn [oseama_info_entities_loop].
  rewrite (fread_header fp _ _ Hp Hhere). cbv beta iota zeta.
  assert (Hhl : len (entity_header_bytes (entity_header_of e)) = 28)
    by (unfold len; rewrite (header_packed_length _ Hp); reflexivity).
  rewrite !Hhl.
  change (28 =? sizeof_hdr) with true. cbn [negb].
  rewrite (entity_header_of_bytes_bytes _ Hp).
  cbn [entity_header_of magic metasize imagesize].
  unfold BUFSZ in Hbig.
  rewrite be16_roundtrip by lia.
  change (be32_to_cpu (cpu_to_be32 SEAMA_MAGIC) =? SEAMA_MAGIC) with true.
  cbn [negb].
  destruct (Z.leb_spec 0 entity_idx) as [|_]; [lia|]. cbn [andb].
  destruct (Z.leb_spec BUFSZ (len (ent_meta e))) as [_|];
    [|unfold BUFSZ in *; lia].
  cbn [bind ie_stdout ie_stderr].
  rewrite (info_lines_all pre entity_idx _ _ Hneg).
  destruct (Z.ltb_spec entity_idx 0) as [_|]; [|lia].
  unfold sizeof_seal_hdr. reflexivity.
Qed.

Lemma X18_witness :
  let e0 := {| ent_reserved := [NUL; NUL]; ent_md5 := repeat xff 16;
               ent_meta := [x61; x3d; x31; x00];
               ent_image := [x01; x02; x03] |} in
  let e1 := {| ent_reserved := [NUL; NUL]; ent_md5 := repeat xff 16;
               ent_meta := repeat x61 1023 ++ [NUL];
               ent_image := [x01; x02; x03] |} in
  oseama_info
    (Sample.machine "fw"
       (sealed [NUL; NUL] [x73; x00]
          (concat (map entity_bytes [e0]) ++ entity_bytes e1 ++ [])))
    (Some "-"%string) (-1)
  = Ok {| status := 0;
          stdout :=
            [OutMetaSize (len [x73; x00]); OutImageSize 0]
              ++ map OutMetaEntry (split_nul [] (removelast [x73; x00]))
              ++ all_entity_lines (sizeof_seal_hdr + len [x73; x00]) [e0];
          stderr := [ErrBufTooSmall BUFSZ (len (ent_meta e1))] |}.
Proof.
  intros e0 e1.
  apply (X18_info_stops_at_large_metadata
           (Sample.machine "fw"
              (sealed [NUL; NUL] [x73; x00]
                 (concat (map entity_bytes [e0]) ++ entity_bytes e1 ++ [])))
           "-"%string false [] [NUL; NUL] [x73; x00] [e0] e1 [] (-1)).
  - reflexivity.
  - lia.
  - reflexivity.
  - unfold BUFSZ, len. simpl. lia.
  - repeat constructor; vm_compute; reflexivity.
  - repeat constructor; unfold BUFSZ, len; simpl; lia.
  - vm_compute. discriminate.
  - vm_compute. reflexivity.
  - repeat constructor; vm_compute; reflexivity.
  - vm_compute. discriminate.
Defined.

(** X19.  Info meeting metadata that ends early.  Without [-e], over
    a container whose well-formed entities [pre] are followed by the
    header of an entity and only a part of its metadata: the seal and
    the entities [pre] are listed as usual, the offset and the three
    sizes of the cut entity are printed from its header, no metadata
    string of it is printed, the missing read is reported, and the
    status is still 0. *)
Theorem X19_info_reports_metadata_cut_short :
  forall (w : world) (seama_path : string) (seekable : bool) (d : list diag)
         (seal_reserved seal_meta : list byte) (pre : list seama_entity)
         (e : seama_entity) (kept : nat) (entity_idx : Z),
    oseama_open w seama_path
    = (Some (mkFILE
               (sealed seal_reserved seal_meta
                  (concat (map entity_bytes pre)
                     ++ entity_header_bytes (entity_header_of e)
                     ++ firstn kept (ent_meta e)))
               0 seekable), d) ->
    entity_idx < 0 ->
    length seal_reserved = 2%nat ->
    1 <= len seal_meta < BUFSZ ->
    Forall entity_ok pre ->
    Forall (fun e => 1 <= len (ent_meta e) < BUFSZ) pre ->
    Z.of_nat (length pre) <= INT_MAX ->
    12 + len seal_meta + len (concat (map entity_bytes pre)) + 28 < 2 ^ 62 ->
    entity_ok e ->
    len (ent_meta e) < BUFSZ ->
    (kept < length (ent_meta e))%nat ->
    oseama_info w (Some seama_path) entity_idx
    = Ok {| status := 0;
            stdout :=
              [OutMetaSize (len seal_meta); OutImageSize 0]
                ++ map OutMetaEntry (split_nul [] (removelast seal_meta))
                ++ all_entity_lines (sizeof_seal_hdr + len seal_meta) pre
                ++ [OutBlank;
                    OutEntityOffset
                      (sizeof_seal_hdr + len seal_meta
                       + len (concat (map entity_bytes pre)));
                    OutEntitySize
                      (sizeof_hdr + len (ent_meta e) + len (ent_image e));
                    OutMetaSize (len (ent_meta e));
                    OutImageSize (len (ent_image e))];
            stderr := [ErrReadMeta (len (ent_meta e))] |}.
Proof.
  intros w seama_path seekable d seal_reserved seal_meta pre e kept
    entity_idx Hopen Hneg Hres Hmeta Hok Hdec Hmax Hfit He Hsmall Hkept.
  set (part := firstn kept (ent_meta e)) in *.
  assert (Hpl : length part = kept)
    by (subst part; rewrite length_firstn; lia).
  set (body := concat (map entity_bytes pre)
                 ++ entity_header_bytes (entity_header_of e) ++ part) in *.
  destruct (oseama_info_sealed w seama_path seekable d seal_reserved
              seal_meta body entity_idx) as [Hbody Hrun];
    try assumption; try lia.
  cbv zeta in Hbody, Hrun. rewrite Hrun. clear Hrun.
  pose proof He as (Hr & Hm & Hms & His).
  pose proof (entity_header_of_packed _ He) as Hp.
  pose proof (header_packed_length _ Hp) as Hl.
  pose proof (len_nonneg seal_meta).
  pose proof (len_nonneg (concat (map entity_bytes pre))).
  pose proof (len_nonneg (ent_meta e)). pose proof (len_nonneg (ent_image e)).
  pose proof (entities_length pre Hok) as Hel.
  assert (Hbl : (length pre + 28 <= length body)%nat).
  { subst body. rewrite !length_app, Hl. lia. }
  replace (S (length body))
    with (length pre + S (length body - length pre))%nat by lia.
  destruct (oseama_info_entities_loop_walk pre
              (S (length body - length pre)) entity_idx
              (mkFILE (sealed seal_reserved seal_meta body)
                 (12 + length seal_meta) seekable)
              (12 + len seal_meta) 0 buf_uninit []
              (entity_header_bytes (entity_header_of e) ++ part))
    as [buf' Hwalk]; try assumption; try lia.
  { apply info_ready_all. exact Hdec. }
  rewrite Hwalk. clear Hwalk.
  cbn [f_data f_pos f_seekable app].
  set (fp := mkFILE _ _ seekable).
  assert (Hhere : skipn (f_pos fp) (f_data fp)
                  = entity_header_bytes (entity_header_of e) ++ part).
  { subst fp. cbn [f_data f_pos] in Hbody |- *. rewrite skipn_add, Hbody.
    subst body. apply skipn_exact. reflexivity. }
  cbn [oseama_info_entities_loop].
  rewrite (fread_header fp _ _ Hp Hhere). cbv beta iota zeta.
  assert (Hhl : len (entity_header_bytes (entity_header_of e)) = 28)
    by (unfold len; rewrite Hl; reflexivity).
  rewrite !Hhl.
  change (28 =? sizeof_hdr) with true. cbn [negb].
  rewrite (entity_header_of_bytes_bytes _ Hp).
  cbn [entity_header_of magic metasize imagesize].
  rewrite be16_roundtrip, (be32_roundtrip (len (ent_image e))) by lia.
  change (be32_to_cpu (cpu_to_be32 SEAMA_MAGIC) =? SEAMA_MAGIC) with true.
  cbn [negb].
  destruct (Z.leb_spec 0 entity_idx) as [|_]; [lia|]. cbn [andb].
  destruct (Z.leb_spec BUFSZ (len (ent_meta e))) as [|_]; [lia|].
  set (fp1 := mkFILE (f_data fp) (f_pos fp + 28) (f_seekable fp)).
  assert (Hrest : skipn (f_pos fp1) (f_data fp1) = part).
  { subst fp1. cbn [f_pos f_data]. rewrite skipn_add, Hhere.
    apply skipn_exact. symmetry. exact Hl. }
  assert (Hrd : fread (len (ent_meta e)) fp1
                = (part, mkFILE (f_data fp1) (f_pos fp1 + length part)
                           (f_seekable fp1))).
  { unfold fread. rewrite Hrest, firstn_all2 by (unfold len; lia).
    reflexivity. }
  rewrite Hrd. cbv beta iota zeta.
  destruct (Z.eqb_spec (len part) (len (ent_meta e))) as [E|_];
    [unfold len in E; lia|].
  cbn [negb bind ie_stdout ie_stderr].
  rewrite (info_lines_all pre entity_idx _ _ Hneg).
  destruct (Z.ltb_spec entity_idx 0) as [_|]; [|lia].
  unfold sizeof_seal_hdr, sizeof_hdr.
  set (off := 12 + len seal_meta + len (concat (map entity_bytes pre))).
  rewrite (size_t_small (off + 28)) by (subst off; lia).
  replace (off + 28 - 28) with off by lia.
  rewrite (size_t_small off), (ssize_t_small off) by (subst off; lia).
  rewrite (size_t_small (28 + len (ent_meta e) + len (ent_image e)))
    by (unfold BUFSZ in *; lia).
  reflexivity.
Qed.

Lemma X19_witness :
  let e0 := {| ent_reserved := [NUL; NUL]; ent_md5 := repeat xff 16;
               ent_meta := [x61; x3d; x31; x00];
               ent_image := [x01; x02; x03] |} in
  oseama_info
    (Sample.machine "fw"
       (sealed [NUL; NUL] [x73; x00]
          (concat (map entity_bytes [e0])
             ++ entity_header_bytes (entity_header_of e0)
             ++ firstn 2 (ent_meta e0))))
    (Some "fw"%string) (-1)
  = Ok {| status := 0;
          stdout :=
            [OutMetaSize (len [x73; x00]); OutImageSize 0]
              ++ map OutMetaEntry (split_nul [] (removelast [x73; x00]))
              ++ all_entity_lines (sizeof_seal_hdr + len [x73; x00]) [e0]
              ++ [OutBlank;
                  OutEntityOffset
                    (sizeof_seal_hdr + len [x73; x00]
                     + len (concat (map entity_bytes [e0])));
                  OutEntitySize
                    (sizeof_hdr + len (ent_meta e0) + len (ent_image e0));
                  OutMetaSize (len (ent_meta e0));
                  OutImageSize (len (ent_image e0))];
          stderr := [ErrReadMeta (len (ent_meta e0))] |}.
Proof.
  intros e0.
  apply (X19_info_reports_metadata_cut_short
           (Sample.machine "fw"
              (sealed [NUL; NUL] [x73; x00]
                 (concat (map entity_bytes [e0])
                    ++ entity_header_bytes (entity_header_of e0)
                    ++ firstn 2 (ent_meta e0))))
           "fw"%string true [] [NUL; NUL] [x73; x00] [e0] e0 2%nat (-1)).
  - reflexivity.
  - lia.
  - reflexivity.
  - unfold BUFSZ, len. simpl. lia.
  - repeat constructor; vm_compute; reflexivity.
  - repeat constructor; unfold BUFSZ, len; simpl; lia.
  - vm_compute. discriminate.
  - vm_compute. reflexivity.
  - repeat constructor; vm_compute; reflexivity.
  - vm_compute. reflexivity.
  - simpl. lia.
Defined.

(* ================================================================== *)
(** * Extract onto the container itself *)

(** X20.  Extract with [-o] naming the container.  For every container
    file that can be opened for reading and for writing, whatever it
    holds, and every index: opening the destination empties the file
    before anything was read from it, the seal header cannot be read,
    the run reports that and ends with [-EIO], and the file is left
    empty. *)
Theorem X20_extract_onto_the_container_empties_it :
  forall (w : world) (seama_path : string) (contents : list byte)
         (entity_idx : Z),
    seama_path <> "-"%string ->
    w_files w seama_path = Some contents ->
    w_creatable w seama_path = true ->
    0 <= entity_idx ->
    oseama_extract w (Some seama_path) entity_idx (Some seama_path)
    = Ok ({| status := - EIO; stdout := [];
             stderr := [ErrReadHeader seama_path] |}, []).
Proof.
  intros w seama_path contents entity_idx Hpath Hfile Hcreate Hidx.
  unfold oseama_extract, oseama_open, fopen_r, fopen_w, after_fopen_w.
  destruct (Z.ltb_spec entity_idx 0); [lia|].
  destruct (String.eqb_spec seama_path "-") as [E|_]; [contradiction|].
  cbn [negb andb]. rewrite Hfile, Hcreate, String.eqb_refl.
  cbn [andb f_pos f_seekable].
  unfold fread. cbn [f_data f_pos f_seekable skipn].
  rewrite firstn_nil. reflexivity.
Qed.

Lemma X20_witness :
  let e := {| ent_reserved := [NUL; NUL]; ent_md5 := repeat xff 16;
              ent_meta := [x61; x00]; ent_image := [x01; x02; x03] |} in
  oseama_extract
    (Sample.machine "fw" (container_bytes [NUL; NUL] [x62; x00] [e]))
    (Some "fw"%string) 0 (Some "fw"%string)
  = Ok ({| status := - EIO; stdout := []; stderr := [ErrReadHeader "fw"] |},
        []).
Proof.
  intros e.
  apply (X20_extract_onto_the_container_empties_it
           (Sample.machine "fw" (container_bytes [NUL; NUL] [x62; x00] [e]))
           "fw"%string (container_bytes [NUL; NUL] [x62; x00] [e]) 0).
  - discriminate.
  - reflexivity.
  - reflexivity.
  - lia.
Defined.
